(** * Resilient telemetry uplink: a shallow embedding of [http_uploader.py]

    The development models [HTTPUploader] (the spill queue kept in
    [self.cache] and persisted to [cache_file], the retry loop of
    [_upload_single], the drain of [_upload_cached_data] and [upload]) as
    computations in a small state-and-exception monad over an explicit
    world, and proves the properties the specification states about it.

    Conventions.
    - Python values that travel through the uploader (sensor dictionaries,
      JSON responses, the wire payload) are terms of [pyval].
    - Python floats are modelled by exact rationals ([Q]); [time.time()]
      is read from a clock oracle.
    - The collector, the clock and the disk are oracles of the environment
      [env]; the world counts how often each one has been consulted.
    - [json.dump] / [json.load] are library code: they are the section
      variables [json_dumps] and [json_loads].

    Around the uploader, the development also models the code that feeds
    it and the code that runs it: the reader of [sensor_reader.py], the
    check of [config.py], [Dashboard.update_data] of [dashboard/app.py],
    the logging and backup of [data_logger.py], and the collection loop
    of [main.py] with the HTTP uploader. Their random draws, wall clock,
    backup file and socket are oracles of a [host]. *)

From Stdlib Require Import List ZArith QArith Qround String Bool Lia Lqa Permutation.
Import ListNotations.
Set Warnings "-register-all".
Local Open Scope string_scope.
Local Open Scope list_scope.
Local Open Scope Z_scope.

(** ** Python values *)

Inductive pyval : Type :=
| PNone
| PBool (b : bool)
| PInt (z : Z)
| PFloat (q : Q)
| PStr (s : string)
| PList (l : list pyval)
| PDict (kvs : list (string * pyval)).

Definition Q_eq_dec (a b : Q) : {a = b} + {a <> b}.
Proof. decide equality; [apply Pos.eq_dec | apply Z.eq_dec]. Defined.

(** Structural equality on values. Python's [==] is coarser ([1 == 1.0],
    dictionaries compare without order) but both are reflexive, which is
    all [list.remove] needs where the uploader calls it. *)
Fixpoint pyval_eq_dec (x y : pyval) {struct x} : {x = y} + {x <> y}.
Proof.
  destruct x as [| a | a | a | a | a | a], y as [| b | b | b | b | b | b];
    try (right; discriminate).
  - left; reflexivity.
  - destruct (bool_dec a b); [left | right]; congruence.
  - destruct (Z.eq_dec a b); [left | right]; congruence.
  - destruct (Q_eq_dec a b); [left | right]; congruence.
  - destruct (string_dec a b); [left | right]; congruence.
  - destruct (list_eq_dec pyval_eq_dec a b); [left | right]; congruence.
  - assert (pair_dec : forall p q : string * pyval, {p = q} + {p <> q}).
    { intros [k1 v1] [k2 v2].
      destruct (string_dec k1 k2); [| right; congruence].
      destruct (pyval_eq_dec v1 v2); [left | right]; congruence. }
    destruct (list_eq_dec pair_dec a b); [left | right]; congruence.
Defined.

(** Truth value of a Python object ([if x:], [not x]). *)
Definition truthy (v : pyval) : bool :=
  match v with
  | PNone => false
  | PBool b => b
  | PInt z => negb (z =? 0)
  | PFloat q => negb (Qeq_bool q 0)
  | PStr s => negb (String.eqb s EmptyString)
  | PList l => match l with [] => false | _ => true end
  | PDict kvs => match kvs with [] => false | _ => true end
  end.

(** [len(x)] is defined on lists, dictionaries and strings. *)
Definition py_len (v : pyval) : option nat :=
  match v with
  | PList l => Some (List.length l)
  | PDict kvs => Some (List.length kvs)
  | PStr s => Some (String.length s)
  | _ => None
  end.

Fixpoint assoc (k : string) (kvs : list (string * pyval)) : option pyval :=
  match kvs with
  | [] => None
  | (k', v) :: rest => if String.eqb k k' then Some v else assoc k rest
  end.

(** ** Numbers

    [x % 1], [round(x, 1)] and [int(x)] on floats, over exact rationals. *)

Definition py_mod1 (x : Q) : Q := (x - inject_Z (Qfloor x))%Q.

(** Nearest integer, ties to the even neighbour (Python's [round]). *)
Definition round_half_even (y : Q) : Z :=
  let fl := Qfloor y in
  match ((y - inject_Z fl) ?= (1 # 2))%Q with
  | Lt => fl
  | Gt => fl + 1
  | Eq => if Z.even fl then fl else fl + 1
  end.

Definition py_round1 (x : Q) : Q :=
  (inject_Z (round_half_even (x * inject_Z 10)) / inject_Z 10)%Q.

(** [int(x)] truncates towards zero. *)
Definition py_int (x : Q) : Z :=
  if Qle_bool 0 x then Qfloor x else Qceiling x.

(** ** Environment, configuration and world *)

(** What one [requests.post] call produces: an exception, or a response
    with a status code and a body ([None] when [response.json()] raises). *)
Inductive response : Type :=
| Timeout
| ConnectionError
| OtherError
| Http (status : Z) (body : option pyval).

(** What opening [cache_file] for writing and dumping into it produces:
    success, a failure that leaves the file as it was, or a failure after
    the file was truncated, which leaves some partial text. *)
Inductive write_result : Type :=
| WriteOk
| WriteFailOpen
| WriteFailPartial (left_over : string).

Record env : Type := mkEnv {
  net : nat -> response;        (* the k-th request's outcome *)
  clock : nat -> Q;             (* the k-th reading of time.time() *)
  disk_write : nat -> write_result;  (* the k-th disk access, when a write *)
  disk_read : nat -> bool       (* the k-th disk access, when a read: readable? *)
}.

Record config : Type := mkConfig {
  retry_times : Z;      (* config.HTTP_RETRY_TIMES *)
  enable_cache : bool;  (* config.ENABLE_CACHE *)
  verbose : bool        (* config.VERBOSE *)
}.

Inductive level : Type := DEBUG | INFO | WARNING | ERROR.

Inductive event : Type :=
| EvPost (sensor_data payload : pyval) (r : response)
| EvSleep (seconds : Z).

Record world : Type := mkWorld {
  cache : pyval;                    (* self.cache *)
  file : option string;             (* contents of cache_file, if it exists *)
  data_logger : option (option Z);  (* self.data_logger and its last_successful_upload *)
  posts : nat;                      (* requests sent so far *)
  ticks : nat;                      (* clock readings so far *)
  ios : nat;                        (* disk accesses so far *)
  trace : list event;               (* requests and sleeps, oldest first *)
  logs : list (level * string)      (* logger calls, oldest first *)
}.

Definition with_cache (c : pyval) (w : world) : world :=
  mkWorld c (file w) (data_logger w) (posts w) (ticks w) (ios w) (trace w) (logs w).
Definition with_file (f : option string) (w : world) : world :=
  mkWorld (cache w) f (data_logger w) (posts w) (ticks w) (ios w) (trace w) (logs w).
Definition with_data_logger (d : option (option Z)) (w : world) : world :=
  mkWorld (cache w) (file w) d (posts w) (ticks w) (ios w) (trace w) (logs w).
Definition with_posts (n : nat) (w : world) : world :=
  mkWorld (cache w) (file w) (data_logger w) n (ticks w) (ios w) (trace w) (logs w).
Definition with_ticks (n : nat) (w : world) : world :=
  mkWorld (cache w) (file w) (data_logger w) (posts w) n (ios w) (trace w) (logs w).
Definition with_ios (n : nat) (w : world) : world :=
  mkWorld (cache w) (file w) (data_logger w) (posts w) (ticks w) n (trace w) (logs w).
Definition with_trace (t : list event) (w : world) : world :=
  mkWorld (cache w) (file w) (data_logger w) (posts w) (ticks w) (ios w) t (logs w).
Definition with_logs (l : list (level * string)) (w : world) : world :=
  mkWorld (cache w) (file w) (data_logger w) (posts w) (ticks w) (ios w) (trace w) l.

(** ** The monad: state with Python exceptions *)

Inductive exn : Type :=
| AttributeError | TypeError | ValueError | OSError | JSONDecodeError
| ETimeout | EConnectionError | EOther.

Inductive outcome (A : Type) : Type :=
| Ret (a : A)
| Raise (e : exn).
Arguments Ret {A} a.
Arguments Raise {A} e.

Definition M (A : Type) : Type := world -> outcome A * world.

Definition ret {A} (a : A) : M A := fun w => (Ret a, w).
Definition raise {A} (e : exn) : M A := fun w => (Raise e, w).
Definition bind {A B} (m : M A) (k : A -> M B) : M B :=
  fun w => match m w with
           | (Ret a, w') => k a w'
           | (Raise e, w') => (Raise e, w')
           end.
(** [try: body except Exception as e: handler e] *)
Definition try_except {A} (body : M A) (handler : exn -> M A) : M A :=
  fun w => match body w with
           | (Ret a, w') => (Ret a, w')
           | (Raise e, w') => handler e w'
           end.
Definition lift {A} (o : outcome A) : M A := fun w => (o, w).
Definition gets {A} (f : world -> A) : M A := fun w => (Ret (f w), w).
Definition modify (f : world -> world) : M unit := fun w => (Ret tt, f w).
Definition when (b : bool) (m : M unit) : M unit := if b then m else ret tt.

Notation "x <- m ;; k" := (bind m (fun x => k))
  (at level 61, m at next level, right associativity).
Notation "m ;;; k" := (bind m (fun _ => k))
  (at level 61, right associativity).

Definition log (l : level) (msg : string) : M unit :=
  modify (fun w => with_logs (logs w ++ [(l, msg)]) w).

(** ** Python primitives used by the uploader *)

(** [d.get(k, default)]: only dictionaries have [get]. *)
Definition py_get (d : pyval) (k : string) (default : pyval) : outcome pyval :=
  match d with
  | PDict kvs => Ret (match assoc k kvs with Some v => v | None => default end)
  | _ => Raise AttributeError
  end.

Definition is_none (v : pyval) : bool :=
  match v with PNone => true | _ => false end.

(** [len(x)] inside an expression: [TypeError] where there is no length. *)
Definition py_len_exn (v : pyval) : outcome nat :=
  match py_len v with Some n => Ret n | None => Raise TypeError end.

Fixpoint string_chars (s : string) : list pyval :=
  match s with
  | EmptyString => []
  | String c s' => PStr (String c EmptyString) :: string_chars s'
  end.

(** [for data in x]: the items of a list, the keys of a dictionary, the
    characters of a string. *)
Definition py_iter (v : pyval) : outcome (list pyval) :=
  match v with
  | PList l => Ret l
  | PDict kvs => Ret (map (fun kv => PStr (fst kv)) kvs)
  | PStr s => Ret (string_chars s)
  | _ => Raise TypeError
  end.

(** [l.remove(x)]: drops the first item equal to [x]; [None] stands for
    the [ValueError] raised when there is none. *)
Fixpoint list_remove (x : pyval) (l : list pyval) : option (list pyval) :=
  match l with
  | [] => None
  | y :: l' =>
      if pyval_eq_dec y x then Some l'
      else match list_remove x l' with
           | Some r => Some (y :: r)
           | None => None
           end
  end.

Section Uploader.

Variable E : env.
Variable cfg : config.
(** [json.dump(obj, f, ensure_ascii=False, indent=2)] as text, and
    [json.load(f)], [None] standing for a decoding error. *)
Variable json_dumps : pyval -> string.
Variable json_loads : string -> option pyval.

Definition time_time : M Q := fun w =>
  (Ret (clock E (ticks w)), with_ticks (S (ticks w)) w).

Definition time_sleep (seconds : Z) : M unit :=
  modify (fun w => with_trace (trace w ++ [EvSleep seconds]) w).

(** [requests.post(self.url, json=payload, ...)]: the request is recorded
    with its outcome; an exception of the transport is raised. *)
Definition requests_post (sensor_data payload : pyval) : M (Z * option pyval) :=
  fun w =>
    let r := net E (posts w) in
    let w' := with_posts (S (posts w))
                (with_trace (trace w ++ [EvPost sensor_data payload r]) w) in
    match r with
    | Timeout => (Raise ETimeout, w')
    | ConnectionError => (Raise EConnectionError, w')
    | OtherError => (Raise EOther, w')
    | Http status body => (Ret (status, body), w')
    end.

(** [response.json()] *)
Definition response_json (body : option pyval) : outcome pyval :=
  match body with Some v => Ret v | None => Raise JSONDecodeError end.

(** [with open(self.cache_file, 'r') as f: json.load(f)] on an existing
    file with contents [text]. *)
Definition open_and_load (text : string) : M pyval := fun w =>
  let w' := with_ios (S (ios w)) w in
  if disk_read E (ios w) then
    match json_loads text with
    | Some v => (Ret v, w')
    | None => (Raise JSONDecodeError, w')
    end
  else (Raise OSError, w').

(** [with open(self.cache_file, 'w') as f: json.dump(self.cache, f, ...)] *)
Definition open_and_dump : M unit := fun w =>
  let w' := with_ios (S (ios w)) w in
  match disk_write E (ios w) with
  | WriteOk => (Ret tt, with_file (Some (json_dumps (cache w))) w')
  | WriteFailOpen => (Raise OSError, w')
  | WriteFailPartial s => (Raise OSError, with_file (Some s) w')
  end.

(** *** data_logger.py: [DataLogger.mark_upload_success] *)
Definition mark_upload_success (timestamp : Z) : M unit :=
  ts <- (if timestamp =? 0
         then (now <- time_time ;; ret (py_int now))
         else ret timestamp) ;;
  modify (with_data_logger (Some (Some ts))) ;;;
  log INFO "upload success marked".

(** *** [HTTPUploader.set_data_logger]: the logger and the time of its
    last marked upload. *)
Definition set_data_logger (last_successful_upload : option Z) : M unit :=
  modify (with_data_logger (Some last_successful_upload)) ;;;
  log INFO "data logger set".

(** *** [HTTPUploader._load_cache] *)
Definition _load_cache : M unit :=
  f <- gets file ;;
  match f with
  | None => modify (with_cache (PList []))
  | Some text =>
      try_except
        (v <- open_and_load text ;;
         modify (with_cache v) ;;;
         if truthy v
         then (n <- lift (py_len_exn v) ;; log INFO "cached entries loaded")
         else ret tt)
        (fun e =>
           log WARNING "loading the cache file failed" ;;;
           modify (with_cache (PList [])))
  end.

(** *** [HTTPUploader.__init__] (the part that concerns the cache) *)
Definition __init__ : M unit :=
  modify (with_data_logger None) ;;;
  modify (with_cache (PList [])) ;;;
  when (enable_cache cfg) _load_cache.

(** *** [HTTPUploader._save_cache] *)
Definition _save_cache : M unit :=
  try_except
    (open_and_dump ;;;
     c <- gets cache ;;
     n <- lift (py_len_exn c) ;;
     log DEBUG "cache saved")
    (fun e => log ERROR "saving the cache file failed").

(** [self.cache.append(x)] *)
Definition cache_append (x : pyval) : M unit :=
  c <- gets cache ;;
  match c with
  | PList l => modify (with_cache (PList (l ++ [x])))
  | _ => raise AttributeError
  end.

(** [self.cache.remove(x)] *)
Definition cache_remove (x : pyval) : M unit :=
  c <- gets cache ;;
  match c with
  | PList l =>
      match list_remove x l with
      | Some l' => modify (with_cache (PList l'))
      | None => raise ValueError
      end
  | _ => raise AttributeError
  end.

(** *** [HTTPUploader._add_to_cache] *)
Definition _add_to_cache (sensor_data : pyval) : M unit :=
  if negb (enable_cache cfg) then ret tt
  else
    cache_append sensor_data ;;;
    _save_cache ;;;
    c <- gets cache ;;
    n <- lift (py_len_exn c) ;;
    log INFO "data cached locally".

(** *** [HTTPUploader._upload_single]: the wire payload *)

(** The fallbacks substituted for an absent reading. *)
Definition fallback_temp (now : Q) : pyval :=
  PFloat (py_round1 (22 + 2 * py_mod1 now)%Q).
Definition fallback_humidity (now : Q) : pyval :=
  PFloat (py_round1 (53 + 4 * py_mod1 now)%Q).
Definition fallback_pressure (now : Q) : pyval :=
  PFloat (py_round1 (1012 + 2 * py_mod1 now)%Q).
Definition fallback_light (now : Q) : pyval :=
  PInt (py_int (1150 + 100 * py_mod1 now)%Q).

(** [v = sensors.get(name, {}).get('value')], then
    [if v is None: v = fallback(time.time())]. *)
Definition sensor_value (sensors : pyval) (name : string)
    (fallback : Q -> pyval) : M pyval :=
  entry <- lift (py_get sensors name (PDict [])) ;;
  v <- lift (py_get entry "value" PNone) ;;
  if is_none v
  then (now <- time_time ;; ret (fallback now))
  else ret v.

Definition make_payload (temp humidity pressure light : pyval) : pyval :=
  PDict
    [ ("uav", PDict [ ("lng", PFloat (1206551 # 10000));
                      ("lat", PFloat (361251 # 10000));
                      ("alt", PFloat (553 # 10));
                      ("status", PStr "Ready") ]);
      ("usv", PDict [ ("lng", PFloat (1206621 # 10000));
                      ("lat", PFloat (361182 # 10000));
                      ("temp", temp);
                      ("humidity", humidity);
                      ("pressure", pressure);
                      ("light", light);
                      ("status", PStr "Active") ]);
      ("scores", PDict [ ("water_quality", PFloat (912 # 10));
                         ("dam_safety", PFloat (975 # 10)) ]) ].

Definition build_payload (sensor_data : pyval) : M pyval :=
  sensors <- lift (py_get sensor_data "sensors" (PDict [])) ;;
  temp_val <- sensor_value sensors "temperature" fallback_temp ;;
  humidity_val <- sensor_value sensors "humidity" fallback_humidity ;;
  pressure_val <- sensor_value sensors "pressure" fallback_pressure ;;
  light_val <- sensor_value sensors "light" fallback_light ;;
  ret (make_payload temp_val humidity_val pressure_val light_val).

(** *** [HTTPUploader._upload_single]: one pass of the retry loop

    The body of the [try] statement. [Some b] stands for [return b],
    [None] for falling through to the back-off below the handlers. *)
Definition attempt_body (sensor_data payload : pyval) (use_retry : bool)
    (attempt max_attempts : Z) : M (option bool) :=
  try_except
    (when (use_retry && (1 <? attempt)) (log INFO "retrying upload") ;;;
     response <- requests_post sensor_data payload ;;
     let '(status_code, body) := response in
     if status_code =? 200 then
       result <- lift (response_json body) ;;
       ok <- lift (py_get result "ok" PNone) ;;
       if truthy ok then
         log INFO "data uploaded" ;;;
         dl <- gets data_logger ;;
         match dl with
         | Some _ => now <- time_time ;; mark_upload_success (py_int now)
         | None => ret tt
         end ;;;
         when (verbose cfg)
           (log INFO "data sent:" ;;; log INFO "payload") ;;;
         ret (Some true)
       else
         log ERROR "server returned an error" ;;;
         ret (Some false)
     else
       log WARNING "upload failed, status code" ;;;
       when (verbose cfg)
         (log DEBUG "response text" ;;; log DEBUG "data sent") ;;;
       ret None)
    (fun e =>
       match e with
       | ETimeout => log WARNING "request timed out"
       | EConnectionError => log WARNING "cannot connect to the server"
       | _ => log ERROR "upload error"
       end ;;;
       ret None).

(** [for attempt in range(1, max_attempts + 1)], [fuel] being the number
    of values left in the range. *)
Fixpoint retry_loop (fuel : nat) (sensor_data payload : pyval)
    (use_retry : bool) (attempt max_attempts : Z) : M bool :=
  match fuel with
  | O =>
      when use_retry (log ERROR "upload failed after all retries") ;;;
      ret false
  | S fuel' =>
      r <- attempt_body sensor_data payload use_retry attempt max_attempts ;;
      match r with
      | Some b => ret b
      | None =>
          when (use_retry && (attempt <? max_attempts))
            (log INFO "waiting before the retry" ;;;
             time_sleep (2 ^ attempt)) ;;;
          retry_loop fuel' sensor_data payload use_retry
            (attempt + 1) max_attempts
      end
  end.

Definition _upload_single (sensor_data : pyval) (use_retry : bool) : M bool :=
  payload <- build_payload sensor_data ;;
  let max_attempts := if use_retry then retry_times cfg else 1 in
  retry_loop (Z.to_nat max_attempts) sensor_data payload use_retry
    1 max_attempts.

(** *** [HTTPUploader._upload_cached_data] *)

(** The first loop: upload without retry, stop at the first failure. *)
Fixpoint drain_loop (items uploaded : list pyval) : M (list pyval) :=
  match items with
  | [] => ret uploaded
  | data :: rest =>
      ok <- _upload_single data false ;;
      if ok then drain_loop rest (uploaded ++ [data]) else ret uploaded
  end.

(** The second loop: [for data in uploaded: self.cache.remove(data)]. *)
Fixpoint remove_uploaded (uploaded : list pyval) : M unit :=
  match uploaded with
  | [] => ret tt
  | data :: rest => cache_remove data ;;; remove_uploaded rest
  end.

Definition _upload_cached_data : M unit :=
  c <- gets cache ;;
  if negb (truthy c) then ret tt
  else
    n <- lift (py_len_exn c) ;;
    log INFO "uploading cached entries" ;;;
    items <- lift (py_iter c) ;;
    uploaded <- drain_loop items [] ;;
    remove_uploaded uploaded ;;;
    match uploaded with
    | [] => ret tt
    | _ => _save_cache ;;; log INFO "cached entries uploaded"
    end.

(** *** [HTTPUploader.upload] *)
Definition upload (sensor_data : pyval) : M bool :=
  success <- _upload_single sensor_data true ;;
  when (negb success && enable_cache cfg) (_add_to_cache sensor_data) ;;;
  c <- gets cache ;;
  when (success && truthy c) _upload_cached_data ;;;
  ret success.

(** A run of the collection loop: [upload] on each reading set in turn. *)
Fixpoint upload_all (inputs : list pyval) : M (list bool) :=
  match inputs with
  | [] => ret []
  | x :: rest =>
      b <- upload x ;;
      bs <- upload_all rest ;;
      ret (b :: bs)
  end.

End Uploader.

(** * Specification-level notions *)

(** How [_upload_single] treats the outcome of one request. *)
Inductive verdict : Type := Accepted | Rejected | Retry.

Definition verdict_of (r : response) : verdict :=
  match r with
  | Http status (Some (PDict kvs)) =>
      if status =? 200 then
        if truthy (match assoc "ok" kvs with Some v => v | None => PNone end)
        then Accepted else Rejected
      else Retry
  | _ => Retry
  end.

Definition result_of (v : verdict) : option bool :=
  match v with
  | Accepted => Some true
  | Rejected => Some false
  | Retry => None
  end.

Definition is_dict (v : pyval) : bool :=
  match v with PDict _ => true | _ => false end.

Definition reading_ok (sensors : list (string * pyval)) (name : string) : bool :=
  match assoc name sensors with
  | Some entry => is_dict entry
  | None => true
  end.

(** A reading set as [SensorReader.read_all_sensors] builds it: a
    dictionary whose ['sensors'], when present, is a dictionary whose
    entries for the four sensors, when present, are dictionaries. These
    are exactly the inputs on which building the payload raises nothing. *)
Definition well_formed (sd : pyval) : bool :=
  match sd with
  | PDict kvs =>
      match assoc "sensors" kvs with
      | None => true
      | Some (PDict s) =>
          reading_ok s "temperature" && reading_ok s "humidity"
          && reading_ok s "pressure" && reading_ok s "light"
      | Some _ => false
      end
  | _ => false
  end.

Definition is_post (e : event) : bool :=
  match e with EvPost _ _ _ => true | EvSleep _ => false end.

(** The reading sets of the requests the collector accepted, in order. *)
Fixpoint acked (t : list event) : list pyval :=
  match t with
  | [] => []
  | EvPost sd _ r :: t' =>
      match verdict_of r with
      | Accepted => sd :: acked t'
      | _ => acked t'
      end
  | EvSleep _ :: t' => acked t'
  end.

(** Only the clock was read between [w] and [w']. *)
Definition only_ticks (w w' : world) : Prop := w' = with_ticks (ticks w') w.

Definition count_posts (t : list event) : nat := List.length (filter is_post t).

(** The requests and sleeps of [retry_loop], and its result, read off the
    collector's answers from request number [i] on. *)
Fixpoint retry_events (net : nat -> response) (fuel : nat)
    (sd p : pyval) (use_retry : bool) (a mx : Z) (i : nat)
  : list event * bool :=
  match fuel with
  | O => ([], false)
  | S fuel' =>
      match result_of (verdict_of (net i)) with
      | Some b => ([EvPost sd p (net i)], b)
      | None =>
          let rest := retry_events net fuel' sd p use_retry (a + 1) mx (S i) in
          (EvPost sd p (net i)
             :: (if (use_retry && (a <? mx))%bool then [EvSleep (2 ^ a)] else [])
             ++ fst rest,
           snd rest)
      end
  end.

(** The reading set and the outcome of each request, in order. *)
Fixpoint attempts (t : list event) : list (pyval * response) :=
  match t with
  | [] => []
  | EvPost sd _ r :: t' => (sd, r) :: attempts t'
  | EvSleep _ :: t' => attempts t'
  end.

(** The waits, in order. *)
Fixpoint sleeps (t : list event) : list Z :=
  match t with
  | [] => []
  | EvPost _ _ _ :: t' => sleeps t'
  | EvSleep s :: t' => s :: sleeps t'
  end.

(** How many entries at the head of [items] the collector accepts when
    they are sent one request each, from request number [i] on. *)
Fixpoint drained (net : nat -> response) (items : list pyval) (i : nat) : nat :=
  match items with
  | [] => O
  | _ :: rest =>
      match verdict_of (net i) with
      | Accepted => S (drained net rest (S i))
      | _ => O
      end
  end.

(** What [cache_file] holds after a write of the queue [c] at disk access
    number [i], having held [old] before. *)
Definition file_after_write (E : env) (json_dumps : pyval -> string)
    (i : nat) (old : option string) (c : pyval) : option string :=
  match disk_write E i with
  | WriteOk => Some (json_dumps c)
  | WriteFailOpen => old
  | WriteFailPartial s => Some s
  end.

(** The world [w'] a drain of the queue [q] reaches from [w1]. *)
Definition after_drain (E : env) (json_dumps : pyval -> string)
    (q : list pyval) (w1 w' : world) : Prop :=
  let k := drained (net E) q (posts w1) in
  let m := Nat.min (S k) (List.length q) in
  exists t,
    cache w' = PList (skipn k q)
    /\ trace w' = trace w1 ++ t
    /\ posts w' = (posts w1 + m)%nat
    /\ forallb is_post t = true
    /\ attempts t = combine (firstn m q) (map (net E) (seq (posts w1) m))
    /\ acked t = firstn k q
    /\ ios w' = (match k with O => ios w1 | S _ => S (ios w1) end)
    /\ file w' = match k with
                 | O => file w1
                 | S _ => file_after_write E json_dumps (ios w1) (file w1)
                            (PList (skipn k q))
                 end.

(** The world [w'] that appending [sd] to the queue [q] reaches from [w1]. *)
Definition after_append (E : env) (json_dumps : pyval -> string)
    (q : list pyval) (sd : pyval) (w1 w' : world) : Prop :=
  cache w' = PList (q ++ [sd])
  /\ trace w' = trace w1
  /\ posts w' = posts w1
  /\ ios w' = S (ios w1)
  /\ file w' = file_after_write E json_dumps (ios w1) (file w1)
                 (PList (q ++ [sd])).

(** The inputs whose upload returned [False], in order. *)
Fixpoint failed (inputs : list pyval) (results : list bool) : list pyval :=
  match inputs, results with
  | x :: xs, b :: bs => if b then failed xs bs else x :: failed xs bs
  | _, _ => []
  end.

(** The queue in memory is the one a restart would reload from
    [cache_file]. *)
Definition persisted (E : env) (cfg : config)
    (json_loads : string -> option pyval) (w : world) : Prop :=
  cache (snd (__init__ E cfg json_loads w)) = cache w.

(** The append precondition in the words of the specification: [upload]
    appends a reading set to the queue only when its delivery has used up
    the retry budget. *)
Definition appended_only_after_exhaustion (E : env) (cfg : config)
    (json_dumps : pyval -> string) : Prop :=
  forall sd w q b w',
    well_formed sd = true ->
    cache w = PList q ->
    upload E cfg json_dumps sd w = (Ret b, w') ->
    cache w' = PList (q ++ [sd]) ->
    posts w' = (posts w + Z.to_nat (retry_times cfg))%nat.

(** Reporting a failed write to the caller, in the words of the
    specification: when the write of the queue fails, [_add_to_cache] does
    not return normally. *)
Definition write_failure_reported (E : env) (cfg : config)
    (json_dumps : pyval -> string) : Prop :=
  forall sd w q,
    enable_cache cfg = true ->
    cache w = PList q ->
    disk_write E (ios w) <> WriteOk ->
    fst (_add_to_cache E cfg json_dumps sd w) <> Ret tt.

(** The reading [sensor_data['sensors'][name]['value']], when every
    level is there and the value is not [None]. *)
Definition reading_of (sd : pyval) (name : string) : option pyval :=
  match sd with
  | PDict kvs =>
      match assoc "sensors" kvs with
      | Some (PDict s) =>
          match assoc name s with
          | Some (PDict e) =>
              match assoc "value" e with
              | Some v => if is_none v then None else Some v
              | None => None
              end
          | _ => None
          end
      | _ => None
      end
  | _ => None
  end.

(** The field [payload['usv'][name]] of a wire payload. *)
Definition usv_field (payload : pyval) (name : string) : option pyval :=
  match payload with
  | PDict kvs =>
      match assoc "usv" kvs with
      | Some (PDict usv) => assoc name usv
      | _ => None
      end
  | _ => None
  end.

Definition float_between (lo hi : Q) (v : pyval) : Prop :=
  exists x, v = PFloat x /\ (lo <= x)%Q /\ (x <= hi)%Q.

Definition int_between (lo hi : Z) (v : pyval) : Prop :=
  exists z, v = PInt z /\ lo <= z <= hi.

(** What the payload field [field] must be for the sensor [name] of the
    reading set [sd]: the reading when there is one, else a value that
    satisfies [near_baseline]. *)
Definition field_ok (sd payload : pyval) (name field : string)
    (near_baseline : pyval -> Prop) : Prop :=
  exists v,
    usv_field payload field = Some v
    /\ v <> PNone
    /\ match reading_of sd name with
       | Some r => v = r
       | None => near_baseline v
       end.

Ltac munfold :=
  unfold _upload_single, build_payload, sensor_value, attempt_body,
    mark_upload_success, _load_cache, _save_cache, _add_to_cache,
    cache_append, cache_remove, open_and_load, open_and_dump,
    requests_post, response_json, time_time, time_sleep, log,
    try_except, when, bind, ret, raise, lift, gets, modify in *.

(** * Sample data

    A small JSON printer and parser, reading sets, collectors and disks,
    on which the statements below are evaluated. *)

Module Sample.

Import Ascii.

Definition quote : ascii := ascii_of_nat 34.

Definition is_digit (c : ascii) : bool :=
  let n := nat_of_ascii c in (Nat.leb 48 n && Nat.leb n 57)%bool.

Definition is_space (c : ascii) : bool :=
  let n := nat_of_ascii c in
  (Nat.eqb n 32 || Nat.eqb n 10 || Nat.eqb n 13 || Nat.eqb n 9)%bool.

Definition digit_char (d : Z) : ascii := ascii_of_nat (48 + Z.to_nat d).

(** The [n] low decimal digits of [z], most significant first. *)
Fixpoint digits (n : nat) (z : Z) (acc : string) : string :=
  match n with
  | O => acc
  | S n' => digits n' (z / 10) (String (digit_char (z mod 10)) acc)
  end.

Fixpoint n_digits (fuel : nat) (z : Z) : nat :=
  match fuel with
  | O => 1%nat
  | S fuel' => if z <? 10 then 1%nat else S (n_digits fuel' (z / 10))
  end.

Definition print_nat (z : Z) : string := digits (n_digits 40 z) z EmptyString.

Definition print_int (z : Z) : string :=
  if z <? 0 then String "-" (print_nat (- z)) else print_nat z.

(** The number of decimals of a denominator that is a power of ten. *)
Fixpoint decimals (fuel : nat) (d : Z) : option nat :=
  match fuel with
  | O => None
  | S fuel' =>
      if d =? 1 then Some O
      else if d mod 10 =? 0
           then option_map S (decimals fuel' (d / 10))
           else None
  end.

(** A float prints as [int.frac] when its denominator is 10, 100, ...;
    other denominators print as [num/den]. *)
Definition print_float (q : Q) : string :=
  let n := Qnum q in
  let d := Zpos (Qden q) in
  match decimals 40 d with
  | Some (S k) =>
      let a := Z.abs n in
      let sign := if n <? 0 then "-" else EmptyString in
      let int_part := print_nat (a / d) in
      let frac_part := digits (S k) (a mod d) EmptyString in
      (sign ++ int_part ++ "." ++ frac_part)%string
  | _ => (print_int n ++ "/" ++ print_nat d)%string
  end.

Definition print_string (s : string) : string :=
  String quote (s ++ String quote EmptyString)%string.

Fixpoint json_dumps (v : pyval) : string :=
  match v with
  | PNone => "null"
  | PBool true => "true"
  | PBool false => "false"
  | PInt z => print_int z
  | PFloat q => print_float q
  | PStr s => print_string s
  | PList l => ("[" ++ String.concat ", " (map json_dumps l) ++ "]")%string
  | PDict kvs =>
      ("{" ++ String.concat ", "
                (map (fun kv => print_string (fst kv) ++ ": " ++ json_dumps (snd kv)) kvs)
           ++ "}")%string
  end.

Fixpoint skip_spaces (s : string) : string :=
  match s with
  | String c r => if is_space c then skip_spaces r else s
  | EmptyString => s
  end.

Fixpoint read_digits (s : string) (acc : Z) (count : nat) : Z * nat * string :=
  match s with
  | String c r =>
      if is_digit c
      then read_digits r (acc * 10 + Z.of_nat (nat_of_ascii c - 48)) (S count)
      else (acc, count, s)
  | EmptyString => (acc, count, s)
  end.

Definition read_number (s : string) : option (pyval * string) :=
  let '(neg, s1) :=
    match s with
    | String "-" r => (true, r)
    | _ => (false, s)
    end in
  let sign (z : Z) := if neg then - z else z in
  let '(ip, n1, s2) := read_digits s1 0 O in
  match n1 with
  | O => None
  | S _ =>
      match s2 with
      | String "." r =>
          let '(fp, n2, s3) := read_digits r 0 O in
          match n2 with
          | O => None
          | S _ =>
              let den := 10 ^ Z.of_nat n2 in
              Some (PFloat (sign (ip * den + fp) # Z.to_pos den), s3)
          end
      | String "/" r =>
          let '(d, n2, s3) := read_digits r 0 O in
          match n2 with
          | O => None
          | S _ => Some (PFloat (sign ip # Z.to_pos d), s3)
          end
      | _ => Some (PInt (sign ip), s2)
      end
  end.

(** The characters up to the closing quote (no escapes). *)
Fixpoint read_string (s acc : string) : option (string * string) :=
  match s with
  | EmptyString => None
  | String c r =>
      if Ascii.eqb c quote then Some (acc, r)
      else read_string r (acc ++ String c EmptyString)%string
  end.

Definition expect (word : string) (v : pyval) (s : string)
  : option (pyval * string) :=
  if String.prefix word s
  then Some (v, String.substring (String.length word)
                  (String.length s - String.length word) s)
  else None.

Fixpoint read_value (fuel : nat) (s : string) : option (pyval * string) :=
  match fuel with
  | O => None
  | S fuel' =>
      match skip_spaces s with
      | EmptyString => None
      | String c r as s' =>
          if Ascii.eqb c "n" then expect "null" PNone s'
          else if Ascii.eqb c "t" then expect "true" (PBool true) s'
          else if Ascii.eqb c "f" then expect "false" (PBool false) s'
          else if Ascii.eqb c quote then
            match read_string r EmptyString with
            | Some (str, rest) => Some (PStr str, rest)
            | None => None
            end
          else if Ascii.eqb c "[" then
            match skip_spaces r with
            | String "]" rest => Some (PList [], rest)
            | r' =>
                match read_items fuel' r' with
                | Some (l, rest) => Some (PList l, rest)
                | None => None
                end
            end
          else if Ascii.eqb c "{" then
            match skip_spaces r with
            | String "}" rest => Some (PDict [], rest)
            | r' =>
                match read_members fuel' r' with
                | Some (kvs, rest) => Some (PDict kvs, rest)
                | None => None
                end
            end
          else read_number s'
      end
  end
with read_items (fuel : nat) (s : string) : option (list pyval * string) :=
  match fuel with
  | O => None
  | S fuel' =>
      match read_value fuel' s with
      | Some (v, rest) =>
          match skip_spaces rest with
          | String "," rest' =>
              match read_items fuel' rest' with
              | Some (l, rest'') => Some (v :: l, rest'')
              | None => None
              end
          | String "]" rest' => Some ([v], rest')
          | _ => None
          end
      | None => None
      end
  end
with read_members (fuel : nat) (s : string)
  : option (list (string * pyval) * string) :=
  match fuel with
  | O => None
  | S fuel' =>
      match skip_spaces s with
      | String c r =>
          if Ascii.eqb c quote then
            match read_string r EmptyString with
            | Some (k, rest) =>
                match skip_spaces rest with
                | String ":" rest1 =>
                    match read_value fuel' rest1 with
                    | Some (v, rest2) =>
                        match skip_spaces rest2 with
                        | String "," rest3 =>
                            match read_members fuel' rest3 with
                            | Some (kvs, rest4) => Some ((k, v) :: kvs, rest4)
                            | None => None
                            end
                        | String "}" rest3 => Some ([(k, v)], rest3)
                        | _ => None
                        end
                    | None => None
                    end
                | _ => None
                end
            | None => None
            end
          else None
      | EmptyString => None
      end
  end.

(** The whole text must be one value. *)
Definition json_loads (s : string) : option pyval :=
  match read_value (S (String.length s)) s with
  | Some (v, rest) =>
      match skip_spaces rest with
      | EmptyString => Some v
      | _ => None
      end
  | None => None
  end.

(** A reading set as [read_all_sensors] builds it with all four sensors. *)
Definition reading (timestamp : string) (temp : Q) (light : Z) : pyval :=
  PDict
    [ ("timestamp", PStr timestamp);
      ("sensors",
       PDict
         [ ("temperature", PDict [("value", PFloat temp); ("unit", PStr "C")]);
           ("humidity", PDict [("value", PFloat (547 # 10)); ("unit", PStr "%")]);
           ("pressure", PDict [("value", PFloat (10129 # 10)); ("unit", PStr "hPa")]);
           ("light", PDict [("value", PInt light); ("unit", PStr "lux")]) ]) ].

Definition rs_A : pyval := reading "2024-01-01T12:00:00" (228 # 10) 1180.
Definition rs_B : pyval := reading "2024-01-01T12:00:30" (229 # 10) 1175.
Definition rs_C : pyval := reading "2024-01-01T12:01:00" (231 # 10) 1168.
Definition rs_D : pyval := reading "2024-01-01T12:01:30" (230 # 10) 1171.

(** A reading set in which only the temperature was read. *)
Definition rs_partial : pyval :=
  PDict
    [ ("timestamp", PStr "2024-01-01T12:02:00");
      ("sensors",
       PDict [("temperature", PDict [("value", PFloat (225 # 10)); ("unit", PStr "C")])]) ].

Definition accepted : response :=
  Http 200 (Some (PDict [("ok", PBool true); ("server_ts", PInt 1700000000)])).
Definition rejected : response :=
  Http 200 (Some (PDict [("ok", PBool false); ("err", PStr "bad payload")])).
Definition unavailable : response := Http 503 None.

(** A collector that answers the requests with [answers], then [default]. *)
Definition script (answers : list response) (default : response)
  : nat -> response :=
  fun i => nth i answers default.

Definition the_clock : nat -> Q :=
  fun k => ((17000000123456 # 10000) + inject_Z (Z.of_nat k))%Q.

(** A working disk, and a disk whose writes fail. *)
Definition env_of (nt : nat -> response) : env :=
  mkEnv nt the_clock (fun _ => WriteOk) (fun _ => true).
Definition env_full_disk (nt : nat -> response) : env :=
  mkEnv nt the_clock (fun _ => WriteFailOpen) (fun _ => true).
Definition env_unreadable (nt : nat -> response) : env :=
  mkEnv nt the_clock (fun _ => WriteOk) (fun _ => false).

Definition cfg : config := mkConfig 3 true false.

(** The uploader with the queue [q] in memory and [f] on disk. *)
Definition world_of (q : list pyval) (f : option string) : world :=
  mkWorld (PList q) f None O O O [] [].

End Sample.

(** * More of the uploader *)

(** Seconds slept in all. *)
Definition total_sleep (t : list event) : Z := fold_right Z.add 0 (sleeps t).

(** *** [HTTPUploader.get_server_data]

    [answer] is what [requests.get(url, timeout=self.timeout)] produces.
    [PNone] is Python's [None]. *)
Definition get_server_data (answer : response) : M pyval :=
  try_except
    (log INFO "fetching data from the server" ;;;
     response <- (match answer with
                  | Timeout => raise ETimeout
                  | ConnectionError => raise EConnectionError
                  | OtherError => raise EOther
                  | Http status body => ret (status, body)
                  end) ;;
     let '(status_code, body) := response in
     if status_code =? 200 then
       data <- lift (response_json body) ;;
       log INFO "server data fetched" ;;;
       ret data
     else
       log ERROR "fetching data failed, status code" ;;;
       ret PNone)
    (fun e =>
       match e with
       | EConnectionError => log ERROR "cannot connect to the server"
       | ETimeout => log ERROR "request timed out"
       | _ => log ERROR "error while fetching data"
       end ;;;
       ret PNone).

(** A value [self.cache] can hold that is not a list. *)
Definition not_a_list (v : pyval) : bool :=
  match v with PList _ => false | _ => true end.

(** * sensor_reader.py

    Random draws, the wall clock as text and the other answers of the
    host are oracles, each indexed by a step counter. *)

Record host : Type := mkHost {
  uniform01 : nat -> Q;          (* random.random(), behind random.uniform *)
  randint_0_1000 : nat -> Z;     (* random.randint(0, 1000) *)
  isoformat_now : nat -> string; (* datetime.now().isoformat() *)
  unix_time : nat -> Q;          (* time.time() *)
  strftime_now : nat -> string;  (* time.strftime('%H:%M:%S') *)
  backup_name : nat -> string;   (* the backup file of the day *)
  backup_ok : nat -> bool;       (* whether appending to it works *)
  emit_ok : nat -> bool          (* whether socketio.emit returns *)
}.

(** [round(x, 2)] *)
Definition py_round2 (x : Q) : Q :=
  (inject_Z (round_half_even (x * inject_Z 100)) / inject_Z 100)%Q.

(** [random.uniform(a, b)], that is [a + (b - a) * random()]. *)
Definition random_uniform (H : host) (a b : Q) (k : nat) : Q :=
  (a + (b - a) * uniform01 H k)%Q.

(** The virtual sensors: the value read and the next step. *)
Definition read_temperature_virtual (H : host) (k : nat) : pyval * nat :=
  (PFloat (py_round2 (25 + random_uniform H (-5) 5 k)%Q), S k).
Definition read_humidity_virtual (H : host) (k : nat) : pyval * nat :=
  (PFloat (py_round2 (55 + random_uniform H (-15) 15 k)%Q), S k).
Definition read_pressure_virtual (H : host) (k : nat) : pyval * nat :=
  (PFloat (py_round2 ((101325 # 100) + random_uniform H (-15) 15 k)%Q), S k).
Definition read_light_virtual (H : host) (k : nat) : pyval * nat :=
  (PInt (randint_0_1000 H k), S k).

(** The real sensors: the hardware code is commented out, and both the
    [try] body and the handler return the virtual reading. *)
Definition read_temperature_real := read_temperature_virtual.
Definition read_humidity_real := read_humidity_virtual.
Definition read_pressure_real := read_pressure_virtual.
Definition read_light_real := read_light_virtual.

Definition read_temperature (H : host) (use_real_sensors : bool) :=
  if use_real_sensors then read_temperature_real H else read_temperature_virtual H.
Definition read_humidity (H : host) (use_real_sensors : bool) :=
  if use_real_sensors then read_humidity_real H else read_humidity_virtual H.
Definition read_pressure (H : host) (use_real_sensors : bool) :=
  if use_real_sensors then read_pressure_real H else read_pressure_virtual H.
Definition read_light (H : host) (use_real_sensors : bool) :=
  if use_real_sensors then read_light_real H else read_light_virtual H.

(** [d[k] = v] on a dictionary: the value of an existing key is replaced
    in place, a new key goes to the end. *)
Fixpoint dict_set (k : string) (v : pyval) (kvs : list (string * pyval))
  : list (string * pyval) :=
  match kvs with
  | [] => [(k, v)]
  | (k', v') :: rest =>
      if String.eqb k k' then (k', v) :: rest
      else (k', v') :: dict_set k v rest
  end.

Definition sensor_entry (value : pyval) (unit : string) : pyval :=
  PDict [("value", value); ("unit", PStr unit)].

(** One pass of the loop of [read_all_sensors]. *)
Definition read_one (H : host) (use_real_sensors : bool) (sensor_type : string)
    (sensors : list (string * pyval)) (k : nat)
  : list (string * pyval) * nat :=
  if String.eqb sensor_type "temperature" then
    let (value, k') := read_temperature H use_real_sensors k in
    (dict_set "temperature" (sensor_entry value "°C") sensors, k')
  else if String.eqb sensor_type "humidity" then
    let (value, k') := read_humidity H use_real_sensors k in
    (dict_set "humidity" (sensor_entry value "%") sensors, k')
  else if String.eqb sensor_type "pressure" then
    let (value, k') := read_pressure H use_real_sensors k in
    (dict_set "pressure" (sensor_entry value "hPa") sensors, k')
  else if String.eqb sensor_type "light" then
    let (value, k') := read_light H use_real_sensors k in
    (dict_set "light" (sensor_entry value "lux") sensors, k')
  else (sensors, k).

Fixpoint read_sensors (H : host) (use_real_sensors : bool)
    (sensor_types : list string) (sensors : list (string * pyval)) (k : nat)
  : list (string * pyval) * nat :=
  match sensor_types with
  | [] => (sensors, k)
  | sensor_type :: rest =>
      let (sensors', k') := read_one H use_real_sensors sensor_type sensors k in
      read_sensors H use_real_sensors rest sensors' k'
  end.

(** [SensorReader.read_all_sensors] *)
Definition read_all_sensors (H : host) (use_real_sensors : bool)
    (sensor_types : list string) (k : nat) : pyval * nat :=
  let timestamp := isoformat_now H k in
  let (sensors, k') := read_sensors H use_real_sensors sensor_types [] (S k) in
  (PDict [("timestamp", PStr timestamp); ("sensors", PDict sensors)], k').

(** The sensor types the reader knows. *)
Definition valid_sensors : list string :=
  ["temperature"; "humidity"; "pressure"; "light"].

Definition mem_string (s : string) (l : list string) : bool :=
  existsb (String.eqb s) l.

(** What an entry of ['sensors'] looks like when its value satisfies [R]. *)
Definition entry_with (R : string -> pyval -> Prop) (name : string)
    (e : pyval) : Prop :=
  exists v unit, e = sensor_entry v unit /\ R name v.

(** The interval each virtual sensor reads in. *)
Definition virtual_range (name : string) (v : pyval) : Prop :=
  if String.eqb name "temperature" then float_between 20 30 v
  else if String.eqb name "humidity" then float_between 40 70 v
  else if String.eqb name "pressure"
       then float_between (99825 # 100) (102825 # 100) v
  else if String.eqb name "light" then int_between 0 1000 v
  else False.

(** The random draws are what the Python library documents:
    [random()] in [0, 1), [randint(0, 1000)] in 0..1000. *)
Definition fair_host (H : host) : Prop :=
  (forall k, 0 <= uniform01 H k /\ uniform01 H k < 1)%Q
  /\ (forall k, 0 <= randint_0_1000 H k <= 1000).

(** A host to run the reader on. *)
Module Rig.

Definition the_host : host :=
  mkHost (fun k => Z.of_nat (k mod 10) # 10)
         (fun k => (Z.of_nat k * 137) mod 1001)
         (fun _ => "2024-01-01T12:00:00")
         (fun k => 1704110400 + inject_Z (Z.of_nat k))%Q
         (fun _ => "12:00:00")
         (fun _ => "2024-01-01.jsonl")
         (fun _ => true)
         (fun _ => true).

End Rig.

(** * config.py *)

Record settings : Type := mkSettings {
  SERVER_HOST : string;
  API_KEY : string;
  UPLOAD_METHOD : string;
  COLLECT_INTERVAL : Z;          (* a whole number of seconds *)
  SENSOR_TYPES : list string;
  DISPLAY_MODE : string
}.

(** The messages of [validate_config], by kind and offending value. *)
Inductive config_error : Type :=
| HostNotSet
| ApiKeyNotSet
| BadUploadMethod (m : string)
| BadInterval
| BadSensorType (s : string)
| BadDisplayMode (d : string).

(** [for sensor in SENSOR_TYPES: if sensor not in valid_sensors: ...] *)
Fixpoint check_sensors (sensor_types : list string)
    (errors : list config_error) : list config_error :=
  match sensor_types with
  | [] => errors
  | sensor :: rest =>
      check_sensors rest
        (if negb (mem_string sensor valid_sensors)
         then errors ++ [BadSensorType sensor] else errors)
  end.

(** [validate_config] *)
Definition validate_config (c : settings) : bool * list config_error :=
  let errors := [] in
  let errors :=
    if mem_string (SERVER_HOST c) ["123.456.789.0"; EmptyString]
    then errors ++ [HostNotSet] else errors in
  let errors :=
    if String.eqb (API_KEY c) "your-api-key-here"
    then errors ++ [ApiKeyNotSet] else errors in
  let errors :=
    if negb (mem_string (UPLOAD_METHOD c) ["http"; "mqtt"])
    then errors ++ [BadUploadMethod (UPLOAD_METHOD c)] else errors in
  let errors :=
    if COLLECT_INTERVAL c <? 1
    then errors ++ [BadInterval] else errors in
  let errors := check_sensors (SENSOR_TYPES c) errors in
  let errors :=
    if negb (mem_string (DISPLAY_MODE c)
               ["browser"; "pygame"; "pyqt"; "tkinter"; "none"])
    then errors ++ [BadDisplayMode (DISPLAY_MODE c)] else errors in
  (Nat.eqb (List.length errors) 0, errors).

(** * dashboard/app.py

    The parts of [latest_data] that [update_data] writes, and the five
    lists of [history_data]. *)

Record dashboard : Type := mkDashboard {
  usv : list (string * pyval);    (* latest_data['usv'] *)
  meta : list (string * pyval);   (* latest_data['meta'] *)
  h_timestamps : list pyval;      (* history_data['timestamps'] *)
  h_temperature : list pyval;     (* history_data['temperature'] *)
  h_humidity : list pyval;        (* history_data['humidity'] *)
  h_pressure : list pyval;        (* history_data['pressure'] *)
  h_light : list pyval            (* history_data['light'] *)
}.

(** [Dashboard.__init__] *)
Definition dashboard_init : dashboard :=
  mkDashboard
    [("lat", PFloat (361180 # 10000)); ("lng", PFloat (1206620 # 10000));
     ("temp", PFloat (225 # 10)); ("humidity", PInt 55);
     ("pressure", PFloat (10132 # 10)); ("light", PInt 1200);
     ("status", PStr "Active")]
    [("last_update_ts", PInt 0); ("source", PStr "none")]
    [] [] [] [] [].

(** [self.latest_data['usv'][field] = v] and
    [self.latest_data['meta'][field] = v] *)
Definition set_usv (field : string) (v : pyval) (d : dashboard) : dashboard :=
  mkDashboard (dict_set field v (usv d)) (meta d) (h_timestamps d)
    (h_temperature d) (h_humidity d) (h_pressure d) (h_light d).
Definition set_meta (field : string) (v : pyval) (d : dashboard) : dashboard :=
  mkDashboard (usv d) (dict_set field v (meta d)) (h_timestamps d)
    (h_temperature d) (h_humidity d) (h_pressure d) (h_light d).

(** [x or y] *)
Definition py_or (x y : pyval) : pyval := if truthy x then x else y.

(** [if len(l) > max_points: l = l[-max_points:]] *)
Definition last_points (max_points : nat) (l : list pyval) : list pyval :=
  if Nat.ltb max_points (List.length l)
  then skipn (List.length l - max_points) l
  else l.

(** The five appends, then the loop that trims every list. *)
Definition push_history (timestamp temp humidity pressure light : pyval)
    (d : dashboard) : dashboard :=
  let max_points := 100%nat in
  mkDashboard (usv d) (meta d)
    (last_points max_points (h_timestamps d ++ [timestamp]))
    (last_points max_points (h_temperature d ++ [py_or temp (PInt 0)]))
    (last_points max_points (h_humidity d ++ [py_or humidity (PInt 0)]))
    (last_points max_points (h_pressure d ++ [py_or pressure (PInt 0)]))
    (last_points max_points (h_light d ++ [py_or light (PInt 0)])).

(** [sensors.get(name, {}).get('value')] *)
Definition reading_value (sensors : pyval) (name : string) : outcome pyval :=
  match py_get sensors name (PDict []) with
  | Ret entry => py_get entry "value" PNone
  | Raise e => Raise e
  end.

(** [Dashboard.update_data]: the outcome, the dashboard afterwards and the
    next step of the host. *)
Definition update_data (H : host) (sensor_data : pyval) (d : dashboard)
    (k : nat) : outcome unit * dashboard * nat :=
  match sensor_data with
  | PDict _ =>
      match py_get sensor_data "sensors" (PDict []) with
      | Raise e => (Raise e, d, k)
      | Ret sensors =>
      match reading_value sensors "temperature" with
      | Raise e => (Raise e, d, k)
      | Ret temp =>
      match reading_value sensors "humidity" with
      | Raise e => (Raise e, d, k)
      | Ret humidity =>
      match reading_value sensors "pressure" with
      | Raise e => (Raise e, d, k)
      | Ret pressure =>
      match reading_value sensors "light" with
      | Raise e => (Raise e, d, k)
      | Ret light =>
          let d := if truthy temp then set_usv "temp" temp d else d in
          let d := if truthy humidity then set_usv "humidity" humidity d else d in
          let d := if truthy pressure then set_usv "pressure" pressure d else d in
          let d := if truthy light then set_usv "light" light d else d in
          let d := set_meta "last_update_ts" (PInt (py_int (unix_time H k))) d in
          let d := set_meta "source" (PStr "dashboard") d in
          let timestamp := PStr (strftime_now H (S k)) in
          let d := push_history timestamp temp humidity pressure light d in
          if emit_ok H (S (S k))
          then (Ret tt, d, S (S (S k)))
          else (Raise EOther, d, S (S (S k)))
      end end end end end
  | _ => (Ret tt, d, k)
  end.

(** A run of updates by a caller that swallows what [update_data] raises,
    as [collect_and_upload] does. *)
Fixpoint feed (H : host) (inputs : list pyval) (d : dashboard) (k : nat)
  : dashboard * nat :=
  match inputs with
  | [] => (d, k)
  | sensor_data :: rest =>
      let '(_, d', k') := update_data H sensor_data d k in
      feed H rest d' k'
  end.

(** The inputs that change the dashboard. *)
Definition shown (sensor_data : pyval) : bool :=
  is_dict sensor_data && well_formed sensor_data.

(** The sensors and the fields of ['usv'] they go to. *)
Definition sensor_fields : list (string * string) :=
  [("temperature", "temp"); ("humidity", "humidity");
   ("pressure", "pressure"); ("light", "light")].

(** The history list of a sensor. *)
Definition history_of (name : string) (d : dashboard) : list pyval :=
  if String.eqb name "temperature" then h_temperature d
  else if String.eqb name "humidity" then h_humidity d
  else if String.eqb name "pressure" then h_pressure d
  else h_light d.

(** The five history lists hold [n] points each. *)
Definition aligned (n : nat) (d : dashboard) : Prop :=
  List.length (h_timestamps d) = n
  /\ List.length (h_temperature d) = n
  /\ List.length (h_humidity d) = n
  /\ List.length (h_pressure d) = n
  /\ List.length (h_light d) = n.

(** * data_logger.py *)

(** Only the log was written between [w] and [w']. *)
Definition only_logs (w w' : world) : Prop := w' = with_logs (logs w') w.


(** [d.items()] *)
Definition py_items (d : pyval) : outcome (list (string * pyval)) :=
  match d with
  | PDict kvs => Ret kvs
  | _ => Raise AttributeError
  end.

(** [for sensor_name, sensor_info in sensors.items(): ...] *)
Fixpoint log_items (items : list (string * pyval)) : M unit :=
  match items with
  | [] => ret tt
  | (sensor_name, sensor_info) :: rest =>
      value <- lift (py_get sensor_info "value" PNone) ;;
      unit_ <- lift (py_get sensor_info "unit" PNone) ;;
      log INFO sensor_name ;;;
      log_items rest
  end.

(** [DataLogger.log_sensor_data]; [now] is [datetime.now().isoformat()],
    which is evaluated whether or not the data has a timestamp. *)
Definition log_sensor_data (now : string) (data : pyval)
    (upload_success : bool) : M unit :=
  timestamp <- lift (py_get data "timestamp" (PStr now)) ;;
  log INFO "collected at" ;;;
  sensors <- lift (py_get data "sensors" (PDict [])) ;;
  items <- lift (py_items sensors) ;;
  log_items items ;;;
  if upload_success
  then log INFO "upload state: done"
  else log WARNING "upload state: failed".

(** * main.py *)

Record stats : Type := mkStats {
  total_collections : Z;
  successful_uploads : Z;
  failed_uploads : Z
}.

(** The state of a [SensorSystem]. Every logger of the process writes to
    the same handlers: the log of the uploader's world is the log of the
    system. *)
Record system : Type := mkSystem {
  uploader : world;                       (* self.uploader *)
  the_dashboard : option dashboard;       (* self.dashboard *)
  the_stats : stats;                      (* self.stats *)
  backup_files : list (string * string);  (* lines appended to the backup
                                             files, oldest first *)
  step : nat                              (* answers of the host so far *)
}.

Definition with_uploader (w : world) (s : system) : system :=
  mkSystem w (the_dashboard s) (the_stats s) (backup_files s) (step s).
Definition with_dashboard (d : option dashboard) (s : system) : system :=
  mkSystem (uploader s) d (the_stats s) (backup_files s) (step s).
Definition with_stats (st : stats) (s : system) : system :=
  mkSystem (uploader s) (the_dashboard s) st (backup_files s) (step s).
Definition with_backup_files (b : list (string * string)) (s : system)
  : system :=
  mkSystem (uploader s) (the_dashboard s) (the_stats s) b (step s).
Definition with_step (k : nat) (s : system) : system :=
  mkSystem (uploader s) (the_dashboard s) (the_stats s) (backup_files s) k.

Definition bump_total (st : stats) : stats :=
  mkStats (total_collections st + 1) (successful_uploads st) (failed_uploads st).
Definition bump_successful (st : stats) : stats :=
  mkStats (total_collections st) (successful_uploads st + 1) (failed_uploads st).
Definition bump_failed (st : stats) : stats :=
  mkStats (total_collections st) (successful_uploads st) (failed_uploads st + 1).

(** Running a method of the uploader, of the data logger or of a logger
    inside the system. *)
Definition on_uploader {A} (m : M A) (s : system) : outcome A * system :=
  let (o, w) := m (uploader s) in (o, with_uploader w s).

Definition sys_log (l : level) (msg : string) (s : system) : system :=
  snd (on_uploader (log l msg) s).

Section System.

Variable E : env.
Variable cfg : config.
Variable json_dumps : pyval -> string.
(** [json.dump(data, f, ensure_ascii=False)], on one line. *)
Variable json_line : pyval -> string.
Variable H : host.
Variable use_real_sensors : bool.
Variable sensor_types : list string.
Variable interval : Z.

(** [DataLogger.backup_data] *)
Definition backup_data (data : pyval) (s : system) : system :=
  let k := step s in
  let s := with_step (S k) s in
  if backup_ok H k
  then sys_log DEBUG "data backed up"
         (with_backup_files
            (backup_files s ++ [(backup_name H k, json_line data)]) s)
  else sys_log ERROR "backing the data up failed" s.

(** The [if self.dashboard:] statement of [collect_and_upload]. *)
Definition update_dashboard (sensor_data : pyval) (s : system) : system :=
  match the_dashboard s with
  | None => s
  | Some d =>
      let '(o, d', k') := update_data H sensor_data d (step s) in
      let s := with_step k' (with_dashboard (Some d') s) in
      match o with
      | Ret _ =>
          if total_collections (the_stats s) mod 10 =? 0
          then sys_log INFO "local dashboard updated" s
          else s
      | Raise _ => sys_log ERROR "updating the dashboard failed" s
      end
  end.

(** The handler [except Exception] of [collect_and_upload]. *)
Definition round_failed (s : system) : bool * system :=
  let s := sys_log ERROR "collecting or uploading went wrong" s in
  (false, with_stats (bump_failed (the_stats s)) s).

(** [SensorSystem.collect_and_upload], with [self.uploader] the HTTP
    uploader. [KeyboardInterrupt] is not modelled. *)
Definition collect_and_upload (s : system) : bool * system :=
  let s := with_stats (bump_total (the_stats s)) s in
  let s := sys_log INFO "collecting sensor data" s in
  let (sensor_data, k) :=
    read_all_sensors H use_real_sensors sensor_types (step s) in
  let s := with_step k s in
  let s := sys_log INFO "uploading to the server" s in
  match on_uploader (upload E cfg json_dumps sensor_data) s with
  | (Raise _, s) => round_failed s
  | (Ret success, s) =>
      let s := update_dashboard sensor_data s in
      let now := isoformat_now H (step s) in
      let s := with_step (S (step s)) s in
      match on_uploader (log_sensor_data now sensor_data success) s with
      | (Raise _, s) => round_failed s
      | (Ret _, s) =>
          let s := backup_data sensor_data s in
          if success
          then (true,
                sys_log INFO "collection and upload done"
                  (with_stats (bump_successful (the_stats s)) s))
          else (false,
                sys_log WARNING "data upload failed"
                  (with_stats (bump_failed (the_stats s)) s))
      end
  end.

(** [n] turns of the loop of [SensorSystem.run]. *)
Fixpoint run (n : nat) (s : system) : list bool * system :=
  match n with
  | O => ([], s)
  | S n' =>
      let (success, s) := collect_and_upload s in
      let s := sys_log INFO "waiting for the next collection" s in
      let s := snd (on_uploader (time_sleep interval) s) in
      let (rest, s) := run n' s in
      (success :: rest, s)
  end.

End System.

(** A system to run the loop on. *)
Module Plant.

Definition fresh (queue : pyval) : system :=
  mkSystem (mkWorld queue None None O O O [] [])
    (Some dashboard_init) (mkStats 0 0 0) [] 0.

End Plant.

(** The configured sensor types the reader does not know. *)
Definition unknown_types (sensor_types : list string) : list string :=
  filter (fun s => negb (mem_string s valid_sensors)) sensor_types.

(** A configuration to validate. *)
Module Desk.

Definition settings_ok : settings :=
  mkSettings "112.124.33.179" "oKgpm6SpsnmdnaXu0O1bbeb4VKbzzU" "http" 5
    ["temperature"; "humidity"; "pressure"; "light"] "tkinter".

End Desk.

Section Facts.

Variable E : env.
Variable cfg : config.
Variable json_dumps : pyval -> string.
Variable json_loads : string -> option pyval.

Lemma attempt_body_spec sd p use_retry a mx w :
  exists w',
    attempt_body E cfg sd p use_retry a mx w
      = (Ret (result_of (verdict_of (net E (posts w)))), w')
    /\ cache w' = cache w /\ file w' = file w /\ ios w' = ios w
    /\ posts w' = S (posts w)
    /\ trace w' = trace w ++ [EvPost sd p (net E (posts w))].
Proof.
  munfold.
  destruct (use_retry && (1 <? a))%bool; simpl;
  destruct (net E (posts w)) as [| | | st [[| | | | | |kvs]|]]; simpl;
    try (eexists; repeat split; reflexivity);
    destruct (st =? 200); simpl;
    try (eexists; repeat split; reflexivity).
  all: repeat match goal with
       | |- context [truthy ?x] => destruct (truthy x); simpl
       | |- context [data_logger ?x] => destruct (data_logger x); simpl
       | |- context [py_int ?x =? 0] => destruct (py_int x =? 0); simpl
       | |- context [verbose ?c] => destruct (verbose c); simpl
       end;
    eexists; repeat split; reflexivity.
Qed.

Lemma only_ticks_refl w : only_ticks w w.
Proof. destruct w; reflexivity. Qed.

Lemma only_ticks_trans w1 w2 w3 :
  only_ticks w1 w2 -> only_ticks w2 w3 -> only_ticks w1 w3.
Proof.
  unfold only_ticks; intros H1 H2; rewrite H2, H1; destruct w1; reflexivity.
Qed.

Lemma sensor_value_ok kvs name fb w :
  reading_ok kvs name = true ->
  exists v w',
    sensor_value E (PDict kvs) name fb w = (Ret v, w') /\ only_ticks w w'.
Proof.
  unfold reading_ok; intros H; munfold; simpl.
  destruct (assoc name kvs) as [[| | | | | |e]|]; simpl in *;
    try discriminate.
  - destruct (assoc "value" e) as [v|]; simpl;
      [destruct (is_none v)|]; simpl;
      eexists; eexists; split; try reflexivity;
      destruct w; reflexivity.
  - eexists; eexists; split; try reflexivity; destruct w; reflexivity.
Qed.

Lemma build_payload_ok sd w :
  well_formed sd = true ->
  exists p w', build_payload E sd w = (Ret p, w') /\ only_ticks w w'.
Proof.
  unfold well_formed, build_payload; intros H.
  destruct sd as [| | | | | |kvs]; try discriminate.
  assert (Hs : exists s, py_get (PDict kvs) "sensors" (PDict []) = Ret (PDict s)
                 /\ reading_ok s "temperature" = true
                 /\ reading_ok s "humidity" = true
                 /\ reading_ok s "pressure" = true
                 /\ reading_ok s "light" = true).
  { simpl. destruct (assoc "sensors" kvs) as [[| | | | | |s]|];
      try discriminate.
    - exists s. repeat rewrite andb_true_iff in H. intuition.
    - exists []. repeat split; reflexivity. }
  destruct Hs as (s & -> & H1 & H2 & H3 & H4).
  unfold bind at 1, lift at 1.
  destruct (sensor_value_ok s "temperature" fallback_temp w H1)
    as (v1 & w1 & E1 & T1).
  destruct (sensor_value_ok s "humidity" fallback_humidity w1 H2)
    as (v2 & w2 & E2 & T2).
  destruct (sensor_value_ok s "pressure" fallback_pressure w2 H3)
    as (v3 & w3 & E3 & T3).
  destruct (sensor_value_ok s "light" fallback_light w3 H4)
    as (v4 & w4 & E4 & T4).
  unfold bind, ret. rewrite E1, E2, E3, E4.
  eexists; eexists; split; [reflexivity|].
  eauto using only_ticks_trans.
Qed.

Lemma retry_loop_spec fuel sd p use_retry : forall a mx w,
  exists w',
    retry_loop E cfg fuel sd p use_retry a mx w
      = (Ret (snd (retry_events (net E) fuel sd p use_retry a mx (posts w))), w')
    /\ cache w' = cache w /\ file w' = file w /\ ios w' = ios w
    /\ trace w' =
        trace w ++ fst (retry_events (net E) fuel sd p use_retry a mx (posts w))
    /\ posts w' =
        (posts w
         + count_posts (fst (retry_events (net E) fuel sd p use_retry a mx (posts w))))%nat.
Proof.
  induction fuel as [|fuel IH]; intros a mx w.
  - simpl. unfold when, bind, ret, log, modify.
    destruct use_retry; eexists; simpl; rewrite app_nil_r;
      repeat split; auto with arith.
  - simpl retry_loop. unfold bind at 1.
    destruct (attempt_body_spec sd p use_retry a mx w)
      as (w1 & -> & Hc & Hf & Hi & Hp & Ht).
    simpl retry_events.
    destruct (result_of (verdict_of (net E (posts w)))) as [b|].
    + exists w1. unfold ret, count_posts. simpl.
      repeat split; auto. lia.
    + unfold bind at 1.
      set (slp := (use_retry && (a <? mx))%bool).
      assert (Hw : exists w2,
                 when slp (log INFO "waiting before the retry" ;;;
                           time_sleep (2 ^ a)) w1 = (Ret tt, w2)
                 /\ cache w2 = cache w1 /\ file w2 = file w1
                 /\ ios w2 = ios w1 /\ posts w2 = posts w1
                 /\ trace w2 =
                     trace w1 ++ (if slp then [EvSleep (2 ^ a)] else [])).
      { destruct slp; munfold; simpl; eexists; repeat split;
          rewrite ?app_nil_r; reflexivity. }
      destruct Hw as (w2 & -> & Hc2 & Hf2 & Hi2 & Hp2 & Ht2).
      destruct (IH (a + 1) mx w2) as (w3 & -> & Hc3 & Hf3 & Hi3 & Ht3 & Hp3).
      rewrite Hp2, Hp in *.
      exists w3. simpl. repeat split; try congruence.
      * rewrite Ht3, Ht2, Ht. rewrite <- !app_assoc. reflexivity.
      * rewrite Hp3. unfold count_posts. simpl.
        rewrite filter_app, length_app.
        destruct slp; simpl; lia.
Qed.

(** [_upload_single] on a well-formed reading set: it returns, touches
    neither the queue nor the disk, and its requests, sleeps and result
    are those of [retry_events]. *)
Lemma upload_single_spec sd (use_retry : bool) w :
  well_formed sd = true ->
  let mx := if use_retry then retry_times cfg else 1 in
  exists p w',
    let re := retry_events (net E) (Z.to_nat mx) sd p use_retry 1 mx (posts w) in
    _upload_single E cfg sd use_retry w = (Ret (snd re), w')
    /\ cache w' = cache w /\ file w' = file w /\ ios w' = ios w
    /\ trace w' = trace w ++ fst re
    /\ posts w' = (posts w + count_posts (fst re))%nat.
Proof.
  intros Hwf mx. unfold _upload_single.
  destruct (build_payload_ok sd w Hwf) as (p & w0 & Hb & Ho).
  unfold bind. rewrite Hb. fold mx.
  destruct (retry_loop_spec (Z.to_nat mx) sd p use_retry 1 mx w0)
    as (w' & Hr & Hc & Hf & Hi & Ht & Hp).
  assert (Hw0 : cache w0 = cache w /\ file w0 = file w /\ ios w0 = ios w
                /\ posts w0 = posts w /\ trace w0 = trace w).
  { rewrite Ho. destruct w; simpl; auto. }
  destruct Hw0 as (Hc0 & Hf0 & Hi0 & Hp0 & Ht0).
  rewrite Hp0 in *.
  exists p, w'. cbv zeta. rewrite Hr. repeat split; congruence.
Qed.

(** The collector accepted a request of the loop exactly when the loop
    returned [True], and then it was its last request. *)
Lemma retry_events_acked nt fuel sd p ur : forall a mx i,
  acked (fst (retry_events nt fuel sd p ur a mx i))
  = if snd (retry_events nt fuel sd p ur a mx i) then [sd] else [].
Proof.
  induction fuel as [|fuel IH]; intros a mx i; simpl; [reflexivity|].
  destruct (verdict_of (nt i)) eqn:V; simpl; rewrite ?V; try reflexivity.
  assert (Hs : forall l t, acked (l ++ t) = acked t ->
               acked ((if (ur && (a <? mx))%bool then [EvSleep (2 ^ a)] else l) ++ t)
               = acked t).
  { intros l t H. destruct (ur && (a <? mx))%bool; simpl; auto. }
  rewrite (Hs [] _ eq_refl). apply IH.
Qed.

Lemma save_cache_spec w q :
  cache w = PList q ->
  exists w',
    _save_cache E json_dumps w = (Ret tt, w')
    /\ cache w' = cache w /\ trace w' = trace w /\ posts w' = posts w
    /\ ios w' = S (ios w)
    /\ file w' = match disk_write E (ios w) with
                 | WriteOk => Some (json_dumps (PList q))
                 | WriteFailOpen => file w
                 | WriteFailPartial s => Some s
                 end
    /\ logs w' = logs w ++ [match disk_write E (ios w) with
                            | WriteOk => (DEBUG, "cache saved")
                            | _ => (ERROR, "saving the cache file failed")
                            end].
Proof.
  intros Hq. munfold. unfold py_len_exn.
  destruct (disk_write E (ios w)); simpl; rewrite ?Hq; simpl;
    eexists; repeat split; simpl; auto.
Qed.

Lemma cache_append_spec w q sd :
  cache w = PList q ->
  cache_append sd w = (Ret tt, with_cache (PList (q ++ [sd])) w).
Proof. intros Hq. unfold cache_append, bind, gets. rewrite Hq. reflexivity. Qed.

Lemma add_to_cache_spec w q sd :
  enable_cache cfg = true ->
  cache w = PList q ->
  exists w',
    _add_to_cache E cfg json_dumps sd w = (Ret tt, w')
    /\ cache w' = PList (q ++ [sd]) /\ trace w' = trace w
    /\ posts w' = posts w /\ ios w' = S (ios w)
    /\ file w' = match disk_write E (ios w) with
                 | WriteOk => Some (json_dumps (PList (q ++ [sd])))
                 | WriteFailOpen => file w
                 | WriteFailPartial s => Some s
                 end
    /\ logs w' = logs w ++ [match disk_write E (ios w) with
                            | WriteOk => (DEBUG, "cache saved")
                            | _ => (ERROR, "saving the cache file failed")
                            end;
                            (INFO, "data cached locally")].
Proof.
  intros Hen Hq. unfold _add_to_cache. rewrite Hen. simpl.
  unfold bind at 1. rewrite (cache_append_spec w q sd Hq).
  destruct (save_cache_spec (with_cache (PList (q ++ [sd])) w) (q ++ [sd]) eq_refl)
    as (w1 & Hs & Hc & Ht & Hp & Hi & Hf & Hl).
  unfold bind at 1. rewrite Hs.
  unfold bind, gets, lift, py_len_exn, log, modify. rewrite Hc. simpl.
  eexists; repeat split; simpl; auto.
  rewrite Hl. simpl. rewrite <- app_assoc. reflexivity.
Qed.

Lemma single_attempt nt sd p i :
  retry_events nt 1 sd p false 1 1 i
  = ([EvPost sd p (nt i)],
     match verdict_of (nt i) with Accepted => true | _ => false end).
Proof. simpl. destruct (verdict_of (nt i)); reflexivity. Qed.

Lemma drain_loop_spec : forall items uploaded w,
  Forall (fun x => well_formed x = true) items ->
  let k := drained (net E) items (posts w) in
  let m := Nat.min (S k) (List.length items) in
  exists w' t,
    drain_loop E cfg items uploaded w = (Ret (uploaded ++ firstn k items), w')
    /\ cache w' = cache w /\ file w' = file w /\ ios w' = ios w
    /\ trace w' = trace w ++ t
    /\ posts w' = (posts w + m)%nat
    /\ forallb is_post t = true
    /\ attempts t = combine (firstn m items) (map (net E) (seq (posts w) m))
    /\ acked t = firstn k items.
Proof.
  induction items as [|x items IH]; intros uploaded w Hwf; cbv zeta.
  - simpl. exists w, []. unfold ret. rewrite !app_nil_r.
    repeat split; auto with arith.
  - inversion Hwf as [|? ? Hx Hrest]; subst.
    simpl drain_loop. unfold bind at 1.
    destruct (upload_single_spec x false w Hx)
      as (p & w1 & Hu & Hc & Hf & Hi & Ht & Hp).
    cbv zeta in *. rewrite single_attempt in *. simpl in Hu, Ht, Hp.
    rewrite Hu. simpl drained.
    destruct (verdict_of (net E (posts w))) eqn:V.
    + destruct (IH (uploaded ++ [x]) w1 Hrest)
        as (w2 & t & Hd & Hc2 & Hf2 & Hi2 & Ht2 & Hp2 & Hall & Hatt & Hack).
      cbv zeta in *.
      replace (posts w1) with (S (posts w)) in * by (unfold count_posts in Hp; simpl in Hp; lia).
      exists w2, (EvPost x p (net E (posts w)) :: t).
      rewrite Hd. simpl. rewrite V, <- app_assoc. simpl.
      repeat split; try congruence.
      * rewrite Ht2, Ht, <- app_assoc. reflexivity.
      * rewrite Hp2.
        destruct (drained (net E) items (S (posts w))); simpl; lia.
      * rewrite Hatt. reflexivity.
    + exists w1, [EvPost x p (net E (posts w))].
      unfold ret. simpl. rewrite app_nil_r, V.
      unfold count_posts in Hp; simpl in Hp.
      repeat split; auto.
    + exists w1, [EvPost x p (net E (posts w))].
      unfold ret. simpl. rewrite app_nil_r, V.
      unfold count_posts in Hp; simpl in Hp.
      repeat split; auto.
Qed.

Lemma list_remove_head x l : list_remove x (x :: l) = Some l.
Proof. simpl. destruct (pyval_eq_dec x x); congruence. Qed.

(** Removing, in order, the entries of a prefix of the queue leaves the
    rest of the queue, whatever else the queue holds. *)
Lemma remove_uploaded_spec : forall uploaded rest w,
  cache w = PList (uploaded ++ rest) ->
  remove_uploaded uploaded w = (Ret tt, with_cache (PList rest) w).
Proof.
  induction uploaded as [|x up IH]; intros rest w Hc; simpl.
  - unfold ret. simpl in Hc. rewrite <- Hc. destruct w; reflexivity.
  - unfold cache_remove, bind, gets. rewrite Hc.
    change ((x :: up) ++ rest) with (x :: (up ++ rest)).
    rewrite list_remove_head. unfold modify.
    rewrite (IH rest (with_cache (PList (up ++ rest)) w) eq_refl).
    destruct w; reflexivity.
Qed.

(** The drain on a queue of well-formed entries: the [k] entries at the
    head that the collector accepts leave the queue, one request is sent
    per entry up to and including the first one not accepted, and the
    queue is saved when at least one entry left. *)
Lemma upload_cached_data_spec w q :
  cache w = PList q ->
  Forall (fun x => well_formed x = true) q ->
  let k := drained (net E) q (posts w) in
  let m := Nat.min (S k) (List.length q) in
  exists w' t,
    _upload_cached_data E cfg json_dumps w = (Ret tt, w')
    /\ cache w' = PList (skipn k q)
    /\ trace w' = trace w ++ t
    /\ posts w' = (posts w + m)%nat
    /\ forallb is_post t = true
    /\ attempts t = combine (firstn m q) (map (net E) (seq (posts w) m))
    /\ acked t = firstn k q
    /\ ios w' = (match k with O => ios w | S _ => S (ios w) end)
    /\ file w' = match k with
                 | O => file w
                 | S _ =>
                     match disk_write E (ios w) with
                     | WriteOk => Some (json_dumps (PList (skipn k q)))
                     | WriteFailOpen => file w
                     | WriteFailPartial s => Some s
                     end
                 end.
Proof.
  intros Hq Hwf. cbv zeta.
  unfold _upload_cached_data, bind at 1, gets at 1. rewrite Hq.
  destruct q as [|x q'].
  - simpl. exists w, []. unfold ret. rewrite app_nil_r.
    repeat split; auto with arith.
  - set (q := x :: q') in *.
    change (negb (truthy (PList q))) with false. cbv iota.
    unfold bind at 1, lift at 1. simpl py_len_exn. cbv iota.
    unfold bind at 1, log at 1, modify at 1.
    set (w0 := with_logs _ w).
    unfold bind at 1, lift at 1. simpl py_iter. cbv iota.
    destruct (drain_loop_spec q [] w0 Hwf)
      as (w1 & t & Hd & Hc & Hf & Hi & Ht & Hp & Hall & Hatt & Hack).
    cbv zeta in *. change (posts w0) with (posts w) in *.
    change (trace w0) with (trace w) in *.
    change (cache w0) with (cache w) in *.
    change (file w0) with (file w) in *.
    change (ios w0) with (ios w) in *.
    set (k := drained (net E) q (posts w)) in *.
    unfold bind at 1. rewrite Hd. simpl app.
    unfold bind at 1.
    rewrite (remove_uploaded_spec (firstn k q) (skipn k q) w1)
      by (rewrite firstn_skipn; congruence).
    destruct k as [|k'] eqn:Hk.
    + simpl firstn. cbv iota. unfold ret. eexists; exists t.
      split; [reflexivity|]. simpl. rewrite Hq in Hc.
      repeat split; auto.
    + change (firstn (S k') q) with (x :: firstn k' q'). cbv iota.
      set (w2 := with_cache (PList (skipn (S k') q)) w1).
      destruct (save_cache_spec w2 (skipn (S k') q) eq_refl)
        as (w3 & Hs & Hc3 & Ht3 & Hp3 & Hi3 & Hf3 & Hl3).
      unfold bind at 1. rewrite Hs. unfold log, modify.
      eexists; exists t. split; [reflexivity|]. simpl.
      change (ios w2) with (ios w1) in *. change (file w2) with (file w1) in *.
      rewrite Hi, Hf in *.
      repeat split; auto; try congruence.
      * rewrite Ht3; exact Ht.
      * rewrite Hp3; exact Hp.
Qed.

(** [upload] on a well-formed reading set and a queue of well-formed
    entries: the fresh delivery, then the append or the drain. *)
Lemma upload_spec sd w q :
  well_formed sd = true ->
  cache w = PList q ->
  Forall (fun x => well_formed x = true) q ->
  let mx := retry_times cfg in
  exists p w1 w',
    let re := retry_events (net E) (Z.to_nat mx) sd p true 1 mx (posts w) in
    _upload_single E cfg sd true w = (Ret (snd re), w1)
    /\ cache w1 = PList q /\ file w1 = file w /\ ios w1 = ios w
    /\ trace w1 = trace w ++ fst re
    /\ posts w1 = (posts w + count_posts (fst re))%nat
    /\ upload E cfg json_dumps sd w = (Ret (snd re), w')
    /\ (if snd re then after_drain E json_dumps q w1 w'
        else if enable_cache cfg then after_append E json_dumps q sd w1 w'
        else w' = w1).
Proof.
  intros Hsd Hq Hwf mx.
  destruct (upload_single_spec sd true w Hsd)
    as (p & w1 & Hu & Hc & Hf & Hi & Ht & Hp).
  cbv zeta in *. fold mx in Hu, Ht, Hp.
  set (re := retry_events (net E) (Z.to_nat mx) sd p true 1 mx (posts w)) in *.
  rewrite Hq in Hc.
  unfold upload, bind at 1. rewrite Hu.
  destruct (snd re) eqn:Hb.
  - simpl negb. simpl andb. unfold when at 1, bind at 1, ret at 1.
    unfold bind at 1, gets at 1. rewrite Hc.
    destruct (upload_cached_data_spec w1 q Hc Hwf)
      as (w' & t & Hd & D1 & D2 & D3 & D4 & D5 & D6 & D7 & D8).
    cbv zeta in *.
    assert (Hres : when (truthy (PList q)) (_upload_cached_data E cfg json_dumps) w1
                   = (Ret tt, w')).
    { destruct q as [|x q'].
      - simpl. simpl in Hd. unfold _upload_cached_data, bind, gets in Hd.
        rewrite Hc in Hd. simpl in Hd. exact Hd.
      - simpl. exact Hd. }
    unfold bind. rewrite Hres. unfold ret.
    exists p, w1, w'. cbv zeta. fold re. rewrite Hb. repeat split; auto.
    exists t. unfold file_after_write. repeat split; auto.
  - simpl negb. simpl andb.
    destruct (enable_cache cfg) eqn:Hen.
    + destruct (add_to_cache_spec w1 q sd Hen Hc)
        as (w' & Ha & A1 & A2 & A3 & A4 & A5 & A6).
      unfold when at 1, bind at 1. rewrite Ha.
      unfold bind, gets, when, ret. simpl.
      exists p, w1, w'. cbv zeta. fold re. rewrite Hb.
      repeat split; auto.
    + unfold when, bind, gets, ret. simpl.
      exists p, w1, w1. cbv zeta. fold re. rewrite Hb.
      repeat split; auto.
Qed.

(** The loop either runs out of attempts, every one of them retryable,
    or stops at its first request with a final answer. *)
Lemma retry_events_cases nt sd p ur mx : forall fuel a i,
  ((forall j, (j < fuel)%nat -> verdict_of (nt (i + j)%nat) = Retry)
   /\ snd (retry_events nt fuel sd p ur a mx i) = false
   /\ count_posts (fst (retry_events nt fuel sd p ur a mx i)) = fuel)
  \/
  (exists n, (n < fuel)%nat
     /\ (forall j, (j < n)%nat -> verdict_of (nt (i + j)%nat) = Retry)
     /\ verdict_of (nt (i + n)%nat) <> Retry
     /\ result_of (verdict_of (nt (i + n)%nat))
        = Some (snd (retry_events nt fuel sd p ur a mx i))
     /\ count_posts (fst (retry_events nt fuel sd p ur a mx i)) = S n).
Proof.
  induction fuel as [|fuel IH]; intros a i.
  - left. simpl. repeat split; auto. intros j Hj; lia.
  - simpl retry_events.
    destruct (verdict_of (nt i)) eqn:V; simpl result_of; cbv iota.
    + right. exists O. rewrite Nat.add_0_r, V. simpl.
      repeat split; auto; try discriminate; try lia; intros j Hj; lia.
    + right. exists O. rewrite Nat.add_0_r, V. simpl.
      repeat split; auto; try discriminate; try lia; intros j Hj; lia.
    + assert (Hcnt : forall t,
                 count_posts (EvPost sd p (nt i)
                    :: (if (ur && (a <? mx))%bool then [EvSleep (2 ^ a)] else [])
                    ++ t) = S (count_posts t)).
      { intros t. unfold count_posts.
        destruct (ur && (a <? mx))%bool; reflexivity. }
      cbn [fst snd]. rewrite Hcnt.
      destruct (IH (a + 1) (S i)) as [(Hall & Hb & Hc) | (n & Hn & Hall & Hv & Hr & Hc)].
      * left. repeat split; auto.
        intros [|j] Hj; [rewrite Nat.add_0_r; exact V|].
        replace (i + S j)%nat with (S i + j)%nat by lia. apply Hall. lia.
      * right. exists (S n).
        replace (i + S n)%nat with (S i + n)%nat by lia.
        repeat split; auto; try lia.
        intros [|j] Hj; [rewrite Nat.add_0_r; exact V|].
        replace (i + S j)%nat with (S i + j)%nat by lia. apply Hall. lia.
Qed.

(** With retry, attempt number [a + k] sits at position [2 k] of the
    events, and the sleep that follows a retryable failure of it, when it
    is not the last attempt, at position [2 k + 1]. *)
Lemma retry_events_nth nt sd p mx : forall fuel a i k,
  a + Z.of_nat fuel = mx + 1 ->
  (k < fuel)%nat ->
  (forall j, (j < k)%nat -> verdict_of (nt (i + j)%nat) = Retry) ->
  nth_error (fst (retry_events nt fuel sd p true a mx i)) (2 * k)
  = Some (EvPost sd p (nt (i + k)%nat))
  /\ (verdict_of (nt (i + k)%nat) = Retry -> (S k < fuel)%nat ->
      nth_error (fst (retry_events nt fuel sd p true a mx i)) (2 * k + 1)
      = Some (EvSleep (2 ^ (a + Z.of_nat k)))).
Proof.
  induction fuel as [|fuel IH]; intros a i k Ha Hk Hall; [lia|].
  simpl retry_events.
  destruct k as [|k].
  - rewrite Nat.add_0_r, Z.add_0_r. split.
    + destruct (result_of (verdict_of (nt i))); reflexivity.
    + intros V Hlt. rewrite V. simpl.
      replace (a <? mx) with true by (symmetry; apply Z.ltb_lt; lia).
      reflexivity.
  - assert (V : verdict_of (nt i) = Retry).
    { rewrite <- (Nat.add_0_r i). apply Hall. lia. }
    rewrite V. simpl result_of. cbv iota. cbn [fst andb].
    replace (a <? mx) with true by (symmetry; apply Z.ltb_lt; lia).
    destruct (IH (a + 1) (S i) k) as [H1 H2]; [lia | lia | |].
    { intros j Hj. replace (S i + j)%nat with (i + S j)%nat by lia.
      apply Hall. lia. }
    replace (2 * S k)%nat with (S (S (2 * k))) by lia.
    replace (S (S (2 * k)) + 1)%nat with (S (S (2 * k + 1))) by lia.
    replace (i + S k)%nat with (S i + k)%nat by lia.
    replace (a + Z.of_nat (S k)) with (a + 1 + Z.of_nat k) by lia.
    simpl. split; [exact H1|]. intros V' Hlt. apply H2; [exact V' | lia].
Qed.

(** The events of the loop never end with a sleep. *)
Lemma retry_events_last nt sd p ur mx d : forall fuel a i,
  a + Z.of_nat fuel = mx + 1 ->
  is_post d = true ->
  is_post (last (fst (retry_events nt fuel sd p ur a mx i)) d) = true.
Proof.
  induction fuel as [|fuel IH]; intros a i Ha Hd; [exact Hd|].
  simpl retry_events.
  destruct (result_of (verdict_of (nt i))); [reflexivity|].
  cbn [fst].
  destruct fuel as [|fuel'].
  - simpl. replace (a <? mx) with false by (symmetry; apply Z.ltb_ge; lia).
    rewrite andb_false_r. reflexivity.
  - specialize (IH (a + 1) (S i)).
    set (rest := fst (retry_events nt (S fuel') sd p ur (a + 1) mx (S i))) in *.
    assert (Hne : rest <> []).
    { unfold rest. simpl.
      destruct (result_of (verdict_of (nt (S i)))); discriminate. }
    assert (Hl : forall l, last (l ++ rest) d = last rest d).
    { intros l. induction l as [|y l IHl]; [reflexivity|].
      simpl. destruct (l ++ rest) eqn:El; [|exact IHl].
      apply app_eq_nil in El. destruct El; contradiction. }
    change (EvPost sd p (nt i)
              :: (if (ur && (a <? mx))%bool then [EvSleep (2 ^ a)] else [])
              ++ rest)
      with ((EvPost sd p (nt i)
               :: (if (ur && (a <? mx))%bool then [EvSleep (2 ^ a)] else []))
            ++ rest).
    rewrite Hl. apply IH; [lia | exact Hd].
Qed.

End Facts.

(** * The scenarios of the specification, evaluated *)

(** Readings 22.8, 54.7, 1012.9, 1180 and a collector that accepts the
    first request: the upload succeeds after one request that carries the
    readings, and the queue stays empty. *)
Example scenario_accepted_at_once :
  let r := upload (Sample.env_of (Sample.script [] Sample.accepted))
             Sample.cfg Sample.json_dumps Sample.rs_A (Sample.world_of [] None) in
  fst r = Ret true
  /\ cache (snd r) = PList []
  /\ attempts (trace (snd r)) = [(Sample.rs_A, Sample.accepted)]
  /\ sleeps (trace (snd r)) = []
  /\ map (fun e => match e with
                   | EvPost _ p _ =>
                       (usv_field p "temp", usv_field p "humidity",
                        usv_field p "pressure", usv_field p "light")
                   | EvSleep _ => (None, None, None, None)
                   end) (trace (snd r))
     = [(Some (PFloat (228 # 10)), Some (PFloat (547 # 10)),
         Some (PFloat (10129 # 10)), Some (PInt 1180))].
Proof. vm_compute. repeat split; reflexivity. Qed.

(** The same readings and a collector that cannot be reached: the upload
    fails after three requests, with waits of 2 and 4 seconds, and the
    queue holds the reading set. *)
Example scenario_unreachable :
  let r := upload (Sample.env_of (Sample.script [] ConnectionError))
             Sample.cfg Sample.json_dumps Sample.rs_A (Sample.world_of [] None) in
  fst r = Ret false
  /\ cache (snd r) = PList [Sample.rs_A]
  /\ attempts (trace (snd r))
     = [(Sample.rs_A, ConnectionError); (Sample.rs_A, ConnectionError);
        (Sample.rs_A, ConnectionError)]
  /\ sleeps (trace (snd r)) = [2; 4]
  /\ Sample.json_loads (match file (snd r) with Some text => text | None => EmptyString end)
     = Some (PList [Sample.rs_A]).
Proof. vm_compute. repeat split; reflexivity. Qed.

(** An entry of the queue that is not a dictionary makes the drain raise,
    and [upload] with it, after the fresh delivery was accepted. *)
Example scenario_malformed_entry :
  fst (upload (Sample.env_of (Sample.script [] Sample.accepted))
         Sample.cfg Sample.json_dumps Sample.rs_A
         (Sample.world_of [PStr "x"] None))
  = Raise AttributeError.
Proof. vm_compute. reflexivity. Qed.

(** * Further facts about the uploader *)

(** Appending to the spill queue sends nothing, whatever the queue holds. *)
Lemma add_to_cache_sends_nothing (E : env) (cfg : config)
    (json_dumps : pyval -> string) (sd : pyval) (w : world) :
  trace (snd (_add_to_cache E cfg json_dumps sd w)) = trace w
  /\ posts (snd (_add_to_cache E cfg json_dumps sd w)) = posts w.
Proof.
  unfold _add_to_cache. destruct (enable_cache cfg); simpl; [|auto].
  munfold. unfold py_len_exn.
  destruct (cache w); simpl; auto.
  destruct (disk_write E (ios w)); simpl; auto.
Qed.

Lemma acked_app (t1 t2 : list event) : acked (t1 ++ t2) = acked t1 ++ acked t2.
Proof.
  induction t1 as [|[sd p r|s] t1 IH]; simpl; auto.
  destruct (verdict_of r); simpl; congruence.
Qed.

Lemma acked_In (x : pyval) (t : list event) :
  In x (acked t) <->
  exists p r, In (EvPost x p r) t /\ verdict_of r = Accepted.
Proof.
  induction t as [|[sd p r|s] t IH]; simpl.
  - split; [tauto | intros (p & r & [] & _)].
  - split.
    + intros H. destruct (verdict_of r) eqn:V.
      * destruct H as [-> | H]; [exists p, r; auto|].
        apply IH in H. destruct H as (p' & r' & H & V'); eauto.
      * apply IH in H. destruct H as (p' & r' & H & V'); eauto.
      * apply IH in H. destruct H as (p' & r' & H & V'); eauto.
    + intros (p' & r' & [H | H] & V').
      * inversion H; subst. rewrite V'. left; reflexivity.
      * assert (In x (acked t)) by (apply IH; eauto).
        destruct (verdict_of r); simpl; auto.
  - rewrite IH. split; intros (p & r & H & V).
    + eauto.
    + destruct H as [H | H]; [discriminate | eauto].
Qed.

Lemma drained_le (nt : nat -> response) (items : list pyval) :
  forall i, (drained nt items i <= List.length items)%nat.
Proof.
  induction items as [|x items IH]; intros i; simpl; [lia|].
  destruct (verdict_of (nt i)); try lia. specialize (IH (S i)). lia.
Qed.

Lemma Forall_skipn_wf (k : nat) (q : list pyval) :
  Forall (fun x => well_formed x = true) q ->
  Forall (fun x => well_formed x = true) (skipn k q).
Proof.
  intros H. rewrite <- (firstn_skipn k q) in H.
  apply Forall_app in H. tauto.
Qed.

Lemma skipn_app_le (k : nat) (l1 l2 : list pyval) :
  (k <= List.length l1)%nat -> skipn k (l1 ++ l2) = skipn k l1 ++ l2.
Proof.
  intros H. rewrite skipn_app.
  replace (k - List.length l1)%nat with O by lia. reflexivity.
Qed.

Lemma perm_step (A q q' T inputs : list pyval) (k : nat) :
  Permutation (q' ++ T) (skipn k q ++ inputs) ->
  Permutation (q' ++ (A ++ firstn k q) ++ T) (q ++ A ++ inputs).
Proof.
  intros H.
  apply Permutation_trans with ((A ++ firstn k q) ++ q' ++ T).
  { apply Permutation_app_swap_app. }
  apply Permutation_trans with ((A ++ firstn k q) ++ skipn k q ++ inputs).
  { apply Permutation_app_head. exact H. }
  rewrite <- app_assoc, (app_assoc (firstn k q)), firstn_skipn.
  apply Permutation_app_swap_app.
Qed.

(** A restart with a readable disk reloads the queue the file decodes to. *)
Lemma init_reload (E : env) (cfg : config) (json_loads : string -> option pyval)
    (w : world) (text : string) (l : list pyval) :
  enable_cache cfg = true ->
  (forall i, disk_read E i = true) ->
  file w = Some text ->
  json_loads text = Some (PList l) ->
  cache (snd (__init__ E cfg json_loads w)) = PList l.
Proof.
  intros Hen Hrd Hf Hj. unfold __init__. rewrite Hen. munfold. simpl.
  rewrite Hf. simpl. rewrite Hrd, Hj. simpl. destruct l; reflexivity.
Qed.

(** With a readable disk, what a restart reloads depends on the file only. *)
Lemma init_same_file (E : env) (cfg : config)
    (json_loads : string -> option pyval) (w1 w2 : world) :
  (forall i, disk_read E i = true) ->
  file w1 = file w2 ->
  cache (snd (__init__ E cfg json_loads w1))
  = cache (snd (__init__ E cfg json_loads w2)).
Proof.
  intros Hrd Hf. unfold __init__. munfold. unfold py_len_exn. simpl.
  destruct (enable_cache cfg); simpl; [|reflexivity].
  rewrite Hf. destruct (file w2) as [text|]; simpl; [|reflexivity].
  rewrite !Hrd. destruct (json_loads text) as [v|]; simpl; [|reflexivity].
  destruct (truthy v); simpl; [|reflexivity].
  destruct (py_len v); reflexivity.
Qed.

(** The uploader as [__init__] leaves it holds the queue a restart would
    reload. *)
Lemma init_persisted (E : env) (cfg : config)
    (json_loads : string -> option pyval) (w : world) :
  enable_cache cfg = true ->
  (forall i, disk_read E i = true) ->
  persisted E cfg json_loads (snd (__init__ E cfg json_loads w)).
Proof.
  intros Hen Hrd. unfold persisted, __init__. rewrite Hen.
  munfold. unfold py_len_exn. simpl.
  destruct (file w) as [text|] eqn:Hf; simpl; [|rewrite Hf; reflexivity].
  rewrite Hrd. destruct (json_loads text) as [v|] eqn:Hj; simpl.
  - destruct (truthy v) eqn:Ht; simpl.
    + destruct (py_len v) eqn:Hl; simpl; rewrite Hf; simpl;
        rewrite Hrd, Hj; simpl; rewrite Ht; simpl; rewrite Hl; reflexivity.
    + rewrite Hf. simpl. rewrite Hrd, Hj. simpl. rewrite Ht. reflexivity.
  - rewrite Hf. simpl. rewrite Hrd, Hj. reflexivity.
Qed.

(** A run of uploads over well-formed reading sets, with caching enabled.
    [c0] and [f0] are the queue and the file at some earlier point of the
    run; the file either holds the last queue written or is still [f0]
    with the queue still [c0]. *)
Lemma upload_all_spec (E : env) (cfg : config) (json_dumps : pyval -> string)
    (c0 : pyval) (f0 : option string) :
  enable_cache cfg = true ->
  forall inputs w q,
    cache w = PList q ->
    Forall (fun x => well_formed x = true) q ->
    Forall (fun x => well_formed x = true) inputs ->
    exists results w' t q' k,
      upload_all E cfg json_dumps inputs w = (Ret results, w')
      /\ trace w' = trace w ++ t
      /\ cache w' = PList q'
      /\ Permutation (q' ++ acked t) (q ++ inputs)
      /\ q' = skipn k (q ++ failed inputs results)
      /\ List.length results = List.length inputs
      /\ ((forall i, disk_write E i = WriteOk) ->
          file w = Some (json_dumps (cache w)) \/ (cache w = c0 /\ file w = f0) ->
          file w' = Some (json_dumps (cache w')) \/ (cache w' = c0 /\ file w' = f0)).
Proof.
  intros Hen. induction inputs as [|x inputs IH]; intros w q Hq Hwf Hin.
  - exists [], w, [], q, O. simpl. unfold ret. rewrite !app_nil_r.
    repeat split; auto.
  - inversion Hin as [|? ? Hx Hrest]; subst.
    destruct (upload_spec E cfg json_dumps x w q Hx Hq Hwf)
      as (p & w1 & w2 & Hu & Hc1 & Hf1 & Hi1 & Ht1 & Hp1 & Hup & Hcase).
    cbv zeta in *.
    set (N := retry_times cfg) in *.
    set (re := retry_events (net E) (Z.to_nat N) x p true 1 N (posts w)) in *.
    pose proof (retry_events_acked (net E) (Z.to_nat N) x p true 1 N (posts w))
      as Hack. fold re in Hack.
    simpl upload_all. unfold bind at 1. rewrite Hup.
    destruct (snd re) eqn:Hb.
    + destruct Hcase as (t & D1 & D2 & D3 & D4 & D5 & D6 & D7 & D8).
      set (k1 := drained (net E) q (posts w1)) in *.
      assert (Hk1 : (k1 <= List.length q)%nat) by apply drained_le.
      destruct (IH w2 (skipn k1 q) D1 (Forall_skipn_wf k1 q Hwf) Hrest)
        as (bs & w' & t' & q' & k & Hall & Ht' & Hc' & Hperm & Hq' & Hlen & Hfile).
      exists (true :: bs), w', ((fst re ++ t) ++ t'), q', (k1 + k)%nat.
      unfold bind at 1. rewrite Hall. unfold bind, ret.
      repeat split; auto.
      * rewrite Ht', D2, Ht1, <- !app_assoc. reflexivity.
      * rewrite !acked_app, Hack, D6. apply (perm_step [x]). exact Hperm.
      * simpl failed. rewrite Hq'.
        rewrite <- skipn_app_le by exact Hk1.
        rewrite skipn_skipn. f_equal. lia.
      * simpl. congruence.
      * intros Hwr Hinv. apply Hfile; [exact Hwr|].
        rewrite D1, D8, Hf1.
        destruct k1 as [|k1'] eqn:Ek.
        -- simpl skipn. rewrite Hq in Hinv. exact Hinv.
        -- left. unfold file_after_write. rewrite Hwr. reflexivity.
    + rewrite Hen in Hcase. destruct Hcase as (A1 & A2 & A3 & A4 & A5).
      assert (Hwf' : Forall (fun y => well_formed y = true) (q ++ [x])).
      { apply Forall_app. split; [exact Hwf | repeat constructor; exact Hx]. }
      destruct (IH w2 (q ++ [x]) A1 Hwf' Hrest)
        as (bs & w' & t' & q' & k & Hall & Ht' & Hc' & Hperm & Hq' & Hlen & Hfile).
      exists (false :: bs), w', (fst re ++ t'), q', k.
      unfold bind at 1. rewrite Hall. unfold bind, ret.
      repeat split; auto.
      * rewrite Ht', A2, Ht1, <- !app_assoc. reflexivity.
      * rewrite acked_app, Hack. simpl app.
        rewrite <- app_assoc in Hperm. exact Hperm.
      * simpl failed. rewrite Hq', <- app_assoc. reflexivity.
      * simpl. congruence.
      * intros Hwr Hinv. apply Hfile; [exact Hwr|].
        left. rewrite A1, A5. unfold file_after_write. rewrite Hwr.
        reflexivity.
Qed.

(** ** The fallback values *)

Lemma py_mod1_range (x : Q) : (0 <= py_mod1 x)%Q /\ (py_mod1 x < 1)%Q.
Proof.
  destruct x as [n d]. unfold py_mod1, Qfloor, Qle, Qlt. simpl.
  pose proof (Z_div_mod_eq_full n (Zpos d)) as Hd.
  pose proof (Z.mod_pos_bound n (Zpos d) eq_refl) as Hm.
  split; nia.
Qed.

Lemma round_half_even_bounds (lo hi : Z) (y : Q) :
  (inject_Z lo <= y)%Q -> (y <= inject_Z hi)%Q ->
  lo <= round_half_even y <= hi.
Proof.
  intros Hlo Hhi.
  assert (Hfl : lo <= Qfloor y).
  { rewrite <- (Qfloor_Z lo). apply Qfloor_resp_le. exact Hlo. }
  assert (Hfh : Qfloor y <= hi).
  { rewrite <- (Qfloor_Z hi). apply Qfloor_resp_le. exact Hhi. }
  assert (Hup : (0 < y - inject_Z (Qfloor y))%Q -> Qfloor y + 1 <= hi).
  { intros Hpos.
    assert (Hlt : (inject_Z (Qfloor y) < inject_Z hi)%Q).
    { apply Qlt_le_trans with y; [|exact Hhi].
      apply Qlt_minus_iff. exact Hpos. }
    rewrite <- Zlt_Qlt in Hlt. lia. }
  unfold round_half_even.
  destruct ((y - inject_Z (Qfloor y)) ?= (1 # 2))%Q eqn:Hc.
  - apply Qeq_alt in Hc.
    assert (Hpos : (0 < y - inject_Z (Qfloor y))%Q) by (rewrite Hc; reflexivity).
    specialize (Hup Hpos).
    destruct (Z.even (Qfloor y)); lia.
  - lia.
  - apply Qgt_alt in Hc.
    assert (Hpos : (0 < y - inject_Z (Qfloor y))%Q)
      by (apply Qlt_trans with (1 # 2)%Q; [reflexivity | exact Hc]).
    specialize (Hup Hpos). lia.
Qed.

Lemma py_round1_bounds (lo hi : Z) (x : Q) :
  (inject_Z lo <= x * inject_Z 10)%Q -> (x * inject_Z 10 <= inject_Z hi)%Q ->
  (lo # 10 <= py_round1 x)%Q /\ (py_round1 x <= hi # 10)%Q.
Proof.
  intros Hlo Hhi.
  destruct (round_half_even_bounds lo hi _ Hlo Hhi) as [H1 H2].
  unfold py_round1.
  set (n := round_half_even (x * inject_Z 10)) in *. clearbody n.
  unfold Qle, Qdiv, Qmult, Qinv, inject_Z. simpl. lia.
Qed.

Ltac fallback_float lo hi :=
  match goal with
  | |- float_between _ _ (PFloat (py_round1 (_ + _ * py_mod1 ?now))) =>
      destruct (py_mod1_range now) as [H0 H1];
      set (f := py_mod1 now) in *; clearbody f;
      eexists; split; [reflexivity|];
      apply (py_round1_bounds lo hi);
      [ change (inject_Z lo) with (lo # 1)%Q; change (inject_Z 10) with 10%Q; lra
      | change (inject_Z hi) with (hi # 1)%Q; change (inject_Z 10) with 10%Q; lra ]
  end.

Lemma fallback_temp_range (now : Q) :
  float_between (220 # 10) (240 # 10) (fallback_temp now).
Proof. unfold fallback_temp. fallback_float 220 240. Qed.

Lemma fallback_humidity_range (now : Q) :
  float_between (530 # 10) (570 # 10) (fallback_humidity now).
Proof. unfold fallback_humidity. fallback_float 530 570. Qed.

Lemma fallback_pressure_range (now : Q) :
  float_between (10120 # 10) (10140 # 10) (fallback_pressure now).
Proof. unfold fallback_pressure. fallback_float 10120 10140. Qed.

Lemma fallback_light_range (now : Q) :
  int_between 1150 1250 (fallback_light now).
Proof.
  unfold fallback_light, py_int.
  destruct (py_mod1_range now) as [H0 H1].
  set (f := py_mod1 now) in *. clearbody f.
  eexists. split; [reflexivity|].
  assert (Hpos : Qle_bool 0 (1150 + 100 * f) = true)
    by (apply Qle_bool_iff; lra).
  rewrite Hpos. split.
  - apply Z.le_trans with (Qfloor (inject_Z 1150));
      [rewrite Qfloor_Z; lia | apply Qfloor_resp_le].
    change (inject_Z 1150) with 1150%Q. lra.
  - apply Z.le_trans with (Qfloor (inject_Z 1250));
      [apply Qfloor_resp_le | rewrite Qfloor_Z; lia].
    change (inject_Z 1250) with 1250%Q. lra.
Qed.

Lemma float_between_weaken (a b a' b' : Q) (v : pyval) :
  float_between a b v -> (a' <= a)%Q -> (b <= b')%Q -> float_between a' b' v.
Proof.
  intros (x & -> & H1 & H2) Ha Hb. exists x.
  split; [reflexivity|]. split; eapply Qle_trans; eauto.
Qed.

(** What [sensor_value] returns when it returns: the reading when the
    entry has one, else the fallback at some clock reading. *)
Lemma sensor_value_inv (E : env) (sensors : pyval) (name : string)
    (fb : Q -> pyval) (w w' : world) (v : pyval) :
  sensor_value E sensors name fb w = (Ret v, w') ->
  exists s,
    sensors = PDict s
    /\ match assoc name s with
       | Some (PDict e) =>
           match assoc "value" e with
           | Some r => if is_none r then exists now, v = fb now
                       else v = r /\ v <> PNone
           | None => exists now, v = fb now
           end
       | Some _ => False
       | None => exists now, v = fb now
       end.
Proof.
  unfold sensor_value, bind, lift, ret, time_time, py_get.
  destruct sensors as [| | | | | |s]; try discriminate.
  intros H. exists s. split; [reflexivity|].
  destruct (assoc name s) as [[| | | | | |e]|]; try discriminate; simpl in H.
  - destruct (assoc "value" e) as [r|]; simpl in H.
    + destruct (is_none r) eqn:Hn.
      * inversion H; subst. eauto.
      * inversion H; subst. split; [reflexivity|].
        intros ->. discriminate.
    + inversion H; subst. eauto.
  - inversion H; subst. eauto.
Qed.

Lemma retry_events_posts (nt : nat -> response) (sd p : pyval) (ur : bool)
    (mx : Z) (sd' p' : pyval) (r : response) :
  forall fuel a i,
    In (EvPost sd' p' r) (fst (retry_events nt fuel sd p ur a mx i)) ->
    sd' = sd /\ p' = p.
Proof.
  induction fuel as [|fuel IH]; intros a i; simpl; [tauto|].
  destruct (result_of (verdict_of (nt i))); simpl.
  - intros [H | []]. inversion H; auto.
  - intros [H | H]; [inversion H; auto|].
    apply in_app_or in H. destruct H as [H | H]; [|eauto].
    destruct (ur && (a <? mx))%bool; simpl in H;
      [destruct H as [H | []]; discriminate | contradiction].
Qed.

Lemma sensor_value_trace (E : env) (sensors : pyval) (name : string)
    (fb : Q -> pyval) (w : world) :
  trace (snd (sensor_value E sensors name fb w)) = trace w.
Proof.
  unfold sensor_value, bind, lift, ret, time_time, py_get.
  destruct sensors as [| | | | | |s]; try reflexivity.
  destruct (assoc name s) as [[| | | | | |e]|]; try reflexivity; simpl.
  - destruct (assoc "value" e) as [r|]; simpl;
      [destruct (is_none r)|]; reflexivity.
Qed.

(** Building the payload sends nothing, whether or not it raises. *)
Lemma build_payload_trace (E : env) (sd : pyval) (w : world) :
  trace (snd (build_payload E sd w)) = trace w.
Proof.
  unfold build_payload.
  unfold bind at 1, lift at 1, py_get at 1.
  destruct sd as [| | | | | |kvs]; try reflexivity.
  set (sensors := match assoc "sensors" kvs with
                  | Some v => v
                  | None => PDict []
                  end).
  unfold bind at 1.
  pose proof (sensor_value_trace E sensors "temperature" fallback_temp w) as T1.
  destruct (sensor_value E sensors "temperature" fallback_temp w)
    as [[v1|e1] w1]; [|exact T1].
  unfold bind at 1.
  pose proof (sensor_value_trace E sensors "humidity" fallback_humidity w1) as T2.
  destruct (sensor_value E sensors "humidity" fallback_humidity w1)
    as [[v2|e2] w2]; [|simpl in *; congruence].
  unfold bind at 1.
  pose proof (sensor_value_trace E sensors "pressure" fallback_pressure w2) as T3.
  destruct (sensor_value E sensors "pressure" fallback_pressure w2)
    as [[v3|e3] w3]; [|simpl in *; congruence].
  unfold bind at 1.
  pose proof (sensor_value_trace E sensors "light" fallback_light w3) as T4.
  destruct (sensor_value E sensors "light" fallback_light w3)
    as [[v4|e4] w4]; simpl in *; congruence.
Qed.

Lemma field_ok_intro (sd payload : pyval) (kvs s : list (string * pyval))
    (name field : string) (fb : Q -> pyval) (near : pyval -> Prop) (v : pyval) :
  sd = PDict kvs ->
  match assoc "sensors" kvs with Some x => x | None => PDict [] end = PDict s ->
  match assoc name s with
  | Some (PDict e) =>
      match assoc "value" e with
      | Some r => if is_none r then exists now, v = fb now
                  else v = r /\ v <> PNone
      | None => exists now, v = fb now
      end
  | Some _ => False
  | None => exists now, v = fb now
  end ->
  (forall now, near (fb now)) ->
  (forall x, near x -> x <> PNone) ->
  usv_field payload field = Some v ->
  field_ok sd payload name field near.
Proof.
  intros -> Hs Hv Hnear Hnn Hf. exists v. split; [exact Hf|].
  assert (Hr : reading_of (PDict kvs) name
               = match assoc name s with
                 | Some (PDict e) =>
                     match assoc "value" e with
                     | Some r => if is_none r then None else Some r
                     | None => None
                     end
                 | _ => None
                 end).
  { unfold reading_of.
    destruct (assoc "sensors" kvs) as [x|].
    - subst x. reflexivity.
    - inversion Hs; subst. reflexivity. }
  rewrite Hr. clear Hr.
  destruct (assoc name s) as [[| | | | | |e]|]; try contradiction.
  - destruct (assoc "value" e) as [r|].
    + destruct (is_none r).
      * destruct Hv as [now ->]. split; [apply Hnn|]; apply Hnear.
      * destruct Hv as [-> Hn]. split; [exact Hn | reflexivity].
    + destruct Hv as [now ->]. split; [apply Hnn|]; apply Hnear.
  - destruct Hv as [now ->]. split; [apply Hnn|]; apply Hnear.
Qed.

(** * Properties of the uplink *)

(** C1 (no loss). With caching enabled, a run of [upload] over well-formed
    reading sets, started with a queue of well-formed entries, returns for
    every sequence of answers of the collector, and afterwards:
    - every reading set of the queue or of the run for which the collector
      accepted no request is in the queue;
    - the queue together with the reading sets the collector accepted is
      a rearrangement of the initial queue and the inputs: nothing is lost
      and nothing is invented;
    - the queue is, in order, the initial queue followed by the inputs
      whose upload failed, less some entries at its head;
    - when the disk works and a restart before the run would have
      reloaded the initial queue, a restart ([__init__]) after the run
      reloads exactly the final queue, provided the JSON library decodes
      what it encoded for it. *)
Theorem no_loss (E : env) (cfg : config) (json_dumps : pyval -> string)
    (json_loads : string -> option pyval)
    (inputs : list pyval) (w : world) (q : list pyval) :
  enable_cache cfg = true ->
  cache w = PList q ->
  Forall (fun x => well_formed x = true) q ->
  Forall (fun x => well_formed x = true) inputs ->
  exists results w' t q',
    upload_all E cfg json_dumps inputs w = (Ret results, w')
    /\ trace w' = trace w ++ t
    /\ cache w' = PList q'
    /\ (forall x,
          In x (q ++ inputs) ->
          (forall p r, In (EvPost x p r) t -> verdict_of r <> Accepted) ->
          In x q')
    /\ Permutation (q' ++ acked t) (q ++ inputs)
    /\ (exists k, q' = skipn k (q ++ failed inputs results))
    /\ ((forall i, disk_write E i = WriteOk) ->
        (forall i, disk_read E i = true) ->
        persisted E cfg json_loads w ->
        json_loads (json_dumps (PList q')) = Some (PList q') ->
        cache (snd (__init__ E cfg json_loads w')) = PList q').
Proof.
  intros Hen Hq Hwf Hin.
  destruct (upload_all_spec E cfg json_dumps (cache w) (file w) Hen
              inputs w q Hq Hwf Hin)
    as (bs & w' & t & q' & k & Hall & Ht & Hc & Hperm & Hq' & _ & Hfile).
  exists bs, w', t, q'. repeat split; auto.
  - intros x Hx Hno.
    apply (Permutation_in x (Permutation_sym Hperm)) in Hx.
    apply in_app_or in Hx. destruct Hx as [Hx | Hx]; [exact Hx|].
    apply acked_In in Hx. destruct Hx as (p & r & Hp & Hv).
    exfalso. exact (Hno p r Hp Hv).
  - exists k. exact Hq'.
  - intros Hwr Hrd Hper Hrt.
    destruct (Hfile Hwr (or_intror (conj eq_refl eq_refl))) as [Hf | [Hc0 Hf0]].
    + rewrite Hc in Hf. exact (init_reload E cfg json_loads w' _ q' Hen Hrd Hf Hrt).
    + rewrite (init_same_file E cfg json_loads w' w Hrd Hf0).
      unfold persisted in Hper. congruence.
Qed.

Lemma no_loss_witness :
  exists results w',
    upload_all
      (Sample.env_of
         (Sample.script
            [Timeout; ConnectionError; Sample.unavailable; Sample.rejected;
             Sample.accepted; Sample.accepted; Sample.unavailable]
            Timeout))
      Sample.cfg Sample.json_dumps
      [Sample.rs_A; Sample.rs_B; Sample.rs_C; Sample.rs_D]
      (Sample.world_of [] None) = (Ret results, w')
    /\ results = [false; false; true; false]
    /\ cache w' = PList [Sample.rs_B; Sample.rs_D]
    /\ cache (snd (__init__
                     (Sample.env_of
                        (Sample.script
                           [Timeout; ConnectionError; Sample.unavailable;
                            Sample.rejected; Sample.accepted; Sample.accepted;
                            Sample.unavailable]
                           Timeout))
                     Sample.cfg Sample.json_loads w'))
       = PList [Sample.rs_B; Sample.rs_D].
Proof.
  assert (Hin : Forall (fun x => well_formed x = true)
                  [Sample.rs_A; Sample.rs_B; Sample.rs_C; Sample.rs_D])
    by (repeat constructor).
  destruct (no_loss
              (Sample.env_of
                 (Sample.script
                    [Timeout; ConnectionError; Sample.unavailable;
                     Sample.rejected; Sample.accepted; Sample.accepted;
                     Sample.unavailable]
                    Timeout))
              Sample.cfg Sample.json_dumps Sample.json_loads
              [Sample.rs_A; Sample.rs_B; Sample.rs_C; Sample.rs_D]
              (Sample.world_of [] None) []
              eq_refl eq_refl (Forall_nil _) Hin)
    as (results & w' & t & q' & Hu & _ & Hc & _ & _ & _ & Hreload).
  exists results, w'. split; [exact Hu|].
  vm_compute in Hu. inversion Hu; subst results w'; clear Hu.
  vm_compute in Hc. inversion Hc; subst q'; clear Hc.
  split; [reflexivity|]. split; [reflexivity|].
  apply Hreload.
  - intros i; reflexivity.
  - intros i; reflexivity.
  - reflexivity.
  - vm_compute. reflexivity.
Defined.

(** C2 as the specification states it fails: a reading set that the
    collector rejects at the first of three allowed attempts is appended
    to the queue after that single request. *)
Lemma appended_after_terminal_rejection :
  let E := Sample.env_of (Sample.script [Sample.rejected] Sample.accepted) in
  let r := upload E Sample.cfg Sample.json_dumps Sample.rs_A
             (Sample.world_of [] None) in
  retry_times Sample.cfg = 3
  /\ fst r = Ret false
  /\ attempts (trace (snd r)) = [(Sample.rs_A, Sample.rejected)]
  /\ posts (snd r) = 1%nat
  /\ cache (snd r) = PList [Sample.rs_A]
  /\ ~ appended_only_after_exhaustion E Sample.cfg Sample.json_dumps.
Proof.
  cbv zeta.
  split; [reflexivity|].
  split; [vm_compute; reflexivity|].
  split; [vm_compute; reflexivity|].
  split; [vm_compute; reflexivity|].
  split; [vm_compute; reflexivity|].
  intros H.
  specialize (H Sample.rs_A (Sample.world_of [] None) [] false
                (snd (upload
                        (Sample.env_of (Sample.script [Sample.rejected] Sample.accepted))
                        Sample.cfg Sample.json_dumps Sample.rs_A
                        (Sample.world_of [] None)))
                eq_refl eq_refl eq_refl eq_refl).
  vm_compute in H. discriminate.
Qed.

(** C2, amended (spill-queue discipline). With caching enabled, on a
    well-formed reading set and a queue of well-formed entries, [upload]
    returns and:
    - the reading set is appended to the tail exactly when the fresh
      delivery returned [False], which happens either at a terminal
      rejection by the collector (possibly before the retry budget is used
      up) or when all [retry_times] attempts failed retryably;
    - the entries removed are a prefix of the queue, removed only when the
      fresh delivery succeeded, and for each of them the collector
      accepted a request carrying it. *)
Theorem spill_queue_discipline (E : env) (cfg : config)
    (json_dumps : pyval -> string) (sd : pyval) (w : world) (q : list pyval) :
  enable_cache cfg = true ->
  well_formed sd = true ->
  cache w = PList q ->
  Forall (fun x => well_formed x = true) q ->
  exists b w' t k,
    upload E cfg json_dumps sd w = (Ret b, w')
    /\ trace w' = trace w ++ t
    /\ cache w' = PList (skipn k (q ++ (if b then [] else [sd])))
    /\ (b = false ->
        k = O
        /\ ((exists n, (n < Z.to_nat (retry_times cfg))%nat
               /\ verdict_of (net E (posts w + n)) = Rejected
               /\ posts w' = (posts w + S n)%nat)
            \/ ((forall j, (j < Z.to_nat (retry_times cfg))%nat ->
                           verdict_of (net E (posts w + j)) = Retry)
                /\ posts w' = (posts w + Z.to_nat (retry_times cfg))%nat)))
    /\ (forall x, In x (firstn k q) ->
          exists p r, In (EvPost x p r) t /\ verdict_of r = Accepted).
Proof.
  intros Hen Hsd Hq Hwf.
  destruct (upload_spec E cfg json_dumps sd w q Hsd Hq Hwf)
    as (p & w1 & w' & Hu & Hc1 & Hf1 & Hi1 & Ht1 & Hp1 & Hup & Hcase).
  cbv zeta in *.
  set (N := retry_times cfg) in *.
  set (re := retry_events (net E) (Z.to_nat N) sd p true 1 N (posts w)) in *.
  destruct (snd re) eqn:Hb.
  - destruct Hcase as (t & D1 & D2 & D3 & D4 & D5 & D6 & D7 & D8).
    exists true, w', (fst re ++ t), (drained (net E) q (posts w1)).
    rewrite app_nil_r. repeat split; auto; try discriminate.
    + rewrite D2, Ht1, app_assoc. reflexivity.
    + intros x Hx. apply acked_In. rewrite acked_app, D6.
      apply in_or_app. right. exact Hx.
  - rewrite Hen in Hcase. destruct Hcase as (A1 & A2 & A3 & A4 & A5).
    exists false, w', (fst re), O.
    repeat split; auto.
    + rewrite A2. exact Ht1.
    + destruct (retry_events_cases (net E) sd p true N (Z.to_nat N) 1 (posts w))
        as [(Hall & _ & Hc) | (n & Hn & _ & Hv & Hr & Hc)]; fold re in Hc.
      * right. split; [exact Hall|]. rewrite A3, Hp1, Hc. reflexivity.
      * left. exists n. fold re in Hr. rewrite Hb in Hr.
        split; [exact Hn|]. split.
        -- destruct (verdict_of (net E (posts w + n))); simpl in Hr;
             congruence.
        -- rewrite A3, Hp1, Hc. reflexivity.
    + simpl. intros x [].
Qed.

Lemma spill_queue_discipline_witness :
  exists b w' t k,
    upload (Sample.env_of (Sample.script [Sample.rejected] Sample.accepted))
      Sample.cfg Sample.json_dumps Sample.rs_B
      (Sample.world_of [Sample.rs_A] None) = (Ret b, w')
    /\ trace w' = t
    /\ cache w' = PList (skipn k ([Sample.rs_A] ++ (if b then [] else [Sample.rs_B]))).
Proof.
  assert (Hwf : Forall (fun x => well_formed x = true) [Sample.rs_A])
    by (repeat constructor).
  destruct (spill_queue_discipline
              (Sample.env_of (Sample.script [Sample.rejected] Sample.accepted))
              Sample.cfg Sample.json_dumps Sample.rs_B
              (Sample.world_of [Sample.rs_A] None) [Sample.rs_A]
              eq_refl eq_refl eq_refl Hwf)
    as (b & w' & t & k & Hu & Ht & Hc & _).
  exists b, w', t, k. repeat split; assumption.
Defined.

(** C3 (terminal vs retryable). A delivery with retry of a well-formed
    reading set:
    - when attempt [n + 1] is within the [retry_times] allowed, the
      attempts before it failed retryably and its answer is a 200 response
      whose JSON body has [ok] false, the delivery returns [False] having
      sent exactly [n + 1] requests, that one being the last: a rejection
      at the first attempt means exactly one request;
    - when every request ends in a timeout or a connection error, it
      returns [False] having sent exactly [retry_times] requests. *)
Theorem terminal_vs_retryable (E : env) (cfg : config) (sd : pyval) (w : world) :
  well_formed sd = true ->
  (forall (n : nat) kvs,
     Z.of_nat n < retry_times cfg ->
     (forall j, (j < n)%nat -> verdict_of (net E (posts w + j)) = Retry) ->
     net E (posts w + n) = Http 200 (Some (PDict kvs)) ->
     assoc "ok" kvs = Some (PBool false) ->
     exists p w' t,
       _upload_single E cfg sd true w = (Ret false, w')
       /\ trace w' = trace w ++ t
       /\ count_posts t = S n
       /\ posts w' = (posts w + S n)%nat
       /\ (n = O -> t = [EvPost sd p (net E (posts w))]))
  /\
  (0 <= retry_times cfg ->
   (forall j : nat, net E (posts w + j) = Timeout
                    \/ net E (posts w + j) = ConnectionError) ->
   exists w' t,
     _upload_single E cfg sd true w = (Ret false, w')
     /\ trace w' = trace w ++ t
     /\ Z.of_nat (count_posts t) = retry_times cfg
     /\ posts w' = (posts w + Z.to_nat (retry_times cfg))%nat).
Proof.
  intros Hwf.
  destruct (upload_single_spec E cfg sd true w Hwf)
    as (p & w' & Hu & _ & _ & _ & Ht & Hp).
  cbv zeta in *.
  set (N := retry_times cfg) in *.
  set (re := retry_events (net E) (Z.to_nat N) sd p true 1 N (posts w)) in *.
  split.
  - intros n kvs HN Hpre Hnet Hok. exists p, w', (fst re).
    assert (V : verdict_of (net E (posts w + n)) = Rejected).
    { rewrite Hnet. simpl. rewrite Hok. reflexivity. }
    destruct (retry_events_cases (net E) sd p true N (Z.to_nat N) 1 (posts w))
      as [(Hall & _) | (n' & Hn' & Hpre' & Hv' & Hr & Hc)].
    + rewrite Hall in V by lia. discriminate.
    + assert (n' = n).
      { destruct (Nat.lt_trichotomy n' n) as [Hlt | [Heq | Hgt]]; auto.
        - exfalso. apply Hv'. apply Hpre. exact Hlt.
        - rewrite Hpre' in V by exact Hgt. discriminate. }
      subst n'. fold re in Hr, Hc. rewrite V in Hr. simpl in Hr.
      inversion Hr as [Hb]. rewrite <- Hb in Hu. rewrite Hc in Hp.
      repeat split; auto.
      intros ->. unfold re.
      destruct (Z.to_nat N) as [|fuel] eqn:HF; [lia|].
      simpl. rewrite Nat.add_0_r in V. rewrite V. reflexivity.
  - intros HN Hall. exists w', (fst re).
    destruct (retry_events_cases (net E) sd p true N (Z.to_nat N) 1 (posts w))
      as [(_ & Hb & Hc) | (n & Hn & _ & Hv & _)].
    + fold re in Hb, Hc. rewrite Hb in Hu. rewrite Hc in *.
      repeat split; auto. lia.
    + exfalso. apply Hv.
      destruct (Hall n) as [-> | ->]; reflexivity.
Qed.

Lemma terminal_vs_retryable_witness :
  (exists p w' t,
     _upload_single (Sample.env_of (Sample.script [Sample.rejected] Sample.accepted))
       Sample.cfg Sample.rs_A true (Sample.world_of [] None) = (Ret false, w')
     /\ trace w' = t
     /\ posts w' = 1%nat
     /\ t = [EvPost Sample.rs_A p Sample.rejected])
  /\
  (exists w' t,
     _upload_single (Sample.env_of (Sample.script [] Timeout))
       Sample.cfg Sample.rs_A true (Sample.world_of [] None) = (Ret false, w')
     /\ trace w' = t
     /\ Z.of_nat (count_posts t) = 3
     /\ posts w' = 3%nat).
Proof.
  split.
  - destruct (proj1 (terminal_vs_retryable
                       (Sample.env_of (Sample.script [Sample.rejected] Sample.accepted))
                       Sample.cfg Sample.rs_A (Sample.world_of [] None) eq_refl)
                O [("ok", PBool false); ("err", PStr "bad payload")])
      as (p & w' & t & Hu & Ht & _ & Hp & Hone);
      [ vm_compute; reflexivity | intros j Hj; lia | reflexivity | reflexivity |].
    exists p, w', t. repeat split; auto.
  - apply (proj2 (terminal_vs_retryable
                    (Sample.env_of (Sample.script [] Timeout))
                    Sample.cfg Sample.rs_A (Sample.world_of [] None) eq_refl)).
    + vm_compute; discriminate.
    + intros j. left. unfold Sample.env_of, Sample.script. simpl.
      destruct j; reflexivity.
Defined.

(** C4 (back-off schedule). A delivery with retry of a well-formed reading
    set emits requests and sleeps such that, for every [k] with
    [1 <= k < retry_times] whose attempts [1..k] all failed retryably,
    attempt [k] is followed by a sleep of exactly [2^k] seconds and then by
    attempt [k+1]; and the events never end with a sleep, so no wait
    follows the final attempt. *)
Theorem backoff_schedule (E : env) (cfg : config) (sd : pyval) (w : world) :
  well_formed sd = true ->
  exists p b w' t,
    _upload_single E cfg sd true w = (Ret b, w')
    /\ trace w' = trace w ++ t
    /\ (forall k : nat,
          (1 <= k)%nat -> Z.of_nat k < retry_times cfg ->
          (forall j, (j < k)%nat -> verdict_of (net E (posts w + j)) = Retry) ->
          nth_error t (2 * k - 2) = Some (EvPost sd p (net E (posts w + k - 1)))
          /\ nth_error t (2 * k - 1) = Some (EvSleep (2 ^ Z.of_nat k))
          /\ nth_error t (2 * k) = Some (EvPost sd p (net E (posts w + k))))
    /\ (forall t' s, t <> t' ++ [EvSleep s]).
Proof.
  intros Hwf.
  destruct (upload_single_spec E cfg sd true w Hwf)
    as (p & w' & Hu & _ & _ & _ & Ht & _).
  cbv zeta in *.
  set (N := retry_times cfg) in *.
  set (re := retry_events (net E) (Z.to_nat N) sd p true 1 N (posts w)) in *.
  exists p, (snd re), w', (fst re).
  split; [exact Hu|]. split; [exact Ht|]. split.
  2: { intros t' s Heq.
       pose proof (retry_events_last (net E) sd p true N (EvPost sd p Timeout)
                     (Z.to_nat N) 1 (posts w)) as Hl.
       fold re in Hl. rewrite Heq, last_last in Hl.
       destruct (Z_le_gt_dec 0 N) as [HN | HN].
       - specialize (Hl ltac:(lia) eq_refl). discriminate.
       - unfold re in Heq. replace (Z.to_nat N) with O in Heq by lia.
         simpl in Heq. destruct t'; discriminate. }
  intros k Hk1 HkN H1. repeat split.
  - destruct k as [|k]; [lia|].
    destruct (retry_events_nth (net E) sd p N (Z.to_nat N) 1 (posts w) k)
      as [Hn _]; [lia | lia | intros j Hj; apply H1; lia |].
    replace (2 * S k - 2)%nat with (2 * k)%nat by lia.
    replace (posts w + S k - 1)%nat with (posts w + k)%nat by lia.
    exact Hn.
  - destruct k as [|k]; [lia|].
    destruct (retry_events_nth (net E) sd p N (Z.to_nat N) 1 (posts w) k)
      as [_ Hs]; [lia | lia | intros j Hj; apply H1; lia |].
    replace (2 * S k - 1)%nat with (2 * k + 1)%nat by lia.
    replace (Z.of_nat (S k)) with (1 + Z.of_nat k) by lia.
    apply Hs; [apply H1; lia | lia].
  - destruct (retry_events_nth (net E) sd p N (Z.to_nat N) 1 (posts w) k)
      as [Hn _]; [lia | lia | intros j Hj; apply H1; lia |].
    exact Hn.
Qed.

Lemma backoff_schedule_witness :
  exists p b w' t,
    _upload_single (Sample.env_of (Sample.script [] Timeout))
      Sample.cfg Sample.rs_A true (Sample.world_of [] None) = (Ret b, w')
    /\ trace w' = t
    /\ (nth_error t 0 = Some (EvPost Sample.rs_A p Timeout)
        /\ nth_error t 1 = Some (EvSleep 2)
        /\ nth_error t 2 = Some (EvPost Sample.rs_A p Timeout))
    /\ (nth_error t 2 = Some (EvPost Sample.rs_A p Timeout)
        /\ nth_error t 3 = Some (EvSleep 4)
        /\ nth_error t 4 = Some (EvPost Sample.rs_A p Timeout))
    /\ (forall t' s, t <> t' ++ [EvSleep s]).
Proof.
  destruct (backoff_schedule (Sample.env_of (Sample.script [] Timeout))
              Sample.cfg Sample.rs_A (Sample.world_of [] None) eq_refl)
    as (p & b & w' & t & Hu & Ht & Hk & Hlast).
  exists p, b, w', t.
  split; [exact Hu|]. split; [exact Ht|].
  split; [| split; [| exact Hlast]].
  - apply (Hk 1%nat); [lia | vm_compute; reflexivity |].
    intros j Hj. destruct j as [|[|j]]; reflexivity.
  - apply (Hk 2%nat); [lia | vm_compute; reflexivity |].
    intros j Hj. destruct j as [|[|[|j]]]; reflexivity.
Defined.

(** C5 (FIFO on drain). After a fresh successful delivery with the queue
    [A, B, C] (oldest first) of well-formed entries, [upload] drains it:
    one request for [A], no sleep anywhere; a request for [B] only if [A]
    was accepted, a request for [C] only if [B] was accepted; the entries
    accepted leave the head of the queue, and a failure at [B] leaves
    exactly [B, C]. *)
Theorem fifo_on_drain (E : env) (cfg : config) (json_dumps : pyval -> string)
    (sd A B C : pyval) (w w1 : world) :
  _upload_single E cfg sd true w = (Ret true, w1) ->
  cache w1 = PList [A; B; C] ->
  well_formed A = true -> well_formed B = true -> well_formed C = true ->
  let r1 := net E (posts w1) in
  let r2 := net E (S (posts w1)) in
  let r3 := net E (S (S (posts w1))) in
  exists w' t,
    upload E cfg json_dumps sd w = (Ret true, w')
    /\ trace w' = trace w1 ++ t
    /\ forallb is_post t = true
    /\ match verdict_of r1, verdict_of r2, verdict_of r3 with
       | Accepted, Accepted, Accepted =>
           attempts t = [(A, r1); (B, r2); (C, r3)] /\ cache w' = PList []
       | Accepted, Accepted, _ =>
           attempts t = [(A, r1); (B, r2); (C, r3)] /\ cache w' = PList [C]
       | Accepted, _, _ =>
           attempts t = [(A, r1); (B, r2)] /\ cache w' = PList [B; C]
       | _, _, _ =>
           attempts t = [(A, r1)] /\ cache w' = PList [A; B; C]
       end.
Proof.
  intros Hu Hc HA HB HC r1 r2 r3.
  assert (Hwf : Forall (fun x => well_formed x = true) [A; B; C])
    by (repeat constructor; assumption).
  destruct (upload_cached_data_spec E cfg json_dumps w1 [A; B; C] Hc Hwf)
    as (w' & t & Hd & D1 & D2 & _ & D4 & D5 & _).
  cbv zeta in *. exists w', t.
  split.
  { unfold upload, bind at 1. rewrite Hu. simpl negb. simpl andb.
    unfold when at 1, bind at 1, ret at 1, bind at 1, gets at 1.
    rewrite Hc. simpl truthy. simpl when. unfold bind. rewrite Hd.
    reflexivity. }
  split; [exact D2|]. split; [exact D4|].
  simpl drained in D1, D5.
  fold r1 r2 r3 in D1, D5. fold r1 r2 r3.
  destruct (verdict_of r1); [| split; assumption | split; assumption].
  destruct (verdict_of r2); [| split; assumption | split; assumption].
  destruct (verdict_of r3); split; assumption.
Qed.

Lemma fifo_on_drain_witness :
  exists w' t,
    upload (Sample.env_of (Sample.script [Sample.accepted; Sample.accepted] Timeout))
      Sample.cfg Sample.json_dumps Sample.rs_D
      (Sample.world_of [Sample.rs_A; Sample.rs_B; Sample.rs_C] None)
    = (Ret true, w')
    /\ attempts t = [(Sample.rs_A, Sample.accepted); (Sample.rs_B, Timeout)]
    /\ forallb is_post t = true
    /\ cache w' = PList [Sample.rs_B; Sample.rs_C].
Proof.
  destruct (fifo_on_drain
              (Sample.env_of (Sample.script [Sample.accepted; Sample.accepted] Timeout))
              Sample.cfg Sample.json_dumps
              Sample.rs_D Sample.rs_A Sample.rs_B Sample.rs_C
              (Sample.world_of [Sample.rs_A; Sample.rs_B; Sample.rs_C] None)
              (snd (_upload_single
                      (Sample.env_of (Sample.script [Sample.accepted; Sample.accepted] Timeout))
                      Sample.cfg Sample.rs_D true
                      (Sample.world_of [Sample.rs_A; Sample.rs_B; Sample.rs_C] None)))
              eq_refl eq_refl eq_refl eq_refl eq_refl)
    as (w' & t & Hu & _ & Hall & Hcase).
  exists w', t. split; [exact Hu|].
  destruct Hcase as [Ha Hc]. repeat split; assumption.
Defined.

(** C6 (reload round trip). When the write succeeds, a process that
    starts with the file [_save_cache] left, reads it without error and
    decodes what the JSON library encoded, gets from [_load_cache] the
    queue that was saved: the same entries in the same order. *)
Theorem reload_round_trip (E : env) (json_dumps : pyval -> string)
    (json_loads : string -> option pyval) (w : world) (q : list pyval) :
  cache w = PList q ->
  disk_write E (ios w) = WriteOk ->
  json_loads (json_dumps (PList q)) = Some (PList q) ->
  exists w1,
    _save_cache E json_dumps w = (Ret tt, w1)
    /\ cache w1 = PList q
    /\ forall w2,
         file w2 = file w1 ->
         disk_read E (ios w2) = true ->
         exists w3,
           _load_cache E json_loads w2 = (Ret tt, w3)
           /\ cache w3 = PList q.
Proof.
  intros Hq Hwr Hrt.
  destruct (save_cache_spec E json_dumps w q Hq)
    as (w1 & Hs & Hc & _ & _ & _ & Hf & _).
  rewrite Hwr in Hf.
  exists w1. split; [exact Hs|]. split; [congruence|].
  intros w2 Hf2 Hrd. munfold. rewrite Hf2, Hf. simpl.
  rewrite Hrd, Hrt. simpl.
  destruct q; simpl; eexists; split; reflexivity.
Qed.

Lemma reload_round_trip_witness :
  exists w1,
    _save_cache (Sample.env_of (Sample.script [] Timeout)) Sample.json_dumps
      (Sample.world_of [Sample.rs_A; Sample.rs_partial] None) = (Ret tt, w1)
    /\ exists w3,
         _load_cache (Sample.env_of (Sample.script [] Timeout)) Sample.json_loads
           (Sample.world_of [] (file w1)) = (Ret tt, w3)
         /\ cache w3 = PList [Sample.rs_A; Sample.rs_partial].
Proof.
  assert (Hrt : Sample.json_loads
                  (Sample.json_dumps (PList [Sample.rs_A; Sample.rs_partial]))
                = Some (PList [Sample.rs_A; Sample.rs_partial]))
    by (vm_compute; reflexivity).
  destruct (reload_round_trip (Sample.env_of (Sample.script [] Timeout))
              Sample.json_dumps Sample.json_loads
              (Sample.world_of [Sample.rs_A; Sample.rs_partial] None)
              [Sample.rs_A; Sample.rs_partial] eq_refl eq_refl Hrt)
    as (w1 & Hs & _ & Hload).
  exists w1. split; [exact Hs|].
  apply (Hload (Sample.world_of [] (file w1))); reflexivity.
Defined.

(** C7 as the specification states it fails: with a disk that refuses
    the write, [_add_to_cache] returns to its caller as it does on
    success; the failure is not reported. *)
Lemma write_failure_not_reported :
  let E := Sample.env_full_disk (Sample.script [] Timeout) in
  let w := Sample.world_of [] None in
  let r := _add_to_cache E Sample.cfg Sample.json_dumps Sample.rs_A w in
  disk_write E (ios w) = WriteFailOpen
  /\ fst r = Ret tt
  /\ fst r = fst (_add_to_cache (Sample.env_of (Sample.script [] Timeout))
                    Sample.cfg Sample.json_dumps Sample.rs_A w)
  /\ file (snd r) = None
  /\ ~ write_failure_reported E Sample.cfg Sample.json_dumps.
Proof.
  cbv zeta.
  split; [reflexivity|].
  split; [vm_compute; reflexivity|].
  split; [vm_compute; reflexivity|].
  split; [vm_compute; reflexivity|].
  intros H.
  apply (H Sample.rs_A (Sample.world_of [] None) []);
    [ reflexivity | reflexivity | discriminate | reflexivity ].
Qed.

(** C7, amended (append durability). With caching enabled and a queue
    [q], [_add_to_cache] always returns normally with the entry at the
    tail of the queue in memory. It writes the full queue before it
    returns: when the write succeeds the file holds the encoding of the
    full queue; when the write fails the failure is logged at ERROR level
    and absorbed, and the queue in memory still holds the entry. *)
Theorem append_durability (E : env) (cfg : config)
    (json_dumps : pyval -> string) (sd : pyval) (w : world) (q : list pyval) :
  enable_cache cfg = true ->
  cache w = PList q ->
  exists w',
    _add_to_cache E cfg json_dumps sd w = (Ret tt, w')
    /\ cache w' = PList (q ++ [sd])
    /\ (disk_write E (ios w) = WriteOk ->
        file w' = Some (json_dumps (PList (q ++ [sd]))))
    /\ (disk_write E (ios w) <> WriteOk ->
        logs w' = logs w ++ [(ERROR, "saving the cache file failed");
                             (INFO, "data cached locally")]).
Proof.
  intros Hen Hq.
  destruct (add_to_cache_spec E cfg json_dumps w q sd Hen Hq)
    as (w' & Ha & Hc & _ & _ & _ & Hf & Hl).
  exists w'. repeat split; auto.
  - intros Hwr. rewrite Hwr in Hf. exact Hf.
  - intros Hwr. rewrite Hl.
    destruct (disk_write E (ios w)); [contradiction | reflexivity | reflexivity].
Qed.

Lemma append_durability_witness :
  exists w',
    _add_to_cache (Sample.env_full_disk (Sample.script [] Timeout))
      Sample.cfg Sample.json_dumps Sample.rs_B
      (Sample.world_of [Sample.rs_A] None) = (Ret tt, w')
    /\ cache w' = PList [Sample.rs_A; Sample.rs_B]
    /\ logs w' = [(ERROR, "saving the cache file failed");
                  (INFO, "data cached locally")].
Proof.
  destruct (append_durability (Sample.env_full_disk (Sample.script [] Timeout))
              Sample.cfg Sample.json_dumps Sample.rs_B
              (Sample.world_of [Sample.rs_A] None) [Sample.rs_A]
              eq_refl eq_refl)
    as (w' & Ha & Hc & _ & Hl).
  exists w'. split; [exact Ha|]. split; [exact Hc|].
  apply Hl. discriminate.
Defined.

(** C8 (missing-sensor fallback).
    - On a well-formed reading set the payload is built.
    - Whenever the payload is built, each of [usv.temp], [usv.humidity],
      [usv.pressure] and [usv.light] is present and not [None]; it is the
      reading of the sensor when the reading set has one, and otherwise a
      float in [22, 24], [53, 57], [1012, 1014], respectively an integer
      in [1150, 1250].
    - Every request [_upload_single] sends carries the payload so built. *)
Theorem missing_sensor_fallback (E : env) (sd : pyval) (w : world) :
  (well_formed sd = true ->
   exists payload w', build_payload E sd w = (Ret payload, w'))
  /\ (forall payload w',
        build_payload E sd w = (Ret payload, w') ->
        field_ok sd payload "temperature" "temp" (float_between 22 24)
        /\ field_ok sd payload "humidity" "humidity" (float_between 53 57)
        /\ field_ok sd payload "pressure" "pressure" (float_between 1012 1014)
        /\ field_ok sd payload "light" "light" (int_between 1150 1250))
  /\ (forall cfg use_retry o w2 sd' p r,
        _upload_single E cfg sd use_retry w = (o, w2) ->
        In (EvPost sd' p r) (trace w2) ->
        In (EvPost sd' p r) (trace w)
        \/ (sd' = sd /\ exists w', build_payload E sd w = (Ret p, w'))).
Proof.
  split; [| split].
  - intros Hwf. destruct (build_payload_ok E sd w Hwf) as (p & w' & H & _).
    eauto.
  - intros payload w'. unfold build_payload.
    unfold bind at 1, lift at 1, py_get at 1.
    destruct sd as [| | | | | |kvs]; try discriminate.
    set (sensors := match assoc "sensors" kvs with
                    | Some v => v
                    | None => PDict []
                    end).
    unfold bind at 1.
    destruct (sensor_value E sensors "temperature" fallback_temp w)
      as [[v1|e1] w1] eqn:E1; [|discriminate].
    unfold bind at 1.
    destruct (sensor_value E sensors "humidity" fallback_humidity w1)
      as [[v2|e2] w2] eqn:E2; [|discriminate].
    unfold bind at 1.
    destruct (sensor_value E sensors "pressure" fallback_pressure w2)
      as [[v3|e3] w3] eqn:E3; [|discriminate].
    unfold bind at 1.
    destruct (sensor_value E sensors "light" fallback_light w3)
      as [[v4|e4] w4] eqn:E4; [|discriminate].
    unfold ret. intros H. inversion H; subst payload w'. clear H.
    apply sensor_value_inv in E1, E2, E3, E4.
    destruct E1 as (s & Hs & H1). destruct E2 as (s2 & Hs2 & H2).
    destruct E3 as (s3 & Hs3 & H3). destruct E4 as (s4 & Hs4 & H4).
    rewrite Hs in Hs2, Hs3, Hs4.
    inversion Hs2; inversion Hs3; inversion Hs4; subst s2 s3 s4.
    assert (Hfl : forall a b x, float_between a b x -> x <> PNone).
    { intros a b x (y & -> & _). discriminate. }
    repeat split.
    + eapply (field_ok_intro _ _ kvs s _ _ fallback_temp); eauto.
      intros now. eapply float_between_weaken;
        [apply fallback_temp_range | |]; unfold Qle; simpl; lia.
    + eapply (field_ok_intro _ _ kvs s _ _ fallback_humidity); eauto.
      intros now. eapply float_between_weaken;
        [apply fallback_humidity_range | |]; unfold Qle; simpl; lia.
    + eapply (field_ok_intro _ _ kvs s _ _ fallback_pressure); eauto.
      intros now. eapply float_between_weaken;
        [apply fallback_pressure_range | |]; unfold Qle; simpl; lia.
    + eapply (field_ok_intro _ _ kvs s _ _ fallback_light); eauto.
      * apply fallback_light_range.
      * intros x (z & -> & _). discriminate.
  - intros cfg use_retry o w2 sd' p r. unfold _upload_single, bind.
    destruct (build_payload E sd w) as [[p0|e] w0] eqn:Hb.
    + pose proof (build_payload_trace E sd w) as Ht0. rewrite Hb in Ht0.
      simpl in Ht0.
      set (mx := if use_retry then retry_times cfg else 1).
      destruct (retry_loop_spec E cfg (Z.to_nat mx) sd p0 use_retry 1 mx w0)
        as (w3 & Hr & _ & _ & _ & Ht & _).
      rewrite Hr. intros H Hin. inversion H; subst o w2. clear H.
      rewrite Ht, Ht0 in Hin. apply in_app_or in Hin.
      destruct Hin as [Hin | Hin]; [left; exact Hin|].
      right. apply retry_events_posts in Hin. destruct Hin as [-> ->].
      split; [reflexivity|]. eauto.
    + intros H Hin. inversion H; subst o w2. clear H.
      left. pose proof (build_payload_trace E sd w) as Ht0.
      rewrite Hb in Ht0. simpl in Ht0. rewrite Ht0 in Hin. exact Hin.
Qed.

Lemma missing_sensor_fallback_witness :
  exists payload w',
    build_payload (Sample.env_of (Sample.script [] Timeout)) Sample.rs_partial
      (Sample.world_of [] None) = (Ret payload, w')
    /\ usv_field payload "temp" = Some (PFloat (225 # 10))
    /\ field_ok Sample.rs_partial payload "humidity" "humidity"
         (float_between 53 57)
    /\ field_ok Sample.rs_partial payload "light" "light"
         (int_between 1150 1250).
Proof.
  destruct (missing_sensor_fallback (Sample.env_of (Sample.script [] Timeout))
              Sample.rs_partial (Sample.world_of [] None))
    as (Htotal & Hfields & _).
  destruct (Htotal eq_refl) as (payload & w' & Hb).
  destruct (Hfields payload w' Hb) as (Ht & Hh & _ & Hl).
  exists payload, w'. split; [exact Hb|].
  split; [| split; assumption].
  destruct Ht as (v & Hv & _ & Hr). simpl in Hr. subst v. exact Hv.
Defined.

(** C9 (soft-failing load). [_load_cache] returns normally from every
    world: it never raises. When the file is missing the queue is empty
    and nothing is logged; when the file exists but cannot be read or is
    not valid JSON, a warning is logged and the queue is empty. *)
Theorem load_cache_fails_soft (E : env) (json_loads : string -> option pyval)
    (w : world) :
  exists w',
    _load_cache E json_loads w = (Ret tt, w')
    /\ (file w = None -> cache w' = PList [] /\ logs w' = logs w)
    /\ (forall text,
          file w = Some text ->
          disk_read E (ios w) = false \/ json_loads text = None ->
          cache w' = PList []
          /\ logs w' = logs w ++ [(WARNING, "loading the cache file failed")]).
Proof.
  munfold. unfold py_len_exn.
  destruct (file w) as [text|] eqn:Hf; simpl.
  - destruct (disk_read E (ios w)) eqn:Hrd; simpl.
    + destruct (json_loads text) as [v|] eqn:Hj; simpl.
      * destruct (truthy v); simpl; [destruct (py_len v); simpl|];
          eexists; (split; [reflexivity|]);
          (split; [discriminate|]);
          intros text' Ht [H | H]; inversion Ht; subst; congruence.
      * eexists; split; [reflexivity|]. split; [discriminate|].
        intros; split; reflexivity.
    + eexists; split; [reflexivity|]. split; [discriminate|].
      intros; split; reflexivity.
  - eexists; split; [reflexivity|]. split; [intros; split; reflexivity|].
    intros; discriminate.
Qed.

Lemma load_cache_fails_soft_witness :
  (exists w',
     _load_cache (Sample.env_of (Sample.script [] Timeout)) Sample.json_loads
       (Sample.world_of [Sample.rs_A] (Some "[{not json")) = (Ret tt, w')
     /\ cache w' = PList []
     /\ logs w' = [(WARNING, "loading the cache file failed")])
  /\
  (exists w',
     _load_cache (Sample.env_unreadable (Sample.script [] Timeout)) Sample.json_loads
       (Sample.world_of [Sample.rs_A] (Some "[]")) = (Ret tt, w')
     /\ cache w' = PList []
     /\ logs w' = [(WARNING, "loading the cache file failed")]).
Proof.
  split.
  - destruct (load_cache_fails_soft (Sample.env_of (Sample.script [] Timeout))
                Sample.json_loads
                (Sample.world_of [Sample.rs_A] (Some "[{not json")))
      as (w' & Hl & _ & Hbad).
    exists w'. split; [exact Hl|].
    apply (Hbad "[{not json"); [reflexivity|]. right. vm_compute. reflexivity.
  - destruct (load_cache_fails_soft
                (Sample.env_unreadable (Sample.script [] Timeout))
                Sample.json_loads
                (Sample.world_of [Sample.rs_A] (Some "[]")))
      as (w' & Hl & _ & Hbad).
    exists w'. split; [exact Hl|].
    apply (Hbad "[]"); [reflexivity|]. left. reflexivity.
Defined.

(** C10 (the result of [upload] is that of the fresh delivery).
    - Whenever [upload] returns a boolean, it is the boolean the fresh
      [_upload_single] returned.
    - When the fresh delivery failed, or succeeded with an empty queue,
      nothing is sent after it: the drain does not run.
    - On a well-formed reading set and a queue of well-formed entries,
      [upload] always returns, with the fresh delivery's boolean, whatever
      the collector answers to the requests of the drain. *)
Theorem upload_result_is_fresh_result (E : env) (cfg : config)
    (json_dumps : pyval -> string) (sd : pyval) (w : world) :
  (forall b w',
     upload E cfg json_dumps sd w = (Ret b, w') ->
     fst (_upload_single E cfg sd true w) = Ret b)
  /\ (forall w1,
        _upload_single E cfg sd true w = (Ret false, w1) ->
        trace (snd (upload E cfg json_dumps sd w)) = trace w1
        /\ posts (snd (upload E cfg json_dumps sd w)) = posts w1)
  /\ (forall w1,
        _upload_single E cfg sd true w = (Ret true, w1) ->
        truthy (cache w1) = false ->
        upload E cfg json_dumps sd w = (Ret true, w1))
  /\ (forall q,
        well_formed sd = true ->
        cache w = PList q ->
        Forall (fun x => well_formed x = true) q ->
        exists b w1 w',
          _upload_single E cfg sd true w = (Ret b, w1)
          /\ upload E cfg json_dumps sd w = (Ret b, w')).
Proof.
  split; [| split; [| split]].
  - intros b w'. unfold upload, bind at 1.
    destruct (_upload_single E cfg sd true w) as [[b0|e] w1]; simpl;
      [|discriminate].
    unfold bind at 1.
    destruct (when (negb b0 && enable_cache cfg)
                (_add_to_cache E cfg json_dumps sd) w1) as [[[]|e] w2];
      [|discriminate].
    unfold bind at 1, gets at 1. unfold bind, ret.
    destruct (when (b0 && truthy (cache w2))
                (_upload_cached_data E cfg json_dumps) w2) as [[[]|e] w3];
      congruence.
  - intros w1 Hu.
    assert (Hup : snd (upload E cfg json_dumps sd w)
                  = snd (when (enable_cache cfg)
                           (_add_to_cache E cfg json_dumps sd) w1)).
    { unfold upload, bind. rewrite Hu. simpl negb. simpl andb.
      destruct (when (enable_cache cfg) (_add_to_cache E cfg json_dumps sd) w1)
        as [[[]|e] w2]; reflexivity. }
    rewrite Hup. unfold when.
    destruct (enable_cache cfg);
      [exact (add_to_cache_sends_nothing E cfg json_dumps sd w1)
      | split; reflexivity].
  - intros w1 Hu Hc. unfold upload, bind at 1. rewrite Hu. simpl.
    unfold bind, when, ret, gets. simpl. rewrite Hc. reflexivity.
  - intros q Hsd Hq Hwf.
    destruct (upload_spec E cfg json_dumps sd w q Hsd Hq Hwf)
      as (p & w1 & w' & Hu & _ & _ & _ & _ & _ & Hup & _).
    cbv zeta in *. eauto.
Qed.

Lemma upload_result_is_fresh_result_witness :
  exists b w1 w',
    _upload_single (Sample.env_of (Sample.script [Sample.accepted] Timeout))
      Sample.cfg Sample.rs_D true
      (Sample.world_of [Sample.rs_A; Sample.rs_B] None) = (Ret b, w1)
    /\ upload (Sample.env_of (Sample.script [Sample.accepted] Timeout))
         Sample.cfg Sample.json_dumps Sample.rs_D
         (Sample.world_of [Sample.rs_A; Sample.rs_B] None) = (Ret b, w').
Proof.
  apply (proj2 (proj2 (proj2 (upload_result_is_fresh_result
           (Sample.env_of (Sample.script [Sample.accepted] Timeout))
           Sample.cfg Sample.json_dumps Sample.rs_D
           (Sample.world_of [Sample.rs_A; Sample.rs_B] None))))
           [Sample.rs_A; Sample.rs_B]);
    [ reflexivity | reflexivity | repeat constructor ].
Defined.

(** * Further properties of the uploader *)

(** [upload] after a failed fresh delivery: the append, and nothing else. *)
Lemma upload_after_failure (E : env) (cfg : config)
    (json_dumps : pyval -> string) (sd : pyval) (w w1 : world) :
  _upload_single E cfg sd true w = (Ret false, w1) ->
  upload E cfg json_dumps sd w
  = (let (o, w') := when (enable_cache cfg)
                      (_add_to_cache E cfg json_dumps sd) w1 in
     (match o with Ret _ => Ret false | Raise e => Raise e end, w')).
Proof.
  intros Hu. unfold upload, bind. rewrite Hu. simpl negb. simpl andb.
  destruct (when (enable_cache cfg) (_add_to_cache E cfg json_dumps sd) w1)
    as [[[]|e] w2]; reflexivity.
Qed.

(** [upload] after a successful fresh delivery: the drain, when the queue
    is not empty, and nothing else. *)
Lemma upload_after_success (E : env) (cfg : config)
    (json_dumps : pyval -> string) (sd : pyval) (w w1 : world) :
  _upload_single E cfg sd true w = (Ret true, w1) ->
  upload E cfg json_dumps sd w
  = (let (o, w') := when (truthy (cache w1))
                      (_upload_cached_data E cfg json_dumps) w1 in
     (match o with Ret _ => Ret true | Raise e => Raise e end, w')).
Proof.
  intros Hu. unfold upload, bind. rewrite Hu. simpl negb. simpl andb.
  unfold when at 1, ret at 1, gets at 1.
  destruct (when (truthy (cache w1)) (_upload_cached_data E cfg json_dumps) w1)
    as [[[]|e] w2]; reflexivity.
Qed.

(** X1 (caching disabled). With [ENABLE_CACHE] off, [__init__] leaves the
    queue empty without reading the cache file, and [upload] of a
    well-formed reading set returns without touching the queue or the
    disk: a reading set whose delivery fails is dropped. *)
Theorem caching_disabled_keeps_nothing (E : env) (cfg : config)
    (json_dumps : pyval -> string) (json_loads : string -> option pyval) :
  enable_cache cfg = false ->
  (forall w,
     exists w',
       __init__ E cfg json_loads w = (Ret tt, w')
       /\ cache w' = PList [] /\ file w' = file w /\ ios w' = ios w)
  /\ (forall sd w,
        well_formed sd = true ->
        cache w = PList [] ->
        exists b w',
          upload E cfg json_dumps sd w = (Ret b, w')
          /\ cache w' = PList [] /\ file w' = file w /\ ios w' = ios w).
Proof.
  intros Hen. split.
  - intros w. unfold __init__. rewrite Hen. munfold. simpl.
    eexists. repeat split; reflexivity.
  - intros sd w Hsd Hq.
    destruct (upload_spec E cfg json_dumps sd w [] Hsd Hq (Forall_nil _))
      as (p & w1 & w' & _ & Hc1 & Hf1 & Hi1 & _ & _ & Hup & Hcase).
    cbv zeta in *. rewrite Hen in Hcase.
    eexists; exists w'. split; [exact Hup|].
    destruct (snd (retry_events _ _ _ _ _ _ _ _)).
    + destruct Hcase as (t & D1 & _ & _ & _ & _ & _ & D7 & D8).
      simpl in D1, D7, D8. repeat split; congruence.
    + subst w'. repeat split; assumption.
Qed.

Lemma caching_disabled_keeps_nothing_witness :
  exists b w',
    upload (Sample.env_of (Sample.script [] Timeout)) (mkConfig 3 false false)
      Sample.json_dumps Sample.rs_A (Sample.world_of [] None) = (Ret b, w')
    /\ cache w' = PList [] /\ file w' = None /\ ios w' = O.
Proof.
  apply (proj2 (caching_disabled_keeps_nothing
                  (Sample.env_of (Sample.script [] Timeout))
                  (mkConfig 3 false false)
                  Sample.json_dumps Sample.json_loads eq_refl)
           Sample.rs_A (Sample.world_of [] None));
    reflexivity.
Defined.

(** X2 (no retry budget). With [HTTP_RETRY_TIMES] zero or negative the
    loop of [_upload_single] has no pass: [upload] sends nothing, returns
    [False], and with caching enabled queues the reading set unsent. *)
Theorem no_budget_no_request (E : env) (cfg : config)
    (json_dumps : pyval -> string) (sd : pyval) (w : world) (q : list pyval) :
  retry_times cfg <= 0 ->
  enable_cache cfg = true ->
  well_formed sd = true ->
  cache w = PList q ->
  exists w',
    upload E cfg json_dumps sd w = (Ret false, w')
    /\ trace w' = trace w
    /\ posts w' = posts w
    /\ cache w' = PList (q ++ [sd]).
Proof.
  intros HN Hen Hsd Hq.
  destruct (upload_single_spec E cfg sd true w Hsd)
    as (p & w1 & Hu & Hc & _ & _ & Ht & Hp).
  cbv zeta in *.
  replace (Z.to_nat (retry_times cfg)) with O in * by lia.
  simpl in Hu, Ht, Hp. rewrite app_nil_r in Ht.
  unfold count_posts in Hp. simpl in Hp. rewrite Nat.add_0_r in Hp.
  rewrite (upload_after_failure E cfg json_dumps sd w w1 Hu).
  rewrite Hen. simpl when.
  rewrite Hq in Hc.
  destruct (add_to_cache_spec E cfg json_dumps w1 q sd Hen Hc)
    as (w' & Ha & A1 & A2 & A3 & _).
  rewrite Ha. exists w'. repeat split; congruence.
Qed.

Lemma no_budget_no_request_witness :
  exists w',
    upload (Sample.env_of (Sample.script [] Sample.accepted)) (mkConfig 0 true false)
      Sample.json_dumps Sample.rs_A (Sample.world_of [] None) = (Ret false, w')
    /\ trace w' = []
    /\ posts w' = O
    /\ cache w' = PList [Sample.rs_A].
Proof.
  apply (no_budget_no_request
           (Sample.env_of (Sample.script [] Sample.accepted))
           (mkConfig 0 true false) Sample.json_dumps Sample.rs_A
           (Sample.world_of [] None) []);
    [ vm_compute; discriminate | reflexivity | reflexivity | reflexivity ].
Defined.

Lemma total_sleep_app (t1 t2 : list event) :
  total_sleep (t1 ++ t2) = total_sleep t1 + total_sleep t2.
Proof.
  unfold total_sleep.
  induction t1 as [|[sd p r|s] t1 IH]; simpl; auto. rewrite IH. lia.
Qed.

(** The sleeps of the loop from attempt [a] on add up to at most
    [2^a + ... + 2^(mx-1)], and to exactly that when every attempt fails
    retryably. *)
Lemma retry_events_sleep (nt : nat -> response) (sd p : pyval) (mx : Z) :
  forall fuel a i,
    0 <= a ->
    a + Z.of_nat (S fuel) = mx + 1 ->
    0 <= total_sleep (fst (retry_events nt (S fuel) sd p true a mx i))
      <= 2 ^ mx - 2 ^ a
    /\ ((forall j, (j < S fuel)%nat -> verdict_of (nt (i + j)%nat) = Retry) ->
        total_sleep (fst (retry_events nt (S fuel) sd p true a mx i))
        = 2 ^ mx - 2 ^ a).
Proof.
  induction fuel as [|fuel IH]; intros a i Ha Hm.
  - assert (a = mx) by lia. subst a. simpl retry_events.
    rewrite Z.ltb_irrefl. simpl.
    destruct (result_of (verdict_of (nt i))); unfold total_sleep; simpl;
      split; intros; lia.
  - assert (Hlt : (a <? mx) = true) by (apply Z.ltb_lt; lia).
    assert (Hpow : 2 ^ (a + 1) = 2 * 2 ^ a)
      by (rewrite Z.pow_add_r by lia; lia).
    assert (Hmono : 2 ^ (a + 1) <= 2 ^ mx)
      by (apply Z.pow_le_mono_r; lia).
    destruct (IH (a + 1) (S i)) as [[Hlo Hhi] Hex]; [lia | lia |].
    remember (S fuel) as f eqn:Hf.
    change (retry_events nt (S f) sd p true a mx i)
      with (match result_of (verdict_of (nt i)) with
            | Some b => ([EvPost sd p (nt i)], b)
            | None =>
                (EvPost sd p (nt i)
                   :: (if (true && (a <? mx))%bool then [EvSleep (2 ^ a)] else [])
                   ++ fst (retry_events nt f sd p true (a + 1) mx (S i)),
                 snd (retry_events nt f sd p true (a + 1) mx (S i)))
            end).
    rewrite Hlt. simpl andb. cbv iota.
    destruct (verdict_of (nt i)) eqn:V; simpl result_of; cbv iota.
    + unfold total_sleep. simpl. split; [lia|].
      intros Hall. specialize (Hall O ltac:(lia)).
      rewrite Nat.add_0_r in Hall. congruence.
    + unfold total_sleep. simpl. split; [lia|].
      intros Hall. specialize (Hall O ltac:(lia)).
      rewrite Nat.add_0_r in Hall. congruence.
    + cbn [fst].
      change (EvPost sd p (nt i) :: [EvSleep (2 ^ a)]
                ++ fst (retry_events nt f sd p true (a + 1) mx (S i)))
        with ([EvPost sd p (nt i); EvSleep (2 ^ a)]
                ++ fst (retry_events nt f sd p true (a + 1) mx (S i))).
      rewrite total_sleep_app.
      change (total_sleep [EvPost sd p (nt i); EvSleep (2 ^ a)])
        with (2 ^ a + 0).
      split; [lia|].
      intros Hall. rewrite Hex; [lia|].
      intros j Hj. replace (S i + j)%nat with (i + S j)%nat by lia.
      apply Hall. lia.
Qed.

(** X3 (bounded stall). With [N = HTTP_RETRY_TIMES >= 1], a delivery with
    retry of a well-formed reading set sends at most [N] requests and
    sleeps at most [2^N - 2] seconds in all; it sleeps exactly that long
    when all [N] attempts fail retryably. *)
Theorem delivery_stall_is_bounded (E : env) (cfg : config) (sd : pyval)
    (w : world) :
  well_formed sd = true ->
  1 <= retry_times cfg ->
  exists b w' t,
    _upload_single E cfg sd true w = (Ret b, w')
    /\ trace w' = trace w ++ t
    /\ Z.of_nat (count_posts t) <= retry_times cfg
    /\ 0 <= total_sleep t <= 2 ^ retry_times cfg - 2
    /\ ((forall j, Z.of_nat j < retry_times cfg ->
                   verdict_of (net E (posts w + j)) = Retry) ->
        total_sleep t = 2 ^ retry_times cfg - 2).
Proof.
  intros Hsd HN.
  destruct (upload_single_spec E cfg sd true w Hsd)
    as (p & w' & Hu & _ & _ & _ & Ht & _).
  cbv zeta in *.
  set (N := retry_times cfg) in *.
  destruct (Z.to_nat N) as [|fuel] eqn:HF; [lia|].
  set (re := retry_events (net E) (S fuel) sd p true 1 N (posts w)) in *.
  exists (snd re), w', (fst re).
  destruct (retry_events_sleep (net E) sd p N fuel 1 (posts w))
    as [Hb Hex]; [lia | lia |]. fold re in Hb, Hex.
  change (2 ^ 1) with 2 in *.
  repeat split; auto; try lia.
  - destruct (retry_events_cases (net E) sd p true N (S fuel) 1 (posts w))
      as [(_ & _ & Hc) | (n & Hn & _ & _ & _ & Hc)]; fold re in Hc; lia.
  - intros Hall. apply Hex. intros j Hj. apply Hall. lia.
Qed.

Lemma delivery_stall_is_bounded_witness :
  exists b w' t,
    _upload_single (Sample.env_of (Sample.script [] Timeout))
      Sample.cfg Sample.rs_A true (Sample.world_of [] None) = (Ret b, w')
    /\ trace w' = t
    /\ Z.of_nat (count_posts t) <= 3
    /\ total_sleep t = 6.
Proof.
  destruct (delivery_stall_is_bounded (Sample.env_of (Sample.script [] Timeout))
              Sample.cfg Sample.rs_A (Sample.world_of [] None) eq_refl)
    as (b & w' & t & Hu & Ht & Hc & _ & Hex).
  - vm_compute; discriminate.
  - exists b, w', t. repeat split; auto.
    apply Hex. intros j Hj. destruct j as [|[|[|j]]]; reflexivity.
Defined.

(** X4 (which answers end a delivery). For a delivery with retry of a
    well-formed reading set, with at least one attempt allowed:
    - a 200 answer whose body is a JSON object with a true [ok] ends it
      with [True] after that one request;
    - a 200 answer whose body is a JSON object with [ok] missing or false
      in Python's sense ([False], [0], [None], empty) ends it with [False]
      after that one request;
    - every other answer is retried: when each answer has a status other
      than 200 (whatever its body says) or a body that is not a JSON
      object, all [HTTP_RETRY_TIMES] requests are sent and the result is
      [False]. *)
Theorem only_200_with_ok_succeeds (E : env) (cfg : config) (sd : pyval)
    (w : world) :
  well_formed sd = true ->
  1 <= retry_times cfg ->
  (forall kvs,
     net E (posts w) = Http 200 (Some (PDict kvs)) ->
     exists p w',
       _upload_single E cfg sd true w
       = (Ret (truthy (match assoc "ok" kvs with Some v => v | None => PNone end)),
          w')
       /\ trace w' = trace w ++ [EvPost sd p (net E (posts w))])
  /\ ((forall j, Z.of_nat j < retry_times cfg ->
         match net E (posts w + j) with
         | Http status body =>
             status <> 200 \/ (forall kvs, body <> Some (PDict kvs))
         | _ => True
         end) ->
      exists w' t,
        _upload_single E cfg sd true w = (Ret false, w')
        /\ trace w' = trace w ++ t
        /\ Z.of_nat (count_posts t) = retry_times cfg).
Proof.
  intros Hsd HN.
  destruct (upload_single_spec E cfg sd true w Hsd)
    as (p & w' & Hu & _ & _ & _ & Ht & _).
  cbv zeta in *.
  set (N := retry_times cfg) in *.
  split.
  - intros kvs Hnet. exists p, w'.
    destruct (Z.to_nat N) as [|fuel] eqn:HF; [lia|].
    simpl in Hu, Ht. rewrite Hnet in Hu, Ht. simpl in Hu, Ht.
    rewrite Hnet.
    destruct (truthy match assoc "ok" kvs with
                     | Some v => v
                     | None => PNone
                     end); simpl in Hu, Ht; split; assumption.
  - intros Hall. exists w'.
    set (re := retry_events (net E) (Z.to_nat N) sd p true 1 N (posts w)) in *.
    exists (fst re).
    destruct (retry_events_cases (net E) sd p true N (Z.to_nat N) 1 (posts w))
      as [(_ & Hb & Hc) | (n & Hn & _ & Hv & _)].
    + fold re in Hb, Hc. rewrite Hb in Hu. rewrite Hc.
      repeat split; auto. lia.
    + exfalso. apply Hv. specialize (Hall n ltac:(lia)).
      destruct (net E (posts w + n)) as [| | |st [[| | | | | |kvs]|]];
        try reflexivity.
      simpl. destruct Hall as [Hst | Hbody].
      * replace (st =? 200) with false
          by (symmetry; apply Z.eqb_neq; exact Hst).
        reflexivity.
      * exfalso. exact (Hbody kvs eq_refl).
Qed.

Lemma only_200_with_ok_succeeds_witness :
  exists w' t,
    _upload_single
      (Sample.env_of
         (Sample.script []
            (Http 201 (Some (PDict [("ok", PBool true)])))))
      Sample.cfg Sample.rs_A true (Sample.world_of [] None) = (Ret false, w')
    /\ trace w' = t
    /\ Z.of_nat (count_posts t) = 3.
Proof.
  apply (proj2 (only_200_with_ok_succeeds
                  (Sample.env_of
                     (Sample.script []
                        (Http 201 (Some (PDict [("ok", PBool true)])))))
                  Sample.cfg Sample.rs_A (Sample.world_of [] None) eq_refl
                  ltac:(vm_compute; discriminate))).
  intros j Hj. unfold Sample.env_of, Sample.script. simpl.
  destruct j; simpl; left; discriminate.
Defined.

Lemma count_posts_attempts (t : list event) :
  count_posts t = List.length (attempts t).
Proof.
  unfold count_posts.
  induction t as [|[sd p r|s] t IH]; simpl; auto.
Qed.

Lemma only_posts_no_sleeps (t : list event) :
  forallb is_post t = true -> sleeps t = [].
Proof.
  induction t as [|[sd p r|s] t IH]; simpl; auto. discriminate.
Qed.

(** X5 (the drain, for any queue). On a queue of well-formed entries the
    drain sends one request per entry, oldest first and without sleeping,
    up to and including the first entry the collector does not accept;
    the [k] entries accepted leave the head of the queue. The cache file
    is rewritten exactly when [k > 0]. When the oldest entry is not
    accepted nothing changes: the entries behind it are not tried. *)
Theorem drain_removes_accepted_prefix (E : env) (cfg : config)
    (json_dumps : pyval -> string) (w : world) (q : list pyval) :
  cache w = PList q ->
  Forall (fun x => well_formed x = true) q ->
  let k := drained (net E) q (posts w) in
  exists w' t,
    _upload_cached_data E cfg json_dumps w = (Ret tt, w')
    /\ trace w' = trace w ++ t
    /\ sleeps t = []
    /\ count_posts t = Nat.min (S k) (List.length q)
    /\ acked t = firstn k q
    /\ cache w' = PList (skipn k q)
    /\ (k = O -> file w' = file w /\ ios w' = ios w)
    /\ ((0 < k)%nat ->
        ios w' = S (ios w)
        /\ (disk_write E (ios w) = WriteOk ->
            file w' = Some (json_dumps (PList (skipn k q)))))
    /\ (forall x rest,
          q = x :: rest ->
          verdict_of (net E (posts w)) <> Accepted ->
          cache w' = PList q /\ file w' = file w
          /\ attempts t = [(x, net E (posts w))]).
Proof.
  intros Hq Hwf k.
  destruct (upload_cached_data_spec E cfg json_dumps w q Hq Hwf)
    as (w' & t & Hd & D1 & D2 & D3 & D4 & D5 & D6 & D7 & D8).
  cbv zeta in *. fold k in D1, D3, D5, D6, D7, D8.
  exists w', t.
  split; [exact Hd|]. split; [exact D2|].
  split; [apply only_posts_no_sleeps; exact D4|].
  split.
  { rewrite count_posts_attempts, D5, length_combine, length_firstn,
      length_map, length_seq. lia. }
  split; [exact D6|]. split; [exact D1|].
  split; [| split].
  - intros Hk. rewrite Hk in D7, D8. split; assumption.
  - intros Hk. destruct k as [|k']; [lia|]. split; [exact D7|].
    intros Hwr. rewrite D8, Hwr. reflexivity.
  - intros x rest -> Hv.
    assert (Hk : k = O).
    { unfold k. simpl. destruct (verdict_of (net E (posts w)));
        congruence. }
    rewrite Hk in *. simpl in D1, D5, D8.
    repeat split; assumption.
Qed.

Lemma drain_removes_accepted_prefix_witness :
  exists w' t,
    _upload_cached_data
      (Sample.env_of (Sample.script [Sample.rejected] Sample.accepted))
      Sample.cfg Sample.json_dumps
      (Sample.world_of [Sample.rs_A; Sample.rs_B] None) = (Ret tt, w')
    /\ cache w' = PList [Sample.rs_A; Sample.rs_B]
    /\ file w' = None
    /\ attempts t = [(Sample.rs_A, Sample.rejected)].
Proof.
  assert (Hwf : Forall (fun x => well_formed x = true) [Sample.rs_A; Sample.rs_B])
    by (repeat constructor).
  destruct (drain_removes_accepted_prefix
              (Sample.env_of (Sample.script [Sample.rejected] Sample.accepted))
              Sample.cfg Sample.json_dumps
              (Sample.world_of [Sample.rs_A; Sample.rs_B] None)
              [Sample.rs_A; Sample.rs_B] eq_refl Hwf)
    as (w' & t & Hd & _ & _ & _ & _ & _ & _ & _ & Hhead).
  exists w', t. split; [exact Hd|].
  apply (Hhead Sample.rs_A [Sample.rs_B] eq_refl). discriminate.
Defined.

(** X6 (delivery order). On a well-formed reading set and a queue of
    well-formed entries, the reading sets the collector accepts during one
    [upload] are the fresh one first and then entries of the backlog,
    oldest first; a failed fresh delivery has nothing accepted, however
    old the backlog is. *)
Theorem fresh_first_then_backlog (E : env) (cfg : config)
    (json_dumps : pyval -> string) (sd : pyval) (w : world) (q : list pyval) :
  well_formed sd = true ->
  cache w = PList q ->
  Forall (fun x => well_formed x = true) q ->
  exists b w' t,
    upload E cfg json_dumps sd w = (Ret b, w')
    /\ trace w' = trace w ++ t
    /\ (b = true ->
        exists k, acked t = sd :: firstn k q /\ cache w' = PList (skipn k q))
    /\ (b = false -> acked t = []).
Proof.
  intros Hsd Hq Hwf.
  destruct (upload_spec E cfg json_dumps sd w q Hsd Hq Hwf)
    as (p & w1 & w' & Hu & Hc1 & Hf1 & Hi1 & Ht1 & Hp1 & Hup & Hcase).
  cbv zeta in *.
  pose proof (retry_events_acked (net E) (Z.to_nat (retry_times cfg)) sd p
                true 1 (retry_times cfg) (posts w)) as Hack.
  set (re := retry_events (net E) (Z.to_nat (retry_times cfg)) sd p true 1
               (retry_times cfg) (posts w)) in *.
  destruct (snd re) eqn:Hb.
  - destruct Hcase as (t & D1 & D2 & _ & _ & _ & D6 & _).
    exists true, w', (fst re ++ t).
    split; [exact Hup|]. split.
    { rewrite D2, Ht1, app_assoc. reflexivity. }
    split; [| discriminate].
    intros _. exists (drained (net E) q (posts w1)).
    rewrite acked_app, Hack, D6. split; [reflexivity | exact D1].
  - exists false, w', (fst re).
    split; [exact Hup|]. split.
    { destruct (enable_cache cfg).
      - destruct Hcase as (_ & A2 & _). rewrite A2. exact Ht1.
      - subst w'. exact Ht1. }
    split; [discriminate|]. intros _. exact Hack.
Qed.

Lemma fresh_first_then_backlog_witness :
  exists b w' t,
    upload (Sample.env_of (Sample.script [] Sample.accepted))
      Sample.cfg Sample.json_dumps Sample.rs_C
      (Sample.world_of [Sample.rs_A; Sample.rs_B] None) = (Ret b, w')
    /\ trace w' = t
    /\ b = true
    /\ acked t = [Sample.rs_C; Sample.rs_A; Sample.rs_B].
Proof.
  assert (Hwf : Forall (fun x => well_formed x = true) [Sample.rs_A; Sample.rs_B])
    by (repeat constructor).
  destruct (fresh_first_then_backlog
              (Sample.env_of (Sample.script [] Sample.accepted))
              Sample.cfg Sample.json_dumps Sample.rs_C
              (Sample.world_of [Sample.rs_A; Sample.rs_B] None)
              [Sample.rs_A; Sample.rs_B] eq_refl eq_refl Hwf)
    as (b & w' & t & Hu & Ht & _).
  exists b, w', t. split; [exact Hu|]. split; [exact Ht|].
  vm_compute in Hu. inversion Hu; subst b w'.
  simpl in Ht. subst t. split; reflexivity.
Defined.

Lemma nothing_accepted_fails (nt : nat -> response) (sd p : pyval) (ur : bool)
    (mx : Z) (fuel : nat) (a : Z) (i : nat) :
  (forall j, verdict_of (nt j) <> Accepted) ->
  snd (retry_events nt fuel sd p ur a mx i) = false.
Proof.
  intros Hno.
  destruct (retry_events_cases nt sd p ur mx fuel a i)
    as [(_ & Hb & _) | (n & _ & _ & Hv & Hr & _)]; [exact Hb|].
  specialize (Hno (i + n)%nat).
  destruct (verdict_of (nt (i + n)%nat)); simpl in Hr; congruence.
Qed.

Lemma upload_during_outage (E : env) (cfg : config)
    (json_dumps : pyval -> string) (sd : pyval) (w : world) (q : list pyval) :
  enable_cache cfg = true ->
  well_formed sd = true ->
  cache w = PList q ->
  (forall j, verdict_of (net E j) <> Accepted) ->
  exists w' t,
    upload E cfg json_dumps sd w = (Ret false, w')
    /\ cache w' = PList (q ++ [sd])
    /\ trace w' = trace w ++ t
    /\ acked t = []
    /\ file w' = file_after_write E json_dumps (ios w) (file w)
                   (PList (q ++ [sd])).
Proof.
  intros Hen Hsd Hq Hno.
  destruct (upload_single_spec E cfg sd true w Hsd)
    as (p & w1 & Hu & Hc & Hf & Hi & Ht & _).
  cbv zeta in *.
  pose proof (retry_events_acked (net E) (Z.to_nat (retry_times cfg)) sd p
                true 1 (retry_times cfg) (posts w)) as Hack.
  rewrite (nothing_accepted_fails (net E) sd p true (retry_times cfg)
             (Z.to_nat (retry_times cfg)) 1 (posts w) Hno) in Hu, Hack.
  rewrite (upload_after_failure E cfg json_dumps sd w w1 Hu), Hen.
  simpl when. rewrite Hq in Hc.
  destruct (add_to_cache_spec E cfg json_dumps w1 q sd Hen Hc)
    as (w' & Ha & A1 & A2 & _ & _ & A5 & _).
  rewrite Ha. eexists w', _. split; [reflexivity|].
  split; [exact A1|]. split; [rewrite A2; exact Ht|].
  split; [exact Hack|].
  unfold file_after_write. rewrite A5, Hi, Hf. reflexivity.
Qed.

(** X7 (outage). While the collector accepts nothing, with caching
    enabled every [upload] of a run over well-formed reading sets returns
    [False] and the queue grows by every reading set, in order: nothing
    is dropped, capped or expired. With a working disk the cache file
    holds the whole queue after the run. *)
Theorem outage_accumulates (E : env) (cfg : config)
    (json_dumps : pyval -> string) (inputs : list pyval) :
  enable_cache cfg = true ->
  Forall (fun x => well_formed x = true) inputs ->
  (forall j, verdict_of (net E j) <> Accepted) ->
  forall (w : world) (q : list pyval),
    cache w = PList q ->
    exists w' t,
      upload_all E cfg json_dumps inputs w
      = (Ret (map (fun _ => false) inputs), w')
      /\ trace w' = trace w ++ t
      /\ acked t = []
      /\ cache w' = PList (q ++ inputs)
      /\ (inputs <> [] ->
          (forall i, disk_write E i = WriteOk) ->
          file w' = Some (json_dumps (PList (q ++ inputs)))).
Proof.
  intros Hen Hin Hno.
  induction inputs as [|x inputs IH]; intros w q Hq.
  - exists w, []. simpl. unfold ret. rewrite !app_nil_r.
    repeat split; auto. intros H; contradiction.
  - inversion Hin as [|? ? Hx Hrest]; subst.
    destruct (upload_during_outage E cfg json_dumps x w q Hen Hx Hq Hno)
      as (w1 & t1 & Hu & Hc1 & Ht1 & Ha1 & Hf1).
    destruct (IH Hrest w1 (q ++ [x]) Hc1)
      as (w' & t & Hall & Ht & Ha & Hc & Hf).
    exists w', (t1 ++ t).
    simpl upload_all. unfold bind at 1. rewrite Hu.
    unfold bind at 1. rewrite Hall. unfold ret. simpl map.
    rewrite <- app_assoc in Hc, Hf. simpl app in Hc, Hf.
    repeat split; auto.
    + rewrite Ht, Ht1, app_assoc. reflexivity.
    + rewrite acked_app, Ha1, Ha. reflexivity.
    + intros _ Hwr. destruct inputs as [|y inputs'].
      * simpl in Hall. unfold ret in Hall. inversion Hall; subst w'.
        rewrite Hf1. unfold file_after_write. rewrite Hwr. reflexivity.
      * apply Hf; [discriminate | exact Hwr].
Qed.

Lemma outage_accumulates_witness :
  exists w' t,
    upload_all (Sample.env_of (Sample.script [Sample.rejected] Timeout))
      Sample.cfg Sample.json_dumps [Sample.rs_B; Sample.rs_C]
      (Sample.world_of [Sample.rs_A] None)
    = (Ret [false; false], w')
    /\ trace w' = t
    /\ acked t = []
    /\ cache w' = PList [Sample.rs_A; Sample.rs_B; Sample.rs_C].
Proof.
  assert (Hin : Forall (fun x => well_formed x = true) [Sample.rs_B; Sample.rs_C])
    by (repeat constructor).
  destruct (outage_accumulates
              (Sample.env_of (Sample.script [Sample.rejected] Timeout))
              Sample.cfg Sample.json_dumps [Sample.rs_B; Sample.rs_C]
              eq_refl Hin)
    with (w := Sample.world_of [Sample.rs_A] None) (q := [Sample.rs_A])
    as (w' & t & Hu & Ht & Ha & Hc & _).
  - intros j. unfold Sample.env_of, Sample.script. simpl.
    destruct j as [|[|j]]; simpl; discriminate.
  - reflexivity.
  - exists w', t. repeat split; assumption.
Defined.

Lemma drained_all (nt : nat -> response) (q : list pyval) :
  (forall j, verdict_of (nt j) = Accepted) ->
  forall i, drained nt q i = List.length q.
Proof.
  intros Hall. induction q as [|x q IH]; intros i; simpl; [reflexivity|].
  rewrite Hall, IH. reflexivity.
Qed.

(** X8 (recovery). When the collector accepts every request and at least
    one attempt is allowed, a single [upload] of a well-formed reading set
    delivers it and then the whole backlog, oldest first, with one
    request each and no sleep, and leaves the queue empty; with a
    non-empty backlog and a working disk the cache file then holds the
    empty queue. *)
Theorem recovery_flushes_queue (E : env) (cfg : config)
    (json_dumps : pyval -> string) (sd : pyval) (w : world) (q : list pyval) :
  1 <= retry_times cfg ->
  well_formed sd = true ->
  cache w = PList q ->
  Forall (fun x => well_formed x = true) q ->
  (forall j, verdict_of (net E j) = Accepted) ->
  exists w' t,
    upload E cfg json_dumps sd w = (Ret true, w')
    /\ trace w' = trace w ++ t
    /\ acked t = sd :: q
    /\ count_posts t = S (List.length q)
    /\ sleeps t = []
    /\ cache w' = PList []
    /\ (q <> [] -> disk_write E (ios w) = WriteOk ->
        file w' = Some (json_dumps (PList []))).
Proof.
  intros HN Hsd Hq Hwf Hall.
  destruct (upload_spec E cfg json_dumps sd w q Hsd Hq Hwf)
    as (p & w1 & w' & Hu & Hc1 & Hf1 & Hi1 & Ht1 & Hp1 & Hup & Hcase).
  cbv zeta in *.
  destruct (Z.to_nat (retry_times cfg)) as [|fuel] eqn:HF; [lia|].
  simpl retry_events in *. rewrite (Hall (posts w)) in *.
  simpl in Hu, Ht1, Hp1, Hup, Hcase.
  destruct Hcase as (t & D1 & D2 & _ & D4 & D5 & D6 & D7 & D8).
  rewrite (drained_all (net E) q Hall) in D1, D5, D6, D7, D8.
  rewrite skipn_all in D1, D8. rewrite firstn_all in D6.
  exists w', (EvPost sd p (net E (posts w)) :: t).
  split; [exact Hup|].
  split; [rewrite D2, Ht1, <- app_assoc; reflexivity|].
  split; [simpl; rewrite (Hall (posts w)), D6; reflexivity|].
  split.
  { rewrite count_posts_attempts. simpl. f_equal.
    rewrite D5, length_combine, length_firstn, length_map, length_seq. lia. }
  split; [simpl; apply only_posts_no_sleeps; exact D4|].
  split; [exact D1|].
  intros Hne Hwr. destruct q as [|x q']; [contradiction|].
  simpl List.length in D8. rewrite D8. unfold file_after_write.
  rewrite Hi1, Hwr. reflexivity.
Qed.

Lemma recovery_flushes_queue_witness :
  exists w' t,
    upload (Sample.env_of (Sample.script [] Sample.accepted))
      Sample.cfg Sample.json_dumps Sample.rs_C
      (Sample.world_of [Sample.rs_A; Sample.rs_B] None) = (Ret true, w')
    /\ trace w' = t
    /\ acked t = [Sample.rs_C; Sample.rs_A; Sample.rs_B]
    /\ cache w' = PList []
    /\ file w' = Some "[]".
Proof.
  assert (Hwf : Forall (fun x => well_formed x = true) [Sample.rs_A; Sample.rs_B])
    by (repeat constructor).
  destruct (recovery_flushes_queue
              (Sample.env_of (Sample.script [] Sample.accepted))
              Sample.cfg Sample.json_dumps Sample.rs_C
              (Sample.world_of [Sample.rs_A; Sample.rs_B] None)
              [Sample.rs_A; Sample.rs_B])
    as (w' & t & Hu & Ht & Ha & _ & _ & Hc & Hf);
    [ vm_compute; discriminate | reflexivity | reflexivity | exact Hwf
    | intros j; destruct j; reflexivity |].
  exists w', t. repeat split; auto.
  apply Hf; [discriminate | reflexivity].
Defined.

Lemma cache_append_raises (x : pyval) (w : world) :
  not_a_list (cache w) = true ->
  cache_append x w = (Raise AttributeError, w).
Proof.
  unfold cache_append, bind, gets, raise.
  destruct (cache w); simpl; intros H; try discriminate; reflexivity.
Qed.

(** X9 (a cache file that is not a JSON array). [_load_cache] takes
    whatever JSON value the file decodes to as the queue, provided it is
    false in Python's sense or has a length. With caching enabled and a
    queue that is not a list, [upload] of a well-formed reading set raises
    [AttributeError] after every failed fresh delivery, the reading set
    not being stored; and when the queue is a non-empty dictionary or
    string it raises after every successful one as well. *)
Theorem non_list_cache_breaks_upload (E : env) (cfg : config)
    (json_dumps : pyval -> string) (json_loads : string -> option pyval)
    (sd : pyval) (w : world) :
  (forall text v,
     file w = Some text ->
     disk_read E (ios w) = true ->
     json_loads text = Some v ->
     (truthy v = true -> py_len v <> None) ->
     cache (snd (_load_cache E json_loads w)) = v)
  /\ (well_formed sd = true ->
      enable_cache cfg = true ->
      not_a_list (cache w) = true ->
      exists b w1,
        _upload_single E cfg sd true w = (Ret b, w1)
        /\ (b = false ->
            exists w',
              upload E cfg json_dumps sd w = (Raise AttributeError, w')
              /\ cache w' = cache w)
        /\ (b = true ->
            truthy (cache w) = true ->
            py_len (cache w) <> None ->
            exists w',
              upload E cfg json_dumps sd w = (Raise AttributeError, w')
              /\ cache w' = cache w)).
Proof.
  split.
  - intros text v Hf Hrd Hj Hlen. munfold. unfold py_len_exn.
    rewrite Hf. simpl. rewrite Hrd, Hj. simpl.
    destruct (truthy v) eqn:Ht; simpl; [|reflexivity].
    destruct (py_len v); [reflexivity|]. exfalso. apply Hlen; reflexivity.
  - intros Hsd Hen Hnl.
    destruct (upload_single_spec E cfg sd true w Hsd)
      as (p & w1 & Hu & Hc & _).
    cbv zeta in *. eexists; exists w1. split; [exact Hu|].
    destruct (snd (retry_events _ _ _ _ _ _ _ _)); split;
      try (intros; discriminate).
    + intros _ Htr Hlen.
      rewrite (upload_after_success E cfg json_dumps sd w w1 Hu).
      rewrite Hc, Htr. simpl when.
      unfold _upload_cached_data, bind at 1, gets at 1.
      rewrite Hc, Htr. simpl negb. cbv iota.
      unfold bind at 1, lift at 1, py_len_exn.
      destruct (cache w) as [| | | |s| |kvs] eqn:Hcw; simpl in Hnl, Htr, Hlen;
        try discriminate; try (exfalso; apply Hlen; reflexivity).
      * destruct s as [|c s']; [discriminate|].
        simpl. eexists. split; [reflexivity|]. simpl. exact Hc.
      * destruct kvs as [|[k v] kvs']; [discriminate|].
        simpl. eexists. split; [reflexivity|]. simpl. exact Hc.
    + intros _.
      rewrite (upload_after_failure E cfg json_dumps sd w w1 Hu), Hen.
      simpl when. unfold _add_to_cache. rewrite Hen.
      change (negb true) with false. cbv iota.
      unfold bind at 1. cbv beta.
      rewrite (cache_append_raises sd w1) by (rewrite Hc; exact Hnl).
      exists w1. split; [reflexivity | exact Hc].
Qed.

Lemma non_list_cache_breaks_upload_witness :
  cache (snd (_load_cache (Sample.env_of (Sample.script [] Timeout))
                Sample.json_loads
                (Sample.world_of [] (Some (Sample.json_dumps (PDict [("broken", PInt 1)]))))))
  = PDict [("broken", PInt 1)]
  /\ exists b w1,
       _upload_single (Sample.env_of (Sample.script [] Timeout)) Sample.cfg
         Sample.rs_A true
         (mkWorld (PDict [("broken", PInt 1)]) None None O O O [] [])
       = (Ret b, w1)
       /\ (b = false ->
           exists w',
             upload (Sample.env_of (Sample.script [] Timeout)) Sample.cfg
               Sample.json_dumps Sample.rs_A
               (mkWorld (PDict [("broken", PInt 1)]) None None O O O [] [])
             = (Raise AttributeError, w')
             /\ cache w' = PDict [("broken", PInt 1)]).
Proof.
  split.
  - apply (proj1 (non_list_cache_breaks_upload
                    (Sample.env_of (Sample.script [] Timeout)) Sample.cfg
                    Sample.json_dumps Sample.json_loads Sample.rs_A
                    (Sample.world_of [] (Some (Sample.json_dumps (PDict [("broken", PInt 1)])))))
             (Sample.json_dumps (PDict [("broken", PInt 1)])));
      [ reflexivity | reflexivity | vm_compute; reflexivity
      | intros _; discriminate ].
  - destruct (proj2 (non_list_cache_breaks_upload
                       (Sample.env_of (Sample.script [] Timeout)) Sample.cfg
                       Sample.json_dumps Sample.json_loads Sample.rs_A
                       (mkWorld (PDict [("broken", PInt 1)]) None None O O O [] []))
                eq_refl eq_refl eq_refl)
      as (b & w1 & Hu & Hfail & _).
    exists b, w1. split; [exact Hu | exact Hfail].
Defined.

Lemma init_returns (E : env) (cfg : config)
    (json_loads : string -> option pyval) (w : world) :
  exists w1,
    __init__ E cfg json_loads w = (Ret tt, w1)
    /\ file w1 = file w
    /\ (enable_cache cfg = false -> cache w1 = PList [])
    /\ (truthy (cache w1) = true -> py_len (cache w1) <> None).
Proof.
  unfold __init__. munfold. unfold py_len_exn. simpl.
  destruct (enable_cache cfg); simpl.
  - destruct (file w) as [text|] eqn:Hf; simpl.
    + destruct (disk_read E (ios w)); simpl.
      * destruct (json_loads text) as [v|]; simpl.
        -- destruct (truthy v) eqn:Ht; simpl.
           ++ destruct (py_len v) eqn:Hl; simpl;
                eexists; repeat split; simpl;
                try discriminate; congruence.
           ++ eexists; repeat split; simpl; try discriminate; congruence.
        -- eexists; repeat split; simpl; try discriminate; congruence.
      * eexists; repeat split; simpl; try discriminate; congruence.
    + eexists; repeat split; simpl; try discriminate; congruence.
  - eexists; repeat split; simpl; try discriminate; congruence.
Qed.

(** X10 (restart). [__init__] never raises and never writes the cache
    file; with a readable disk a second restart loads the same queue
    again; and a queue it leaves that is true in Python's sense has a
    length, so that [len(self.cache)] cannot fail later. *)
Theorem restart_is_stable (E : env) (cfg : config)
    (json_loads : string -> option pyval) (w : world) :
  (forall i, disk_read E i = true) ->
  exists w1 w2,
    __init__ E cfg json_loads w = (Ret tt, w1)
    /\ __init__ E cfg json_loads w1 = (Ret tt, w2)
    /\ file w1 = file w
    /\ cache w2 = cache w1
    /\ (truthy (cache w1) = true -> py_len (cache w1) <> None).
Proof.
  intros Hrd.
  destruct (init_returns E cfg json_loads w) as (w1 & H1 & Hf1 & Hd1 & Hl1).
  destruct (init_returns E cfg json_loads w1) as (w2 & H2 & Hf2 & Hd2 & Hl2).
  exists w1, w2. repeat split; auto.
  destruct (enable_cache cfg) eqn:Hen.
  - pose proof (init_persisted E cfg json_loads w Hen Hrd) as Hp.
    unfold persisted in Hp. rewrite H1 in Hp. simpl in Hp.
    rewrite H2 in Hp. exact Hp.
  - rewrite Hd1, Hd2; reflexivity.
Qed.

Lemma restart_is_stable_witness :
  exists w1 w2,
    __init__ (Sample.env_of (Sample.script [] Timeout)) Sample.cfg
      Sample.json_loads
      (Sample.world_of [] (Some (Sample.json_dumps (PList [Sample.rs_A]))))
    = (Ret tt, w1)
    /\ __init__ (Sample.env_of (Sample.script [] Timeout)) Sample.cfg
         Sample.json_loads w1 = (Ret tt, w2)
    /\ cache w2 = cache w1.
Proof.
  destruct (restart_is_stable (Sample.env_of (Sample.script [] Timeout))
              Sample.cfg Sample.json_loads
              (Sample.world_of [] (Some (Sample.json_dumps (PList [Sample.rs_A])))))
    as (w1 & w2 & H1 & H2 & _ & Hc & _).
  - intros i; reflexivity.
  - exists w1, w2. repeat split; assumption.
Defined.

(** X11 ([get_server_data]). Whatever [requests.get] does, the function
    returns without raising and leaves the spill queue, the cache file and
    the record of deliveries untouched. It returns the decoded body when
    the status is 200 and the body is JSON, and [None] in every other
    case. *)
Theorem get_server_data_never_raises (answer : response) (w : world) :
  exists w',
    get_server_data answer w
    = (Ret (match answer with
            | Http 200 (Some data) => data
            | _ => PNone
            end), w')
    /\ cache w' = cache w /\ file w' = file w /\ trace w' = trace w
    /\ posts w' = posts w /\ ios w' = ios w
    /\ data_logger w' = data_logger w.
Proof.
  unfold get_server_data. munfold.
  destruct answer as [| | |st [data|]]; simpl;
    try (eexists; repeat split; reflexivity).
  - destruct (st =? 200) eqn:Hst; simpl.
    + apply Z.eqb_eq in Hst. subst st.
      eexists; repeat split; reflexivity.
    + assert (Hne : st <> 200) by (apply Z.eqb_neq; exact Hst).
      assert (Hm : match st with 200 => data | _ => PNone end = PNone).
      { destruct st as [|q|q]; try reflexivity.
        do 8 (destruct q as [q|q|]; try reflexivity). congruence. }
      rewrite Hm. eexists; repeat split; reflexivity.
  - destruct (st =? 200) eqn:Hst; simpl.
    + assert (Hm : match st with 200 => PNone | _ => PNone end = PNone).
      { destruct st as [|q|q]; try reflexivity.
        do 8 (destruct q as [q|q|]; try reflexivity). }
      rewrite Hm. eexists; repeat split; reflexivity.
    + assert (Hm : match st with 200 => PNone | _ => PNone end = PNone).
      { destruct st as [|q|q]; try reflexivity.
        do 8 (destruct q as [q|q|]; try reflexivity). }
      rewrite Hm. eexists; repeat split; reflexivity.
Qed.

(** The upload-success mark a logger carries, when there is a logger. *)
Lemma attempt_body_logger (E : env) (cfg : config) (sd p : pyval)
    (use_retry : bool) (a mx : Z) (w : world) :
  exists w',
    attempt_body E cfg sd p use_retry a mx w
      = (Ret (result_of (verdict_of (net E (posts w)))), w')
    /\ (verdict_of (net E (posts w)) <> Accepted ->
        data_logger w' = data_logger w)
    /\ (verdict_of (net E (posts w)) = Accepted ->
        match data_logger w with
        | None => data_logger w' = None
        | Some _ =>
            exists i, data_logger w' = Some (Some (py_int (clock E i)))
        end).
Proof.
  munfold.
  destruct (data_logger w) as [last|] eqn:Hd;
  destruct (use_retry && (1 <? a))%bool; simpl;
  destruct (net E (posts w)) as [| | | st [[| | | | | |kvs]|]]; simpl;
  try destruct (st =? 200); simpl;
  repeat match goal with
         | |- context [truthy ?x] => destruct (truthy x); simpl
         | |- context [data_logger ?x] => progress (rewrite Hd); simpl
         | |- context [py_int ?x =? 0] => destruct (py_int x =? 0); simpl
         | |- context [verbose ?c] => destruct (verbose c); simpl
         end;
  (eexists; split; [reflexivity|]; split;
   [ intros Hv; simpl;
     first [ exact Hd | reflexivity | exfalso; apply Hv; reflexivity ]
   | intros Hv; simpl;
     first [ discriminate Hv | exact Hd | reflexivity
           | eexists; reflexivity ] ]).
Qed.

Lemma retry_loop_logger (E : env) (cfg : config) (sd p : pyval)
    (use_retry : bool) (mx : Z) :
  forall fuel a w,
  exists b w',
    retry_loop E cfg fuel sd p use_retry a mx w = (Ret b, w')
    /\ (b = false -> data_logger w' = data_logger w)
    /\ (b = true ->
        match data_logger w with
        | None => data_logger w' = None
        | Some _ =>
            exists i, data_logger w' = Some (Some (py_int (clock E i)))
        end).
Proof.
  induction fuel as [|fuel IH]; intros a w.
  - simpl. unfold when, bind, ret, log, modify.
    destruct use_retry; eexists; eexists;
      (split; [reflexivity|]); split; [reflexivity | discriminate |
                                       reflexivity | discriminate].
  - simpl retry_loop. unfold bind at 1.
    destruct (attempt_body_logger E cfg sd p use_retry a mx w)
      as (w1 & -> & Hno & Hyes).
    destruct (verdict_of (net E (posts w))) eqn:V; simpl result_of; cbv iota.
    + unfold ret. exists true, w1. split; [reflexivity|].
      split; [discriminate|]. intros _. apply Hyes. reflexivity.
    + unfold ret. exists false, w1. split; [reflexivity|].
      split; [intros _; apply Hno; discriminate | discriminate].
    + assert (Hw : exists w2,
                 when (use_retry && (a <? mx))
                   (log INFO "waiting before the retry" ;;;
                    time_sleep (2 ^ a)) w1 = (Ret tt, w2)
                 /\ data_logger w2 = data_logger w1).
      { destruct (use_retry && (a <? mx))%bool; munfold; simpl;
          eexists; split; reflexivity. }
      destruct Hw as (w2 & Hw & Hd2).
      destruct (IH (a + 1) w2) as (b & w3 & Hr & Hf & Ht).
      assert (Hd1 : data_logger w1 = data_logger w)
        by (apply Hno; discriminate).
      rewrite Hd2, Hd1 in Hf, Ht.
      exists b, w3. split; [| split; assumption].
      change (result_of Retry) with (@None bool). cbv beta iota.
      unfold bind at 1. rewrite Hw. exact Hr.
Qed.

(** X12 (marking the logger). A delivery of a well-formed reading set
    leaves the logger's [last_successful_upload] as it was when it
    returns [False]. When it returns [True] and a logger is attached,
    [last_successful_upload] is the integer part of a reading of the
    clock; without a logger nothing is marked. *)
Theorem logger_marked_only_on_success (E : env) (cfg : config) (sd : pyval)
    (use_retry : bool) (w : world) :
  well_formed sd = true ->
  exists b w',
    _upload_single E cfg sd use_retry w = (Ret b, w')
    /\ (b = false -> data_logger w' = data_logger w)
    /\ (b = true ->
        match data_logger w with
        | None => data_logger w' = None
        | Some _ =>
            exists i, data_logger w' = Some (Some (py_int (clock E i)))
        end).
Proof.
  intros Hsd. unfold _upload_single.
  destruct (build_payload_ok E sd w Hsd) as (p & w0 & Hb & Ho).
  unfold bind. rewrite Hb.
  set (mx := if use_retry then retry_times cfg else 1).
  destruct (retry_loop_logger E cfg sd p use_retry mx (Z.to_nat mx) 1 w0)
    as (b & w' & Hr & Hf & Ht).
  assert (Hd : data_logger w0 = data_logger w)
    by (rewrite Ho; destruct w; reflexivity).
  rewrite Hd in Hf, Ht. exists b, w'. repeat split; assumption.
Qed.

Lemma logger_marked_only_on_success_witness :
  exists w',
    (set_data_logger None ;;;
     _upload_single (Sample.env_of (Sample.script [] Sample.accepted))
       Sample.cfg Sample.rs_A true) (Sample.world_of [] None)
    = (Ret true, w')
    /\ data_logger w' = Some (Some 1700000012).
Proof.
  destruct (logger_marked_only_on_success
              (Sample.env_of (Sample.script [] Sample.accepted))
              Sample.cfg Sample.rs_A true
              (snd (set_data_logger None (Sample.world_of [] None))) eq_refl)
    as (b & w' & Hu & _ & _).
  exists w'. vm_compute in Hu. inversion Hu; subst b w'.
  split; reflexivity.
Defined.

(** * Properties of the sensor reader *)

Lemma assoc_dict_set (n k : string) (v : pyval) (kvs : list (string * pyval)) :
  assoc n (dict_set k v kvs) = if String.eqb n k then Some v else assoc n kvs.
Proof.
  induction kvs as [|[k' v'] kvs IH]; simpl.
  - destruct (String.eqb n k); reflexivity.
  - destruct (String.eqb_spec k k') as [-> | Hk]; simpl.
    + destruct (String.eqb n k'); reflexivity.
    + rewrite IH. destruct (String.eqb_spec n k') as [-> | Hn].
      * destruct (String.eqb_spec k' k) as [-> | _]; [contradiction|].
        reflexivity.
      * reflexivity.
Qed.

Section ReaderFacts.

Variable H : host.
Variable use_real_sensors : bool.
Variable R : string -> pyval -> Prop.
Hypothesis R_temperature :
  forall k, R "temperature" (fst (read_temperature H use_real_sensors k)).
Hypothesis R_humidity :
  forall k, R "humidity" (fst (read_humidity H use_real_sensors k)).
Hypothesis R_pressure :
  forall k, R "pressure" (fst (read_pressure H use_real_sensors k)).
Hypothesis R_light :
  forall k, R "light" (fst (read_light H use_real_sensors k)).

Lemma read_one_spec (t : string) (s : list (string * pyval)) (k : nat) :
  let s' := fst (read_one H use_real_sensors t s k) in
  (forall n, n <> t -> assoc n s' = assoc n s)
  /\ (mem_string t valid_sensors = true ->
      exists e, assoc t s' = Some e /\ entry_with R t e)
  /\ (mem_string t valid_sensors = false -> s' = s).
Proof.
  unfold read_one, mem_string, valid_sensors. simpl existsb.
  destruct (String.eqb_spec t "temperature") as [-> | H1].
  { pose proof (R_temperature k) as HR.
    destruct (read_temperature H use_real_sensors k) as [v k'].
    simpl. repeat split.
    - intros n Hn. rewrite assoc_dict_set.
      destruct (String.eqb_spec n "temperature"); [contradiction | reflexivity].
    - intros _. rewrite assoc_dict_set. simpl. eexists. split; [reflexivity|].
      eexists; eexists; split; [reflexivity | exact HR].
    - discriminate. }
  destruct (String.eqb_spec t "humidity") as [-> | H2].
  { pose proof (R_humidity k) as HR.
    destruct (read_humidity H use_real_sensors k) as [v k'].
    simpl. repeat split.
    - intros n Hn. rewrite assoc_dict_set.
      destruct (String.eqb_spec n "humidity"); [contradiction | reflexivity].
    - intros _. rewrite assoc_dict_set. simpl. eexists. split; [reflexivity|].
      eexists; eexists; split; [reflexivity | exact HR].
    - discriminate. }
  destruct (String.eqb_spec t "pressure") as [-> | H3].
  { pose proof (R_pressure k) as HR.
    destruct (read_pressure H use_real_sensors k) as [v k'].
    simpl. repeat split.
    - intros n Hn. rewrite assoc_dict_set.
      destruct (String.eqb_spec n "pressure"); [contradiction | reflexivity].
    - intros _. rewrite assoc_dict_set. simpl. eexists. split; [reflexivity|].
      eexists; eexists; split; [reflexivity | exact HR].
    - discriminate. }
  destruct (String.eqb_spec t "light") as [-> | H4].
  { pose proof (R_light k) as HR.
    destruct (read_light H use_real_sensors k) as [v k'].
    simpl. repeat split.
    - intros n Hn. rewrite assoc_dict_set.
      destruct (String.eqb_spec n "light"); [contradiction | reflexivity].
    - intros _. rewrite assoc_dict_set. simpl. eexists. split; [reflexivity|].
      eexists; eexists; split; [reflexivity | exact HR].
    - discriminate. }
  simpl. repeat split; auto. discriminate.
Qed.

Lemma mem_string_In (s : string) (l : list string) :
  mem_string s l = true <-> In s l.
Proof.
  unfold mem_string. rewrite existsb_exists. split.
  - intros (x & Hx & He). apply String.eqb_eq in He. subst. exact Hx.
  - intros Hs. exists s. split; [exact Hs | apply String.eqb_refl].
Qed.

(** The loop keeps every entry well shaped, and holds an entry for a name
    exactly when it held one before or the name is a known sensor type
    among those read. *)
Lemma read_sensors_spec : forall (types : list string)
    (s : list (string * pyval)) (k : nat),
  (forall n e, assoc n s = Some e -> entry_with R n e) ->
  let s' := fst (read_sensors H use_real_sensors types s k) in
  (forall n e, assoc n s' = Some e -> entry_with R n e)
  /\ (forall n, assoc n s' <> None <->
                assoc n s <> None \/ (In n types /\ In n valid_sensors)).
Proof.
  induction types as [|t types IH]; intros s k Hs; cbv zeta.
  - simpl. split; [exact Hs|]. intros n. tauto.
  - simpl read_sensors.
    pose proof (read_one_spec t s k) as Hspec. cbv zeta in Hspec.
    destruct (read_one H use_real_sensors t s k) as [s1 k1] eqn:E1.
    simpl fst in Hspec. destruct Hspec as (Hother & Hvalid & Hinvalid).
    assert (Hs1 : forall n e, assoc n s1 = Some e -> entry_with R n e).
    { intros n e Hn. destruct (string_dec n t) as [-> | Hne].
      - destruct (mem_string t valid_sensors) eqn:Hm.
        + destruct (Hvalid eq_refl) as (e' & He' & Hg). congruence.
        + rewrite (Hinvalid eq_refl) in Hn. apply Hs. exact Hn.
      - rewrite (Hother n Hne) in Hn. apply Hs. exact Hn. }
    destruct (IH s1 k1 Hs1) as [Hgood Hiff].
    split; [exact Hgood|].
    intros n. rewrite Hiff.
    change (In n (t :: types)) with (t = n \/ In n types).
    destruct (string_dec n t) as [-> | Hne].
    + destruct (mem_string t valid_sensors) eqn:Hm.
      * destruct (Hvalid eq_refl) as (e' & He' & _).
        apply mem_string_In in Hm. split.
        -- intros _. right. split; [left; reflexivity | exact Hm].
        -- intros _. left. congruence.
      * rewrite (Hinvalid eq_refl).
        assert (~ In t valid_sensors).
        { intros Hin. apply mem_string_In in Hin. congruence. }
        tauto.
    + rewrite (Hother n Hne). split.
      * intros [Ha | [Hin Hv]]; [left; exact Ha | right; tauto].
      * intros [Ha | [[Heq | Hin] Hv]];
          [left; exact Ha | congruence | right; tauto].
Qed.

End ReaderFacts.

Lemma read_all_sensors_spec (H : host) (real : bool)
    (R : string -> pyval -> Prop) (types : list string) (k : nat) :
  (forall i, R "temperature" (fst (read_temperature H real i))) ->
  (forall i, R "humidity" (fst (read_humidity H real i))) ->
  (forall i, R "pressure" (fst (read_pressure H real i))) ->
  (forall i, R "light" (fst (read_light H real i))) ->
  exists sensors,
    fst (read_all_sensors H real types k)
      = PDict [("timestamp", PStr (isoformat_now H k));
               ("sensors", PDict sensors)]
    /\ (forall n e, assoc n sensors = Some e -> entry_with R n e)
    /\ (forall n, assoc n sensors <> None <-> In n types /\ In n valid_sensors).
Proof.
  intros Rt Rh Rp Rl. unfold read_all_sensors.
  pose proof (read_sensors_spec H real R Rt Rh Rp Rl types [] (S k)) as Hspec.
  cbv zeta in Hspec.
  destruct (read_sensors H real types [] (S k)) as [sensors k'].
  simpl fst in *.
  destruct Hspec as [Hgood Hiff]; [intros n e; discriminate|].
  exists sensors. split; [reflexivity|]. split; [exact Hgood|].
  intros n. rewrite Hiff. simpl assoc. tauto.
Qed.

Lemma reading_of_entry (ts : pyval) (sensors : list (string * pyval))
    (n unit : string) (v : pyval) :
  assoc n sensors = Some (sensor_entry v unit) ->
  v <> PNone ->
  reading_of (PDict [("timestamp", ts); ("sensors", PDict sensors)]) n = Some v.
Proof.
  intros Ha Hv. unfold reading_of. simpl assoc at 1. cbv iota beta.
  rewrite Ha. unfold sensor_entry. simpl.
  destruct v; try reflexivity. contradiction.
Qed.

Lemma reading_of_inv (ts : pyval) (sensors : list (string * pyval))
    (n : string) (v : pyval) :
  reading_of (PDict [("timestamp", ts); ("sensors", PDict sensors)]) n = Some v ->
  exists e, assoc n sensors = Some e
            /\ forall v' unit, e = sensor_entry v' unit -> v' = v.
Proof.
  unfold reading_of. simpl assoc at 1. cbv iota beta.
  destruct (assoc n sensors) as [[| | | | | |e]|]; try discriminate.
  intros Hr. eexists. split; [reflexivity|].
  intros v' unit He. unfold sensor_entry in He. inversion He; subst e.
  simpl in Hr. destruct (is_none v'); congruence.
Qed.

Lemma reads_not_none (H : host) (real : bool) :
  (forall i, fst (read_temperature H real i) <> PNone)
  /\ (forall i, fst (read_humidity H real i) <> PNone)
  /\ (forall i, fst (read_pressure H real i) <> PNone)
  /\ (forall i, fst (read_light H real i) <> PNone).
Proof.
  repeat split; intros i; destruct real; discriminate.
Qed.

(** X13. Whatever the configured list of sensor types holds (unknown
    names, repetitions, nothing at all), [read_all_sensors] returns a
    dictionary with a timestamp and a ['sensors'] dictionary that has an
    entry exactly for the known types among the configured ones; every
    entry carries a value that is not [None], and the whole is a
    well-formed input of the uploader. *)
Theorem reading_set_shape (H : host) (real : bool) (types : list string)
    (k : nat) :
  exists sensors,
    fst (read_all_sensors H real types k)
      = PDict [("timestamp", PStr (isoformat_now H k));
               ("sensors", PDict sensors)]
    /\ (forall n, assoc n sensors <> None <-> In n types /\ In n valid_sensors)
    /\ (forall n e, assoc n sensors = Some e ->
          exists v unit, e = sensor_entry v unit /\ v <> PNone)
    /\ well_formed (fst (read_all_sensors H real types k)) = true.
Proof.
  destruct (reads_not_none H real) as (Rt & Rh & Rp & Rl).
  destruct (read_all_sensors_spec H real (fun _ v => v <> PNone) types k
              Rt Rh Rp Rl) as (sensors & Hsd & Hgood & Hiff).
  exists sensors. split; [exact Hsd|]. split; [exact Hiff|].
  split; [exact Hgood|].
  rewrite Hsd. unfold well_formed. simpl assoc at 1. cbv iota beta.
  assert (Hok : forall n, reading_ok sensors n = true).
  { intros n. unfold reading_ok.
    destruct (assoc n sensors) as [e|] eqn:He; [|reflexivity].
    destruct (Hgood n e He) as (v & unit & -> & _). reflexivity. }
  rewrite !Hok. reflexivity.
Qed.

Lemma py_round2_bounds (lo hi : Z) (x : Q) :
  (inject_Z lo <= x * inject_Z 100)%Q -> (x * inject_Z 100 <= inject_Z hi)%Q ->
  (lo # 100 <= py_round2 x)%Q /\ (py_round2 x <= hi # 100)%Q.
Proof.
  intros Hlo Hhi.
  destruct (round_half_even_bounds lo hi _ Hlo Hhi) as [H1 H2].
  unfold py_round2.
  set (n := round_half_even (x * inject_Z 100)) in *. clearbody n.
  unfold Qle, Qdiv, Qmult, Qinv, inject_Z. simpl. lia.
Qed.

Lemma virtual_float_range (base spread u : Q) (lo hi : Z) (a b : Q) :
  (0 <= u)%Q -> (u < 1)%Q ->
  (inject_Z lo == (base - spread) * 100)%Q ->
  (inject_Z hi == (base + spread) * 100)%Q ->
  (0 <= spread)%Q ->
  (a <= lo # 100)%Q -> (hi # 100 <= b)%Q ->
  float_between a b
    (PFloat (py_round2 (base + (- spread + (spread - - spread) * u)))).
Proof.
  intros H0 H1 Hlo Hhi Hs Ha Hb.
  eexists. split; [reflexivity|].
  destruct (py_round2_bounds lo hi (base + (- spread + (spread - - spread) * u)))
    as [B1 B2].
  - rewrite Hlo. change (inject_Z 100) with 100%Q. nra.
  - rewrite Hhi. change (inject_Z 100) with 100%Q. nra.
  - split; eapply Qle_trans; eauto.
Qed.

(** X14. With random draws in their documented ranges, every reading of a
    reading set lies in the interval of its sensor: temperature in
    20..30, humidity in 40..70, pressure in 998.25..1028.25 and light in
    0..1000, with real sensors switched on or off. *)
Theorem readings_in_range (H : host) (real : bool) (types : list string)
    (k : nat) (n : string) (v : pyval) :
  fair_host H ->
  reading_of (fst (read_all_sensors H real types k)) n = Some v ->
  virtual_range n v.
Proof.
  intros [Hu Hr] Hread.
  assert (Rt : forall i, virtual_range "temperature"
                           (fst (read_temperature H real i))).
  { intros i. destruct (Hu i) as [U0 U1].
    assert (G : float_between 20 30 (fst (read_temperature_virtual H i))).
    { unfold read_temperature_virtual, random_uniform, fst.
      apply (virtual_float_range 25 5 _ 2000 3000); try assumption;
        try reflexivity; unfold Qle; simpl; lia. }
    destruct real; exact G. }
  assert (Rh : forall i, virtual_range "humidity"
                           (fst (read_humidity H real i))).
  { intros i. destruct (Hu i) as [U0 U1].
    assert (G : float_between 40 70 (fst (read_humidity_virtual H i))).
    { unfold read_humidity_virtual, random_uniform, fst.
      apply (virtual_float_range 55 15 _ 4000 7000); try assumption;
        try reflexivity; unfold Qle; simpl; lia. }
    destruct real; exact G. }
  assert (Rp : forall i, virtual_range "pressure"
                           (fst (read_pressure H real i))).
  { intros i. destruct (Hu i) as [U0 U1].
    assert (G : float_between (99825 # 100) (102825 # 100)
                  (fst (read_pressure_virtual H i))).
    { unfold read_pressure_virtual, random_uniform, fst.
      apply (virtual_float_range (101325 # 100) 15 _ 99825 102825);
        try assumption; try reflexivity; unfold Qle; simpl; lia. }
    destruct real; exact G. }
  assert (Rl : forall i, virtual_range "light" (fst (read_light H real i))).
  { intros i.
    assert (G : int_between 0 1000 (fst (read_light_virtual H i))).
    { eexists. split; [reflexivity | apply Hr]. }
    destruct real; exact G. }
  destruct (read_all_sensors_spec H real virtual_range types k Rt Rh Rp Rl)
    as (sensors & Hsd & Hgood & _).
  rewrite Hsd in Hread.
  destruct (reading_of_inv _ _ _ _ Hread) as (e & He & Hv).
  destruct (Hgood n e He) as (v' & unit & Hent & Hrange).
  rewrite (Hv v' unit Hent) in Hrange. exact Hrange.
Qed.

Lemma readings_in_range_witness :
  fair_host Rig.the_host
  /\ reading_of (fst (read_all_sensors Rig.the_host false valid_sensors 3))
       "temperature" = Some (PFloat (2400 # 100))
  /\ virtual_range "temperature" (PFloat (2400 # 100)).
Proof.
  assert (F : fair_host Rig.the_host).
  { split; intros i; unfold Rig.the_host; cbn [uniform01 randint_0_1000].
    - assert (Hi : (i mod 10 < 10)%nat) by (apply Nat.mod_upper_bound; lia).
      unfold Qle, Qlt; cbn [Qnum Qden]. lia.
    - pose proof (Z.mod_pos_bound (Z.of_nat i * 137) 1001). lia. }
  assert (R : reading_of (fst (read_all_sensors Rig.the_host false
                                 valid_sensors 3)) "temperature"
              = Some (PFloat (2400 # 100))).
  { vm_compute. reflexivity. }
  split; [exact F|]. split; [exact R|].
  exact (readings_in_range Rig.the_host false valid_sensors 3
           "temperature" (PFloat (2400 # 100)) F R).
Defined.

Lemma sensor_value_present (E : env) (sensors : list (string * pyval))
    (n unit : string) (v : pyval) (fb : Q -> pyval) (w : world) :
  assoc n sensors = Some (sensor_entry v unit) ->
  v <> PNone ->
  sensor_value E (PDict sensors) n fb w = (Ret v, w).
Proof.
  intros Ha Hv. unfold sensor_value, bind, lift, py_get. rewrite Ha.
  unfold sensor_entry. simpl.
  destruct v; try reflexivity. contradiction.
Qed.

(** X15. A reader configured with all four sensor types hands the
    uploader a reading set for which the payload is built from the four
    readings alone: no field is a stand-in, and the clock is not
    consulted (the world is left as it was). *)
Theorem full_reading_needs_no_fallback (E : env) (H : host) (real : bool)
    (types : list string) (k : nat) (w : world) :
  incl valid_sensors types ->
  exists t h p l,
    reading_of (fst (read_all_sensors H real types k)) "temperature" = Some t
    /\ reading_of (fst (read_all_sensors H real types k)) "humidity" = Some h
    /\ reading_of (fst (read_all_sensors H real types k)) "pressure" = Some p
    /\ reading_of (fst (read_all_sensors H real types k)) "light" = Some l
    /\ build_payload E (fst (read_all_sensors H real types k)) w
       = (Ret (make_payload t h p l), w).
Proof.
  intros Hall.
  destruct (reads_not_none H real) as (Rt & Rh & Rp & Rl).
  destruct (read_all_sensors_spec H real (fun _ v => v <> PNone) types k
              Rt Rh Rp Rl) as (sensors & Hsd & Hgood & Hiff).
  assert (Hhas : forall n, In n valid_sensors ->
            exists v unit, assoc n sensors = Some (sensor_entry v unit)
                           /\ v <> PNone).
  { intros n Hn.
    destruct (assoc n sensors) as [e|] eqn:He.
    - destruct (Hgood n e He) as (v & unit & -> & Hv). eauto.
    - exfalso. apply (proj2 (Hiff n)); [|exact He].
      split; [apply Hall; exact Hn | exact Hn]. }
  destruct (Hhas "temperature") as (t & ut & At & Nt); [simpl; tauto|].
  destruct (Hhas "humidity") as (h & uh & Ah & Nh); [simpl; tauto|].
  destruct (Hhas "pressure") as (p & up & Ap & Np); [simpl; tauto|].
  destruct (Hhas "light") as (l & ul & Al & Nl); [simpl; tauto|].
  exists t, h, p, l. rewrite Hsd.
  rewrite (reading_of_entry _ _ _ _ _ At Nt).
  rewrite (reading_of_entry _ _ _ _ _ Ah Nh).
  rewrite (reading_of_entry _ _ _ _ _ Ap Np).
  rewrite (reading_of_entry _ _ _ _ _ Al Nl).
  repeat (split; [reflexivity|]).
  unfold build_payload.
  change (py_get (PDict [("timestamp", PStr (isoformat_now H k));
                         ("sensors", PDict sensors)]) "sensors" (PDict []))
    with (Ret (PDict sensors)).
  unfold bind at 1, lift at 1.
  unfold bind at 1. rewrite (sensor_value_present E _ _ _ _ _ w At Nt).
  unfold bind at 1. rewrite (sensor_value_present E _ _ _ _ _ w Ah Nh).
  unfold bind at 1. rewrite (sensor_value_present E _ _ _ _ _ w Ap Np).
  unfold bind at 1. rewrite (sensor_value_present E _ _ _ _ _ w Al Nl).
  reflexivity.
Qed.

Lemma full_reading_needs_no_fallback_witness :
  incl valid_sensors ["light"; "pressure"; "humidity"; "temperature"; "wind"]
  /\ exists t h p l,
       build_payload (Sample.env_of (fun _ => Sample.accepted))
         (fst (read_all_sensors Rig.the_host false
                 ["light"; "pressure"; "humidity"; "temperature"; "wind"] 0))
         (Sample.world_of [] None)
       = (Ret (make_payload t h p l), Sample.world_of [] None).
Proof.
  assert (I : incl valid_sensors
                ["light"; "pressure"; "humidity"; "temperature"; "wind"]).
  { intros n Hn. simpl in Hn. simpl. tauto. }
  split; [exact I|].
  destruct (full_reading_needs_no_fallback
              (Sample.env_of (fun _ => Sample.accepted)) Rig.the_host false
              ["light"; "pressure"; "humidity"; "temperature"; "wind"] 0
              (Sample.world_of [] None) I)
    as (t & h & p & l & _ & _ & _ & _ & Hb).
  exists t, h, p, l. exact Hb.
Defined.

(** * Properties of the configuration check *)

Lemma check_sensors_spec : forall (l : list string) (errors : list config_error),
  check_sensors l errors = errors ++ map BadSensorType (unknown_types l).
Proof.
  induction l as [|x l IH]; intros errors; cbn [check_sensors].
  - cbn. rewrite app_nil_r. reflexivity.
  - rewrite IH. unfold unknown_types. cbn [filter].
    destruct (negb (mem_string x valid_sensors)); cbn [map].
    + rewrite <- app_assoc. reflexivity.
    + reflexivity.
Qed.

Lemma unknown_types_nil (l : list string) :
  unknown_types l = [] <-> Forall (fun s => In s valid_sensors) l.
Proof.
  unfold unknown_types. induction l as [|x l IH]; cbn [filter].
  - split; [constructor | reflexivity].
  - destruct (mem_string x valid_sensors) eqn:Hm; cbn [negb].
    + rewrite IH. split.
      * intros Hl. constructor; [apply mem_string_In; exact Hm | exact Hl].
      * intros Hl. inversion Hl; assumption.
    + split; [discriminate|].
      intros Hl. inversion Hl as [|? ? Hx _]; subst.
      apply mem_string_In in Hx. congruence.
Qed.

Lemma validate_config_flag (c : settings) :
  fst (validate_config c)
  = match snd (validate_config c) with [] => true | _ => false end.
Proof.
  unfold validate_config. cbv zeta. cbn [fst snd].
  match goal with
  | |- Nat.eqb (List.length ?l) 0 = _ => destruct l; reflexivity
  end.
Qed.

Lemma validate_config_errors (c : settings) :
  snd (validate_config c)
  = (if mem_string (SERVER_HOST c) ["123.456.789.0"; EmptyString]
     then [HostNotSet] else [])
    ++ (if String.eqb (API_KEY c) "your-api-key-here"
        then [ApiKeyNotSet] else [])
    ++ (if negb (mem_string (UPLOAD_METHOD c) ["http"; "mqtt"])
        then [BadUploadMethod (UPLOAD_METHOD c)] else [])
    ++ (if COLLECT_INTERVAL c <? 1 then [BadInterval] else [])
    ++ map BadSensorType (unknown_types (SENSOR_TYPES c))
    ++ (if negb (mem_string (DISPLAY_MODE c)
                   ["browser"; "pygame"; "pyqt"; "tkinter"; "none"])
        then [BadDisplayMode (DISPLAY_MODE c)] else []).
Proof.
  unfold validate_config. cbv zeta. cbn [snd]. rewrite check_sensors_spec.
  set (u := map BadSensorType (unknown_types (SENSOR_TYPES c))).
  destruct (mem_string (SERVER_HOST c) ["123.456.789.0"; EmptyString]);
  destruct (String.eqb (API_KEY c) "your-api-key-here");
  destruct (negb (mem_string (UPLOAD_METHOD c) ["http"; "mqtt"]));
  destruct (COLLECT_INTERVAL c <? 1);
  destruct (negb (mem_string (DISPLAY_MODE c)
                    ["browser"; "pygame"; "pyqt"; "tkinter"; "none"]));
  cbn [app]; rewrite ?app_nil_r; rewrite <- ?app_assoc; reflexivity.
Qed.

Lemma validated_sensor_types (c : settings) :
  fst (validate_config c) = true ->
  Forall (fun s => In s valid_sensors) (SENSOR_TYPES c).
Proof.
  rewrite validate_config_flag.
  destruct (snd (validate_config c)) eqn:Hs; [|discriminate].
  intros _. rewrite validate_config_errors in Hs.
  apply unknown_types_nil.
  do 4 (apply app_eq_nil in Hs; destruct Hs as [_ Hs]).
  apply app_eq_nil in Hs. destruct Hs as [Hs _].
  apply map_eq_nil in Hs. exact Hs.
Qed.

Lemma mem_string_false (s : string) (l : list string) :
  mem_string s l = false <-> ~ In s l.
Proof.
  rewrite <- mem_string_In. destruct (mem_string s l); split; congruence.
Qed.

(** X16. [validate_config] answers [True] exactly when the error list is
    empty, and that is exactly when the server host is neither the
    placeholder nor empty, the API key is not the placeholder, the
    upload method is http or mqtt, the interval is at least one second,
    every configured sensor type is one of the four known ones and the
    display mode is one of the five known ones. *)
Theorem validate_config_accepts_iff (c : settings) :
  (fst (validate_config c) = true <-> snd (validate_config c) = [])
  /\ (fst (validate_config c) = true <->
      SERVER_HOST c <> "123.456.789.0"
      /\ SERVER_HOST c <> EmptyString
      /\ API_KEY c <> "your-api-key-here"
      /\ (UPLOAD_METHOD c = "http" \/ UPLOAD_METHOD c = "mqtt")
      /\ 1 <= COLLECT_INTERVAL c
      /\ Forall (fun s => In s valid_sensors) (SENSOR_TYPES c)
      /\ In (DISPLAY_MODE c) ["browser"; "pygame"; "pyqt"; "tkinter"; "none"]).
Proof.
  assert (Hflag : fst (validate_config c) = true
                  <-> snd (validate_config c) = []).
  { rewrite validate_config_flag.
    destruct (snd (validate_config c)); split; congruence. }
  split; [exact Hflag|].
  rewrite Hflag, validate_config_errors.
  rewrite <- unknown_types_nil.
  destruct (mem_string (SERVER_HOST c) ["123.456.789.0"; EmptyString]) eqn:Hh.
  { apply mem_string_In in Hh. cbn [In] in Hh. split; [discriminate|].
    intros (H1 & H2 & _). destruct Hh as [Hh | [Hh | []]]; congruence. }
  apply mem_string_false in Hh. cbn [In] in Hh.
  destruct (String.eqb_spec (API_KEY c) "your-api-key-here") as [Hk | Hk].
  { split; [discriminate|]. intros (_ & _ & H3 & _). contradiction. }
  destruct (mem_string (UPLOAD_METHOD c) ["http"; "mqtt"]) eqn:Hm; cbn [negb].
  2:{ apply mem_string_false in Hm. cbn [In] in Hm. split; [discriminate|].
      intros (_ & _ & _ & [H4 | H4] & _); exfalso; apply Hm;
        rewrite H4; auto. }
  apply mem_string_In in Hm. cbn [In] in Hm.
  destruct (Z.ltb_spec (COLLECT_INTERVAL c) 1) as [Hi | Hi].
  { split; [discriminate|]. intros (_ & _ & _ & _ & H5 & _). lia. }
  destruct (mem_string (DISPLAY_MODE c)
              ["browser"; "pygame"; "pyqt"; "tkinter"; "none"]) eqn:Hd;
    cbn [negb].
  2:{ apply mem_string_false in Hd. split.
      - intros He. cbn [app] in He. apply app_eq_nil in He.
        destruct He as [_ He]. discriminate.
      - intros (_ & _ & _ & _ & _ & _ & H7). contradiction. }
  apply mem_string_In in Hd.
  cbn [app]. rewrite app_nil_r. split.
  - intros Hu. apply map_eq_nil in Hu.
    repeat split; try tauto; try assumption.
    + intros Heq. apply Hh. left. symmetry. exact Heq.
    + intros Heq. apply Hh. right. left. symmetry. exact Heq.
    + destruct Hm as [Hm | [Hm | []]]; [left | right]; symmetry; exact Hm.
  - intros (_ & _ & _ & _ & _ & Hu & _). rewrite Hu. reflexivity.
Qed.

(** X17. Once the configuration has passed [validate_config], as the
    system demands before it builds its reader, every configured sensor
    type has a reading in every reading set the reader returns. *)
Theorem validated_types_are_all_read (c : settings) (H : host) (real : bool)
    (k : nat) (n : string) :
  fst (validate_config c) = true ->
  In n (SENSOR_TYPES c) ->
  exists v,
    reading_of (fst (read_all_sensors H real (SENSOR_TYPES c) k)) n = Some v.
Proof.
  intros Hok Hn.
  pose proof (validated_sensor_types c Hok) as Hall.
  rewrite Forall_forall in Hall.
  destruct (reads_not_none H real) as (Rt & Rh & Rp & Rl).
  destruct (read_all_sensors_spec H real (fun _ v => v <> PNone)
              (SENSOR_TYPES c) k Rt Rh Rp Rl) as (sensors & Hsd & Hgood & Hiff).
  destruct (assoc n sensors) as [e|] eqn:He.
  - destruct (Hgood n e He) as (v & unit & -> & Hv).
    exists v. rewrite Hsd. apply (reading_of_entry _ _ _ unit); assumption.
  - exfalso. apply (proj2 (Hiff n)); [|exact He].
    split; [exact Hn | apply Hall; exact Hn].
Qed.

Lemma validated_types_are_all_read_witness :
  fst (validate_config Desk.settings_ok) = true
  /\ In "pressure" (SENSOR_TYPES Desk.settings_ok)
  /\ exists v,
       reading_of (fst (read_all_sensors Rig.the_host false
                          (SENSOR_TYPES Desk.settings_ok) 0)) "pressure"
       = Some v.
Proof.
  assert (V : fst (validate_config Desk.settings_ok) = true)
    by (vm_compute; reflexivity).
  assert (I : In "pressure" (SENSOR_TYPES Desk.settings_ok))
    by (simpl; tauto).
  split; [exact V|]. split; [exact I|].
  exact (validated_types_are_all_read Desk.settings_ok Rig.the_host false 0
           "pressure" V I).
Defined.

(** * Properties of the dashboard *)

Lemma reading_value_ok (s : list (string * pyval)) (name : string) :
  reading_ok s name = true ->
  exists v, reading_value (PDict s) name = Ret v.
Proof.
  unfold reading_ok, reading_value, py_get.
  destruct (assoc name s) as [[| | | | | |e]|]; try discriminate;
    intros _; eexists; reflexivity.
Qed.

Lemma reading_value_of (kvs s : list (string * pyval)) (name : string)
    (v : pyval) :
  match assoc "sensors" kvs with Some x => x | None => PDict [] end = PDict s ->
  reading_of (PDict kvs) name = Some v ->
  reading_value (PDict s) name = Ret v.
Proof.
  unfold reading_of, reading_value, py_get.
  destruct (assoc "sensors" kvs) as [[| | | | | |s']|]; try discriminate.
  intros Hs. inversion Hs; subst s'.
  destruct (assoc name s) as [[| | | | | |e]|]; try discriminate.
  destruct (assoc "value" e) as [r|]; [|discriminate].
  destruct (is_none r); congruence.
Qed.

Lemma well_formed_sensors (kvs : list (string * pyval)) :
  well_formed (PDict kvs) = true ->
  exists s,
    match assoc "sensors" kvs with Some x => x | None => PDict [] end = PDict s
    /\ reading_ok s "temperature" = true /\ reading_ok s "humidity" = true
    /\ reading_ok s "pressure" = true /\ reading_ok s "light" = true.
Proof.
  unfold well_formed.
  destruct (assoc "sensors" kvs) as [[| | | | | |s]|]; try discriminate.
  - intros Hw. repeat rewrite andb_true_iff in Hw. exists s. tauto.
  - intros _. exists []. repeat split; reflexivity.
Qed.

(** What [update_data] does with a well-formed reading set. *)
Lemma update_data_shown (H : host) (kvs : list (string * pyval))
    (d : dashboard) (k : nat) :
  well_formed (PDict kvs) = true ->
  exists s temp humidity pressure light,
    match assoc "sensors" kvs with Some x => x | None => PDict [] end = PDict s
    /\ reading_value (PDict s) "temperature" = Ret temp
    /\ reading_value (PDict s) "humidity" = Ret humidity
    /\ reading_value (PDict s) "pressure" = Ret pressure
    /\ reading_value (PDict s) "light" = Ret light
    /\ update_data H (PDict kvs) d k
       = (if emit_ok H (S (S k)) then Ret tt else Raise EOther,
          let d1 := if truthy temp then set_usv "temp" temp d else d in
          let d2 := if truthy humidity
                    then set_usv "humidity" humidity d1 else d1 in
          let d3 := if truthy pressure
                    then set_usv "pressure" pressure d2 else d2 in
          let d4 := if truthy light then set_usv "light" light d3 else d3 in
          push_history (PStr (strftime_now H (S k)))
            temp humidity pressure light
            (set_meta "source" (PStr "dashboard")
               (set_meta "last_update_ts"
                  (PInt (py_int (unix_time H k))) d4)),
          S (S (S k))).
Proof.
  intros Hw.
  destruct (well_formed_sensors kvs Hw) as (s & Hs & Ht & Hh & Hp & Hl).
  destruct (reading_value_ok s _ Ht) as (temp & Et).
  destruct (reading_value_ok s _ Hh) as (humidity & Eh).
  destruct (reading_value_ok s _ Hp) as (pressure & Ep).
  destruct (reading_value_ok s _ Hl) as (light & El).
  exists s, temp, humidity, pressure, light.
  repeat (split; [assumption|]).
  unfold update_data. unfold py_get at 1. rewrite Hs, Et, Eh, Ep, El.
  cbv zeta. destruct (emit_ok H (S (S k))); reflexivity.
Qed.

(** What it does with anything else. *)
Lemma update_data_not_shown (H : host) (sd : pyval) (d : dashboard) (k : nat) :
  shown sd = false ->
  update_data H sd d k
  = (if is_dict sd then Raise AttributeError else Ret tt, d, k).
Proof.
  unfold shown. destruct sd as [| | | | | |kvs]; try reflexivity.
  simpl is_dict. simpl andb. unfold well_formed, update_data.
  unfold py_get at 1.
  destruct (assoc "sensors" kvs) as [[| | | | | |s]|]; try discriminate;
    try reflexivity.
  unfold reading_ok, reading_value, py_get.
  destruct (assoc "temperature" s) as [[| | | | | |e1]|]; simpl;
    try reflexivity;
  (destruct (assoc "humidity" s) as [[| | | | | |e2]|]; simpl;
    try reflexivity;
   (destruct (assoc "pressure" s) as [[| | | | | |e3]|]; simpl;
     try reflexivity;
    (destruct (assoc "light" s) as [[| | | | | |e4]|]; simpl;
      try reflexivity; try discriminate))).
Qed.

Lemma last_points_length (n : nat) (l : list pyval) (x : pyval) :
  (List.length l <= n)%nat ->
  List.length (last_points n (l ++ [x])) = Nat.min n (S (List.length l)).
Proof.
  intros Hl. unfold last_points. rewrite length_app. simpl List.length.
  destruct (Nat.ltb_spec n (List.length l + 1)) as [Hlt | Hge].
  - rewrite length_skipn, length_app. simpl. lia.
  - rewrite length_app. simpl. lia.
Qed.

Lemma set_usv_history (f : string) (v : pyval) (b : bool) (d : dashboard) :
  h_timestamps (if b then set_usv f v d else d) = h_timestamps d
  /\ h_temperature (if b then set_usv f v d else d) = h_temperature d
  /\ h_humidity (if b then set_usv f v d else d) = h_humidity d
  /\ h_pressure (if b then set_usv f v d else d) = h_pressure d
  /\ h_light (if b then set_usv f v d else d) = h_light d.
Proof. destruct b; repeat split; reflexivity. Qed.

Lemma push_history_aligned (n : nat) (ts t h p l : pyval) (d : dashboard) :
  aligned n d -> (n <= 100)%nat ->
  aligned (Nat.min 100 (S n)) (push_history ts t h p l d).
Proof.
  unfold aligned, push_history. cbv zeta. simpl.
  intros (H1 & H2 & H3 & H4 & H5) Hn.
  rewrite !last_points_length by lia.
  rewrite H1, H2, H3, H4, H5. repeat split; reflexivity.
Qed.

Lemma update_data_aligned (H : host) (sd : pyval) (d : dashboard)
    (k n : nat) :
  aligned n d -> (n <= 100)%nat ->
  aligned (if shown sd then Nat.min 100 (S n) else n)
    (snd (fst (update_data H sd d k))).
Proof.
  intros Ha Hn. destruct (shown sd) eqn:Hs.
  - unfold shown in Hs. apply andb_true_iff in Hs. destruct Hs as [Hd Hw].
    destruct sd as [| | | | | |kvs]; try discriminate.
    destruct (update_data_shown H kvs d k Hw)
      as (s & t & h & p & l & _ & _ & _ & _ & _ & ->).
    cbv zeta. cbn [fst snd].
    apply push_history_aligned; [|exact Hn].
    unfold aligned, set_meta. simpl.
    destruct (set_usv_history "light" l (truthy l)
                (if truthy p
                 then set_usv "pressure" p
                        (if truthy h
                         then set_usv "humidity" h
                                (if truthy t then set_usv "temp" t d else d)
                         else if truthy t then set_usv "temp" t d else d)
                 else if truthy h
                      then set_usv "humidity" h
                             (if truthy t then set_usv "temp" t d else d)
                      else if truthy t then set_usv "temp" t d else d))
      as (-> & -> & -> & -> & ->).
    destruct (set_usv_history "pressure" p (truthy p)
                (if truthy h
                 then set_usv "humidity" h
                        (if truthy t then set_usv "temp" t d else d)
                 else if truthy t then set_usv "temp" t d else d))
      as (-> & -> & -> & -> & ->).
    destruct (set_usv_history "humidity" h (truthy h)
                (if truthy t then set_usv "temp" t d else d))
      as (-> & -> & -> & -> & ->).
    destruct (set_usv_history "temp" t (truthy t) d)
      as (-> & -> & -> & -> & ->).
    exact Ha.
  - rewrite (update_data_not_shown H sd d k Hs). exact Ha.
Qed.

Lemma feed_aligned (H : host) : forall (inputs : list pyval) (d : dashboard)
    (k n : nat),
  aligned n d -> (n <= 100)%nat ->
  aligned (Nat.min 100 (n + List.length (filter shown inputs)))
    (fst (feed H inputs d k)).
Proof.
  induction inputs as [|sd inputs IH]; intros d k n Ha Hn.
  - cbn [feed filter List.length fst].
    rewrite Nat.add_0_r, Nat.min_r by exact Hn. exact Ha.
  - cbn [feed filter].
    pose proof (update_data_aligned H sd d k n Ha Hn) as Hstep.
    destruct (update_data H sd d k) as [[o d'] k']. cbn [fst snd] in Hstep.
    destruct (shown sd).
    + specialize (IH d' k' _ Hstep (Nat.le_min_l _ _)).
      cbn [List.length].
      replace (Nat.min 100 (n + S (List.length (filter shown inputs))))
        with (Nat.min 100 (Nat.min 100 (S n)
                           + List.length (filter shown inputs))) by lia.
      exact IH.
    + exact (IH d' k' n Hstep Hn).
Qed.

(** X18. However many updates the dashboard receives, and whatever they
    hold, its five history lists have the same number of points, the
    number of well-formed reading sets received so far, capped at 100. *)
Theorem history_is_bounded (H : host) (inputs : list pyval) (k : nat) :
  aligned (Nat.min 100 (List.length (filter shown inputs)))
    (fst (feed H inputs dashboard_init k)).
Proof.
  apply (feed_aligned H inputs dashboard_init k 0).
  - repeat split; reflexivity.
  - lia.
Qed.

(** X19. [update_data] changes nothing unless its argument is a
    well-formed reading set: anything that is not a dictionary is passed
    over in silence, and on a dictionary of another shape
    [AttributeError] is raised before the first write, so that no update
    is applied in part. *)
Theorem update_is_all_or_nothing (H : host) (sd : pyval) (d : dashboard)
    (k : nat) :
  shown sd = false ->
  snd (fst (update_data H sd d k)) = d
  /\ snd (update_data H sd d k) = k
  /\ fst (fst (update_data H sd d k))
     = (if is_dict sd then Raise AttributeError else Ret tt).
Proof.
  intros Hs. rewrite (update_data_not_shown H sd d k Hs).
  repeat split; reflexivity.
Qed.

Lemma update_is_all_or_nothing_witness :
  shown (PDict [("sensors", PDict [("light", PInt 7)])]) = false
  /\ fst (fst (update_data Rig.the_host
                 (PDict [("sensors", PDict [("light", PInt 7)])])
                 dashboard_init 0))
     = Raise AttributeError.
Proof.
  assert (S : shown (PDict [("sensors", PDict [("light", PInt 7)])]) = false)
    by reflexivity.
  split; [exact S|].
  exact (proj2 (proj2 (update_is_all_or_nothing Rig.the_host _
                         dashboard_init 0 S))).
Defined.

Lemma sensor_value_reading (E : env) (s : list (string * pyval))
    (name : string) (v : pyval) (fb : Q -> pyval) (w : world) :
  reading_value (PDict s) name = Ret v ->
  v <> PNone ->
  sensor_value E (PDict s) name fb w = (Ret v, w).
Proof.
  unfold reading_value, sensor_value, bind, lift.
  destruct (py_get (PDict s) name (PDict [])) as [entry|e]; [|discriminate].
  intros Hv Hn. rewrite Hv.
  destruct v; try reflexivity. contradiction.
Qed.

Lemma reading_of_not_none (sd : pyval) (name : string) (v : pyval) :
  reading_of sd name = Some v -> v <> PNone.
Proof.
  unfold reading_of.
  destruct sd as [| | | | | |kvs]; try discriminate.
  destruct (assoc "sensors" kvs) as [[| | | | | |s]|]; try discriminate.
  destruct (assoc name s) as [[| | | | | |e]|]; try discriminate.
  destruct (assoc "value" e) as [r|]; [|discriminate].
  destruct (is_none r) eqn:Hr; [discriminate|].
  intros Heq Hn. inversion Heq; subst. discriminate.
Qed.

Lemma build_payload_fields (E : env) (kvs s : list (string * pyval))
    (w : world) :
  well_formed (PDict kvs) = true ->
  match assoc "sensors" kvs with Some x => x | None => PDict [] end = PDict s ->
  exists v1 v2 v3 v4 w1 w2 w3 w4,
    sensor_value E (PDict s) "temperature" fallback_temp w = (Ret v1, w1)
    /\ sensor_value E (PDict s) "humidity" fallback_humidity w1 = (Ret v2, w2)
    /\ sensor_value E (PDict s) "pressure" fallback_pressure w2 = (Ret v3, w3)
    /\ sensor_value E (PDict s) "light" fallback_light w3 = (Ret v4, w4)
    /\ build_payload E (PDict kvs) w = (Ret (make_payload v1 v2 v3 v4), w4).
Proof.
  intros Hw Hs.
  destruct (well_formed_sensors kvs Hw) as (s' & Hs' & H1 & H2 & H3 & H4).
  rewrite Hs in Hs'. inversion Hs'; subst s'.
  destruct (sensor_value_ok E s "temperature" fallback_temp w H1)
    as (v1 & w1 & E1 & _).
  destruct (sensor_value_ok E s "humidity" fallback_humidity w1 H2)
    as (v2 & w2 & E2 & _).
  destruct (sensor_value_ok E s "pressure" fallback_pressure w2 H3)
    as (v3 & w3 & E3 & _).
  destruct (sensor_value_ok E s "light" fallback_light w3 H4)
    as (v4 & w4 & E4 & _).
  exists v1, v2, v3, v4, w1, w2, w3, w4.
  repeat (split; [assumption|]).
  unfold build_payload. unfold bind at 1, lift at 1, py_get at 1.
  rewrite Hs. unfold bind, ret. rewrite E1, E2, E3, E4. reflexivity.
Qed.

(** X20. For each of the four sensors, the value the collector is sent and
    the value the dashboard shows part ways on readings that Python
    counts as false, such as a light level of 0: the payload carries the
    reading, the dashboard keeps showing the value it had, and its history
    records 0. A reading that counts as true is sent, shown and
    recorded. *)
Theorem reading_is_shown_only_if_truthy (E : env) (H : host) (sd : pyval)
    (d : dashboard) (k : nat) (w : world) (name field : string) (v : pyval) :
  In (name, field) sensor_fields ->
  well_formed sd = true ->
  reading_of sd name = Some v ->
  (exists p w',
      build_payload E sd w = (Ret p, w') /\ usv_field p field = Some v)
  /\ assoc field (usv (snd (fst (update_data H sd d k))))
     = (if truthy v then Some v else assoc field (usv d))
  /\ history_of name (snd (fst (update_data H sd d k)))
     = last_points 100
         (history_of name d ++ [if truthy v then v else PInt 0]).
Proof.
  intros Hin Hw Hr.
  pose proof (reading_of_not_none sd name v Hr) as Hnn.
  destruct sd as [| | | | | |kvs]; try discriminate.
  destruct (update_data_shown H kvs d k Hw)
    as (s & t & h & p & l & Hs & Et & Eh & Ep & El & ->).
  pose proof (reading_value_of kvs s name v Hs Hr) as Ev.
  destruct (build_payload_fields E kvs s w Hw Hs)
    as (v1 & v2 & v3 & v4 & w1 & w2 & w3 & w4 & S1 & S2 & S3 & S4 & Hb).
  cbv zeta. cbn [fst snd].
  unfold sensor_fields in Hin. cbn [In] in Hin.
  destruct Hin as [Hin | [Hin | [Hin | [Hin | []]]]];
    inversion Hin; subst name field; clear Hin.
  - rewrite Et in Ev. inversion Ev; subst t.
    rewrite (sensor_value_reading E s _ v _ w Et Hnn) in S1.
    inversion S1; subst v1 w1.
    split; [exists (make_payload v v2 v3 v4), w4; split;
            [exact Hb | reflexivity]|].
    unfold push_history, set_meta, history_of, py_or. cbn [usv h_temperature].
    cbn [String.eqb Ascii.eqb Bool.eqb].
    destruct (truthy v), (truthy h), (truthy p), (truthy l);
      cbn [usv set_usv h_temperature]; rewrite ?assoc_dict_set;
      split; reflexivity.
  - rewrite Eh in Ev. inversion Ev; subst h.
    rewrite (sensor_value_reading E s _ v _ w1 Eh Hnn) in S2.
    inversion S2; subst v2 w2.
    split; [exists (make_payload v1 v v3 v4), w4; split;
            [exact Hb | reflexivity]|].
    unfold push_history, set_meta, history_of, py_or. cbn [usv h_humidity].
    cbn [String.eqb Ascii.eqb Bool.eqb].
    destruct (truthy t), (truthy v), (truthy p), (truthy l);
      cbn [usv set_usv h_humidity]; rewrite ?assoc_dict_set;
      split; reflexivity.
  - rewrite Ep in Ev. inversion Ev; subst p.
    rewrite (sensor_value_reading E s _ v _ w2 Ep Hnn) in S3.
    inversion S3; subst v3 w3.
    split; [exists (make_payload v1 v2 v v4), w4; split;
            [exact Hb | reflexivity]|].
    unfold push_history, set_meta, history_of, py_or. cbn [usv h_pressure].
    cbn [String.eqb Ascii.eqb Bool.eqb].
    destruct (truthy t), (truthy h), (truthy v), (truthy l);
      cbn [usv set_usv h_pressure]; rewrite ?assoc_dict_set;
      split; reflexivity.
  - rewrite El in Ev. inversion Ev; subst l.
    rewrite (sensor_value_reading E s _ v _ w3 El Hnn) in S4.
    inversion S4; subst v4 w4.
    split; [exists (make_payload v1 v2 v3 v), w3; split;
            [exact Hb | reflexivity]|].
    unfold push_history, set_meta, history_of, py_or. cbn [usv h_light].
    cbn [String.eqb Ascii.eqb Bool.eqb].
    destruct (truthy t), (truthy h), (truthy p), (truthy v);
      cbn [usv set_usv h_light]; rewrite ?assoc_dict_set;
      split; reflexivity.
Qed.

Lemma reading_is_shown_only_if_truthy_witness :
  In ("light", "light") sensor_fields
  /\ well_formed (Sample.reading "2024-01-01T21:30:00" (181 # 10) 0) = true
  /\ reading_of (Sample.reading "2024-01-01T21:30:00" (181 # 10) 0) "light"
     = Some (PInt 0)
  /\ (exists p w',
        build_payload (Sample.env_of (fun _ => Sample.accepted))
          (Sample.reading "2024-01-01T21:30:00" (181 # 10) 0)
          (Sample.world_of [] None) = (Ret p, w')
        /\ usv_field p "light" = Some (PInt 0))
  /\ assoc "light"
       (usv (snd (fst (update_data Rig.the_host
                         (Sample.reading "2024-01-01T21:30:00" (181 # 10) 0)
                         dashboard_init 0))))
     = Some (PInt 1200).
Proof.
  assert (I : In ("light", "light") sensor_fields) by (simpl; tauto).
  assert (W : well_formed (Sample.reading "2024-01-01T21:30:00" (181 # 10) 0)
              = true) by reflexivity.
  assert (R : reading_of (Sample.reading "2024-01-01T21:30:00" (181 # 10) 0)
                "light" = Some (PInt 0)) by reflexivity.
  split; [exact I|]. split; [exact W|]. split; [exact R|].
  destruct (reading_is_shown_only_if_truthy
              (Sample.env_of (fun _ => Sample.accepted)) Rig.the_host
              (Sample.reading "2024-01-01T21:30:00" (181 # 10) 0)
              dashboard_init 0 (Sample.world_of [] None)
              "light" "light" (PInt 0) I W R) as (Hp & Hshown & _).
  split; [exact Hp | exact Hshown].
Defined.

(** * Properties of the collection loop *)

Lemma only_logs_refl (w : world) : only_logs w w.
Proof. destruct w; reflexivity. Qed.

Lemma only_logs_trans (w1 w2 w3 : world) :
  only_logs w1 w2 -> only_logs w2 w3 -> only_logs w1 w3.
Proof.
  unfold only_logs; intros H1 H2; rewrite H2, H1; destruct w1; reflexivity.
Qed.

Lemma only_logs_log (l : level) (msg : string) (w : world) :
  log l msg w = (Ret tt, snd (log l msg w)) /\ only_logs w (snd (log l msg w)).
Proof. destruct w; split; reflexivity. Qed.

(** Inserting a dictionary keeps a dictionary of dictionaries one. *)
Lemma dict_set_dicts (k : string) (v : pyval) (kvs : list (string * pyval)) :
  is_dict v = true ->
  Forall (fun kv => is_dict (snd kv) = true) kvs ->
  Forall (fun kv => is_dict (snd kv) = true) (dict_set k v kvs).
Proof.
  intros Hv. induction kvs as [|[k' v'] kvs IH]; intros Hk; simpl.
  - constructor; [exact Hv | constructor].
  - inversion Hk as [|? ? Hd Hrest]; subst.
    destruct (String.eqb k k'); constructor; auto.
Qed.

Lemma read_sensors_dicts (H : host) (real : bool) :
  forall (types : list string) (s : list (string * pyval)) (k : nat),
    Forall (fun kv => is_dict (snd kv) = true) s ->
    Forall (fun kv => is_dict (snd kv) = true)
      (fst (read_sensors H real types s k)).
Proof.
  induction types as [|t types IH]; intros s k Hs; [exact Hs|].
  cbn [read_sensors].
  assert (H1 : Forall (fun kv => is_dict (snd kv) = true)
                 (fst (read_one H real t s k))).
  { unfold read_one.
    destruct (String.eqb t "temperature");
      [destruct (read_temperature H real k);
       apply dict_set_dicts; [reflexivity | exact Hs]|].
    destruct (String.eqb t "humidity");
      [destruct (read_humidity H real k);
       apply dict_set_dicts; [reflexivity | exact Hs]|].
    destruct (String.eqb t "pressure");
      [destruct (read_pressure H real k);
       apply dict_set_dicts; [reflexivity | exact Hs]|].
    destruct (String.eqb t "light");
      [destruct (read_light H real k);
       apply dict_set_dicts; [reflexivity | exact Hs]|].
    exact Hs. }
  destruct (read_one H real t s k) as [s1 k1]. apply IH. exact H1.
Qed.

Lemma log_items_returns : forall (items : list (string * pyval)) (w : world),
  Forall (fun kv => is_dict (snd kv) = true) items ->
  exists w', log_items items w = (Ret tt, w') /\ only_logs w w'.
Proof.
  induction items as [|[n e] items IH]; intros w Hd.
  - exists w. split; [reflexivity | apply only_logs_refl].
  - inversion Hd as [|? ? He Hrest]; subst. cbn [snd] in He.
    destruct e as [| | | | | |kvs]; try discriminate.
    cbn [log_items]. unfold bind at 1, lift at 1, py_get at 1.
    unfold bind at 1, lift at 1, py_get at 1.
    unfold bind at 1.
    destruct (only_logs_log INFO n w) as [-> Hl].
    destruct (IH (snd (log INFO n w)) Hrest) as (w' & Hi & Ho).
    exists w'. split; [exact Hi | exact (only_logs_trans _ _ _ Hl Ho)].
Qed.

(** Logging a reading set of the reader returns, and writes the log only. *)
Lemma log_sensor_data_returns (H : host) (real : bool) (types : list string)
    (k : nat) (now : string) (b : bool) (w : world) :
  exists w',
    log_sensor_data now (fst (read_all_sensors H real types k)) b w
      = (Ret tt, w')
    /\ only_logs w w'.
Proof.
  unfold read_all_sensors.
  pose proof (read_sensors_dicts H real types [] (S k) (Forall_nil _)) as Hd.
  destruct (read_sensors H real types [] (S k)) as [sensors k'].
  cbn [fst] in *.
  unfold log_sensor_data.
  unfold bind at 1, lift at 1, py_get at 1.
  unfold bind at 1.
  destruct (only_logs_log INFO "collected at" w) as [-> L1].
  set (w1 := snd (log INFO "collected at" w)) in *.
  unfold bind at 1, lift at 1, py_get at 1. simpl assoc. cbv iota beta.
  unfold bind at 1, lift at 1, py_items.
  destruct (log_items_returns sensors w1 Hd) as (w2 & Hi & L2).
  unfold bind at 1. rewrite Hi.
  destruct b.
  - destruct (only_logs_log INFO "upload state: done" w2) as [-> L3].
    eexists. split; [reflexivity|].
    eauto using only_logs_trans.
  - destruct (only_logs_log WARNING "upload state: failed" w2) as [-> L3].
    eexists. split; [reflexivity|].
    eauto using only_logs_trans.
Qed.

(** [upload] on a sound queue: it returns, the queue stays sound, and the
    result tells whether the collector accepted the fresh reading set. *)
Lemma upload_sound (E : env) (cfg : config) (json_dumps : pyval -> string)
    (sd : pyval) (w : world) (q : list pyval) :
  well_formed sd = true ->
  cache w = PList q ->
  Forall (fun x => well_formed x = true) q ->
  exists b w' q' t,
    upload E cfg json_dumps sd w = (Ret b, w')
    /\ cache w' = PList q'
    /\ Forall (fun x => well_formed x = true) q'
    /\ trace w' = trace w ++ t
    /\ (b = true <-> In sd (acked t)).
Proof.
  intros Hsd Hq Hwf.
  destruct (upload_spec E cfg json_dumps sd w q Hsd Hq Hwf)
    as (p & w1 & w' & _ & Hc1 & _ & _ & Ht & _ & Hup & Hafter).
  cbv zeta in *.
  pose proof (retry_events_acked (net E) (Z.to_nat (retry_times cfg)) sd p
                true 1 (retry_times cfg) (posts w)) as Hack.
  destruct (snd (retry_events (net E) (Z.to_nat (retry_times cfg)) sd p true 1
                   (retry_times cfg) (posts w))).
  - destruct Hafter as (t & Hc & Htr & _ & _ & _ & Hak & _).
    eexists true, w', _, _. split; [exact Hup|].
    split; [exact Hc|]. split; [apply Forall_skipn_wf; exact Hwf|].
    split; [rewrite Htr, Ht, <- app_assoc; reflexivity|].
    rewrite acked_app, Hack. split; [intros _; left; reflexivity | reflexivity].
  - destruct (enable_cache cfg).
    + destruct Hafter as (Hc & Htr & _).
      eexists false, w', _, _. split; [exact Hup|].
      split; [exact Hc|].
      split; [apply Forall_app; split;
              [exact Hwf | constructor; [exact Hsd | constructor]]|].
      split; [rewrite Htr; exact Ht|].
      rewrite Hack. split; [discriminate | intros []].
    + subst w'.
      eexists false, w1, q, _. split; [exact Hup|].
      split; [exact Hc1|]. split; [exact Hwf|]. split; [exact Ht|].
      rewrite Hack. split; [discriminate | intros []].
Qed.

(** [upload] with caching enabled and a queue that is not a list, while
    the collector accepts nothing. *)
Lemma upload_on_broken_queue (E : env) (cfg : config)
    (json_dumps : pyval -> string) (sd : pyval) (w : world) :
  well_formed sd = true ->
  enable_cache cfg = true ->
  not_a_list (cache w) = true ->
  (forall j, verdict_of (net E j) <> Accepted) ->
  exists w',
    upload E cfg json_dumps sd w = (Raise AttributeError, w')
    /\ cache w' = cache w /\ file w' = file w.
Proof.
  intros Hsd Hen Hnl Hno.
  destruct (upload_single_spec E cfg sd true w Hsd)
    as (p & w1 & Hu & Hc & Hf & _).
  cbv zeta in *.
  rewrite (nothing_accepted_fails (net E) sd p true (retry_times cfg)
             (Z.to_nat (retry_times cfg)) 1 (posts w) Hno) in Hu.
  rewrite (upload_after_failure E cfg json_dumps sd w w1 Hu), Hen.
  simpl when. unfold _add_to_cache. rewrite Hen.
  change (negb true) with false. cbv iota.
  unfold bind at 1. cbv beta.
  rewrite (cache_append_raises sd w1) by (rewrite Hc; exact Hnl).
  exists w1. split; [reflexivity|]. split; assumption.
Qed.

Section SystemFacts.

Variable E : env.
Variable cfg : config.
Variable json_dumps : pyval -> string.
Variable json_line : pyval -> string.
Variable H : host.
Variable use_real_sensors : bool.
Variable sensor_types : list string.
Variable interval : Z.

Lemma on_uploader_frame {A} (m : M A) (s : system) :
  the_stats (snd (on_uploader m s)) = the_stats s
  /\ the_dashboard (snd (on_uploader m s)) = the_dashboard s
  /\ backup_files (snd (on_uploader m s)) = backup_files s
  /\ step (snd (on_uploader m s)) = step s
  /\ uploader (snd (on_uploader m s)) = snd (m (uploader s))
  /\ fst (on_uploader m s) = fst (m (uploader s)).
Proof.
  unfold on_uploader. destruct (m (uploader s)) as [o w].
  repeat split; reflexivity.
Qed.

Lemma sys_log_frame (l : level) (msg : string) (s : system) :
  the_stats (sys_log l msg s) = the_stats s
  /\ the_dashboard (sys_log l msg s) = the_dashboard s
  /\ backup_files (sys_log l msg s) = backup_files s
  /\ step (sys_log l msg s) = step s
  /\ cache (uploader (sys_log l msg s)) = cache (uploader s)
  /\ file (uploader (sys_log l msg s)) = file (uploader s)
  /\ trace (uploader (sys_log l msg s)) = trace (uploader s)
  /\ posts (uploader (sys_log l msg s)) = posts (uploader s)
  /\ ios (uploader (sys_log l msg s)) = ios (uploader s).
Proof. repeat split; reflexivity. Qed.

Lemma update_dashboard_frame (sd : pyval) (s : system) :
  the_stats (update_dashboard H sd s) = the_stats s
  /\ backup_files (update_dashboard H sd s) = backup_files s
  /\ cache (uploader (update_dashboard H sd s)) = cache (uploader s)
  /\ file (uploader (update_dashboard H sd s)) = file (uploader s)
  /\ trace (uploader (update_dashboard H sd s)) = trace (uploader s)
  /\ (the_dashboard s = None -> update_dashboard H sd s = s).
Proof.
  unfold update_dashboard.
  destruct (the_dashboard s) as [d|]; [|repeat split; reflexivity].
  destruct (update_data H sd d (step s)) as [[[[]|e] d'] k'];
    cbn [the_stats with_step with_dashboard];
    try destruct (total_collections (the_stats s) mod 10 =? 0);
    repeat split; try reflexivity; discriminate.
Qed.

Lemma backup_data_frame (sd : pyval) (s : system) :
  the_stats (backup_data json_line H sd s) = the_stats s
  /\ the_dashboard (backup_data json_line H sd s) = the_dashboard s
  /\ cache (uploader (backup_data json_line H sd s)) = cache (uploader s)
  /\ file (uploader (backup_data json_line H sd s)) = file (uploader s)
  /\ trace (uploader (backup_data json_line H sd s)) = trace (uploader s)
  /\ backup_files (backup_data json_line H sd s)
     = backup_files s
       ++ (if backup_ok H (step s)
           then [(backup_name H (step s), json_line sd)] else []).
Proof.
  unfold backup_data. cbv zeta.
  destruct (backup_ok H (step s)); repeat split; try reflexivity.
  simpl. rewrite app_nil_r. reflexivity.
Qed.

(** One turn counts once, as a success or as a failure, in agreement with
    what it returns. *)
Lemma collect_and_upload_stats (s : system) :
  let r := collect_and_upload E cfg json_dumps json_line H use_real_sensors
             sensor_types s in
  total_collections (the_stats (snd r)) = total_collections (the_stats s) + 1
  /\ successful_uploads (the_stats (snd r))
     = successful_uploads (the_stats s) + (if fst r then 1 else 0)
  /\ failed_uploads (the_stats (snd r))
     = failed_uploads (the_stats s) + (if fst r then 0 else 1).
Proof.
  cbv zeta. unfold collect_and_upload. cbv zeta.
  set (s1 := sys_log INFO "collecting sensor data"
               (with_stats (bump_total (the_stats s)) s)).
  destruct (read_all_sensors H use_real_sensors sensor_types (step s1))
    as [sd k].
  set (s2 := sys_log INFO "uploading to the server" (with_step k s1)).
  assert (H2 : the_stats s2 = bump_total (the_stats s)) by reflexivity.
  destruct (on_uploader_frame (upload E cfg json_dumps sd) s2)
    as (F1 & _).
  destruct (on_uploader (upload E cfg json_dumps sd) s2) as [[b|e] s3];
    cbn [snd] in F1.
  2:{ unfold round_failed. cbv zeta. cbn [fst snd].
      destruct (sys_log_frame ERROR "collecting or uploading went wrong" s3)
        as (L1 & _).
      cbn [the_stats with_stats bump_failed total_collections
           successful_uploads failed_uploads].
      rewrite L1, F1, H2. cbn. repeat split; lia. }
  destruct (update_dashboard_frame sd s3) as (D1 & _).
  set (s4 := update_dashboard H sd s3) in *.
  set (s5 := with_step (S (step s4)) s4).
  assert (H5 : the_stats s5 = bump_total (the_stats s)).
  { change (the_stats s5) with (the_stats s4). congruence. }
  destruct (on_uploader_frame
              (log_sensor_data (isoformat_now H (step s4)) sd b) s5)
    as (G1 & _).
  destruct (on_uploader
              (log_sensor_data (isoformat_now H (step s4)) sd b) s5)
    as [[[]|e] s6]; cbn [snd] in G1.
  2:{ unfold round_failed. cbv zeta. cbn [fst snd].
      destruct (sys_log_frame ERROR "collecting or uploading went wrong" s6)
        as (L1 & _).
      cbn [the_stats with_stats bump_failed total_collections
           successful_uploads failed_uploads].
      rewrite L1, G1, H5. cbn. repeat split; lia. }
  destruct (backup_data_frame sd s6) as (B1 & _).
  set (s7 := backup_data json_line H sd s6) in *.
  assert (H7 : the_stats s7 = bump_total (the_stats s)) by congruence.
  destruct b; cbn [fst snd];
    match goal with
    | |- context [sys_log ?l ?m ?x] =>
        destruct (sys_log_frame l m x) as (L1 & _); rewrite L1
    end;
    cbn [the_stats with_stats bump_successful bump_failed total_collections
         successful_uploads failed_uploads];
    rewrite H7; cbn; repeat split; lia.
Qed.

Lemma read_all_sensors_wf (k : nat) :
  well_formed (fst (read_all_sensors H use_real_sensors sensor_types k)) = true.
Proof.
  destruct (reads_not_none H use_real_sensors) as (Rt & Rh & Rp & Rl).
  destruct (read_all_sensors_spec H use_real_sensors (fun _ v => v <> PNone)
              sensor_types k Rt Rh Rp Rl) as (sensors & -> & Hgood & _).
  unfold well_formed. simpl assoc at 1. cbv iota beta.
  assert (Hok : forall n, reading_ok sensors n = true).
  { intros n. unfold reading_ok.
    destruct (assoc n sensors) as [e|] eqn:He; [|reflexivity].
    destruct (Hgood n e He) as (v & unit & -> & _). reflexivity. }
  rewrite !Hok. reflexivity.
Qed.

(** A turn of the loop on a sound queue. *)
Lemma collect_and_upload_sound (s : system) (q : list pyval) :
  cache (uploader s) = PList q ->
  Forall (fun x => well_formed x = true) q ->
  let sd := fst (read_all_sensors H use_real_sensors sensor_types (step s)) in
  let r := collect_and_upload E cfg json_dumps json_line H use_real_sensors
             sensor_types s in
  exists q' t kd kb,
    cache (uploader (snd r)) = PList q'
    /\ Forall (fun x => well_formed x = true) q'
    /\ trace (uploader (snd r)) = trace (uploader s) ++ t
    /\ (fst r = true <-> In sd (acked t))
    /\ the_dashboard (snd r)
       = option_map (fun d => snd (fst (update_data H sd d kd)))
           (the_dashboard s)
    /\ backup_files (snd r)
       = backup_files s
         ++ (if backup_ok H kb then [(backup_name H kb, json_line sd)] else []).
Proof.
  intros Hq Hwf. cbv zeta.
  remember (collect_and_upload E cfg json_dumps json_line H use_real_sensors
              sensor_types s) as r eqn:Hr.
  unfold collect_and_upload in Hr. cbv zeta in Hr.
  set (s1 := sys_log INFO "collecting sensor data"
               (with_stats (bump_total (the_stats s)) s)) in Hr.
  change (step s1) with (step s) in Hr.
  pose proof (read_all_sensors_wf (step s)) as Hsd.
  destruct (read_all_sensors H use_real_sensors sensor_types (step s))
    as [sd k] eqn:Er.
  assert (Esd : sd = fst (read_all_sensors H use_real_sensors sensor_types
                            (step s))) by (rewrite Er; reflexivity).
  cbn [fst] in Hsd |- *.
  set (s2 := sys_log INFO "uploading to the server" (with_step k s1)) in Hr.
  assert (Hq2 : cache (uploader s2) = PList q) by exact Hq.
  destruct (upload_sound E cfg json_dumps sd (uploader s2) q Hsd Hq2 Hwf)
    as (b & w3 & q' & t & Hup & Hc3 & Hwf' & Ht3 & Hb).
  unfold on_uploader at 1 in Hr. rewrite Hup in Hr.
  set (s3 := with_uploader w3 s2) in Hr.
  destruct (update_dashboard_frame sd s3) as (_ & D2 & D3 & _ & D5 & _).
  assert (D6 : exists kd, the_dashboard (update_dashboard H sd s3)
                 = option_map (fun d => snd (fst (update_data H sd d kd)))
                     (the_dashboard s)).
  { exists (step s3). unfold update_dashboard.
    change (the_dashboard s) with (the_dashboard s3).
    destruct (the_dashboard s3) as [d|] eqn:Hd3; [|exact Hd3].
    cbn [option_map].
    destruct (update_data H sd d (step s3)) as [[[[]|e] d'] k'];
      cbn [fst snd];
      try destruct (total_collections
                      (the_stats (with_step k' (with_dashboard (Some d') s3)))
                    mod 10 =? 0);
      reflexivity. }
  destruct D6 as (kd & D6).
  set (s4 := update_dashboard H sd s3) in *.
  set (s5 := with_step (S (step s4)) s4) in Hr.
  destruct (log_sensor_data_returns H use_real_sensors sensor_types (step s)
              (isoformat_now H (step s4)) b (uploader s5))
    as (w6 & Hlog & Hol).
  rewrite <- Esd in Hlog.
  unfold on_uploader at 1 in Hr. rewrite Hlog in Hr.
  set (s6 := with_uploader w6 s5) in Hr.
  destruct (backup_data_frame sd s6) as (_ & B2 & B3 & _ & B5 & B6).
  set (s7 := backup_data json_line H sd s6) in *.
  assert (C7 : cache (uploader s7) = PList q').
  { rewrite B3. change (cache w6 = PList q'). rewrite Hol.
    change (cache (uploader s4) = PList q'). rewrite D3. exact Hc3. }
  assert (T7 : trace (uploader s7) = trace (uploader s) ++ t).
  { rewrite B5. change (trace w6 = trace (uploader s) ++ t). rewrite Hol.
    change (trace (uploader s4) = trace (uploader s) ++ t).
    rewrite D5. exact Ht3. }
  assert (A7 : the_dashboard s7
               = option_map (fun d => snd (fst (update_data H sd d kd)))
                   (the_dashboard s)).
  { rewrite B2. exact D6. }
  assert (F7 : backup_files s7
               = backup_files s
                 ++ (if backup_ok H (step s6)
                     then [(backup_name H (step s6), json_line sd)] else [])).
  { rewrite B6. change (backup_files s6) with (backup_files s4).
    rewrite D2. reflexivity. }
  exists q', t, kd, (step s6).
  destruct b; subst r; cbn [fst snd].
  - split; [exact C7|]. split; [exact Hwf'|]. split; [exact T7|].
    split; [split; [intros _; apply Hb; reflexivity | reflexivity]|].
    split; [exact A7 | exact F7].
  - split; [exact C7|]. split; [exact Hwf'|]. split; [exact T7|].
    split; [split; [discriminate | intros Hin; apply Hb in Hin; discriminate]|].
    split; [exact A7 | exact F7].
Qed.

(** A turn of the loop on a queue that is not a list, during an outage. *)
Lemma collect_and_upload_broken (s : system) :
  enable_cache cfg = true ->
  not_a_list (cache (uploader s)) = true ->
  (forall j, verdict_of (net E j) <> Accepted) ->
  let r := collect_and_upload E cfg json_dumps json_line H use_real_sensors
             sensor_types s in
  fst r = false
  /\ cache (uploader (snd r)) = cache (uploader s)
  /\ file (uploader (snd r)) = file (uploader s)
  /\ backup_files (snd r) = backup_files s
  /\ the_dashboard (snd r) = the_dashboard s
  /\ exists l,
       logs (uploader (snd r))
       = l ++ [(ERROR, "collecting or uploading went wrong")].
Proof.
  intros Hen Hnl Hno. cbv zeta.
  remember (collect_and_upload E cfg json_dumps json_line H use_real_sensors
              sensor_types s) as r eqn:Hr.
  unfold collect_and_upload in Hr. cbv zeta in Hr.
  set (s1 := sys_log INFO "collecting sensor data"
               (with_stats (bump_total (the_stats s)) s)) in Hr.
  change (step s1) with (step s) in Hr.
  pose proof (read_all_sensors_wf (step s)) as Hsd.
  destruct (read_all_sensors H use_real_sensors sensor_types (step s))
    as [sd k].
  cbn [fst] in Hsd.
  set (s2 := sys_log INFO "uploading to the server" (with_step k s1)) in Hr.
  assert (Hnl2 : not_a_list (cache (uploader s2)) = true) by exact Hnl.
  destruct (upload_on_broken_queue E cfg json_dumps sd (uploader s2)
              Hsd Hen Hnl2 Hno) as (w3 & Hup & Hc3 & Hf3).
  unfold on_uploader at 1 in Hr. rewrite Hup in Hr.
  unfold round_failed in Hr. cbv zeta in Hr. subst r. cbn [fst snd].
  split; [reflexivity|]. split; [exact Hc3|]. split; [exact Hf3|].
  split; [reflexivity|]. split; [reflexivity|].
  exists (logs w3). reflexivity.
Qed.

Lemma well_formed_shown (sd : pyval) : well_formed sd = true -> shown sd = true.
Proof.
  unfold shown. intros Hw. rewrite Hw.
  destruct sd; try discriminate. reflexivity.
Qed.

(** [n] turns of the loop on a sound queue, with a disk that takes the
    backups. *)
Lemma run_sound : forall (n : nat) (s : system) (q : list pyval),
  cache (uploader s) = PList q ->
  Forall (fun x => well_formed x = true) q ->
  (forall k, backup_ok H k = true) ->
  let r := run E cfg json_dumps json_line H use_real_sensors sensor_types
             interval n s in
  List.length (fst r) = n
  /\ (exists q', cache (uploader (snd r)) = PList q'
                 /\ Forall (fun x => well_formed x = true) q')
  /\ List.length (backup_files (snd r)) = (List.length (backup_files s) + n)%nat
  /\ (forall d m, the_dashboard s = Some d -> aligned m d -> (m <= 100)%nat ->
        exists d', the_dashboard (snd r) = Some d'
                   /\ aligned (Nat.min 100 (m + n)) d').
Proof.
  induction n as [|n IH]; intros s q Hq Hwf Hdisk; cbv zeta.
  - cbn [run fst snd List.length]. split; [reflexivity|].
    split; [exists q; split; assumption|].
    split; [lia|].
    intros d m Hd Ha Hm. exists d. split; [exact Hd|].
    rewrite Nat.add_0_r, Nat.min_r by exact Hm. exact Ha.
  - cbn [run].
    destruct (collect_and_upload_sound s q Hq Hwf)
      as (q1 & t & kd & kb & C1 & W1 & _ & _ & D1 & F1).
    pose proof (read_all_sensors_wf (step s)) as Hsd.
    set (sd := fst (read_all_sensors H use_real_sensors sensor_types (step s)))
      in *.
    destruct (collect_and_upload E cfg json_dumps json_line H use_real_sensors
                sensor_types s) as [b s1].
    cbn [fst snd] in C1, D1, F1.
    set (s2 := snd (on_uploader (time_sleep interval)
                      (sys_log INFO "waiting for the next collection" s1))).
    assert (C2 : cache (uploader s2) = PList q1) by exact C1.
    specialize (IH s2 q1 C2 W1 Hdisk). cbv zeta in IH.
    destruct IH as (L & Q & F & D).
    destruct (run E cfg json_dumps json_line H use_real_sensors sensor_types
                interval n s2) as [rest s3].
    cbn [fst snd] in *.
    split; [cbn [List.length]; lia|]. split; [exact Q|].
    split.
    { rewrite F. change (backup_files s2) with (backup_files s1).
      rewrite F1, Hdisk, length_app. simpl. lia. }
    intros d m Hd Ha Hm.
    assert (D2 : the_dashboard s2
                 = Some (snd (fst (update_data H sd d kd)))).
    { change (the_dashboard s2) with (the_dashboard s1).
      rewrite D1, Hd. reflexivity. }
    pose proof (update_data_aligned H sd d kd m Ha Hm) as Hstep.
    rewrite (well_formed_shown sd Hsd) in Hstep.
    destruct (D _ _ D2 Hstep (Nat.le_min_l _ _)) as (d' & Hd' & Ha').
    exists d'. split; [exact Hd'|].
    replace (Nat.min 100 (m + S n))
      with (Nat.min 100 (Nat.min 100 (S m) + n)) by lia.
    exact Ha'.
Qed.

Lemma run_stats : forall (n : nat) (s : system),
  let r := run E cfg json_dumps json_line H use_real_sensors sensor_types
             interval n s in
  List.length (fst r) = n
  /\ total_collections (the_stats (snd r))
     = total_collections (the_stats s) + Z.of_nat n
  /\ successful_uploads (the_stats (snd r))
     = successful_uploads (the_stats s)
       + Z.of_nat (count_occ Bool.bool_dec (fst r) true)
  /\ failed_uploads (the_stats (snd r))
     = failed_uploads (the_stats s)
       + Z.of_nat (count_occ Bool.bool_dec (fst r) false).
Proof.
  induction n as [|n IH]; intros s; cbv zeta.
  - cbn [run fst snd List.length count_occ]. repeat split; lia.
  - cbn [run].
    pose proof (collect_and_upload_stats s) as Hs. cbv zeta in Hs.
    destruct (collect_and_upload E cfg json_dumps json_line H use_real_sensors
                sensor_types s) as [b s1].
    cbn [fst snd] in Hs. destruct Hs as (T1 & S1 & F1).
    set (s2 := snd (on_uploader (time_sleep interval)
                      (sys_log INFO "waiting for the next collection" s1))).
    assert (E2 : the_stats s2 = the_stats s1) by reflexivity.
    specialize (IH s2). cbv zeta in IH.
    destruct (run E cfg json_dumps json_line H use_real_sensors sensor_types
                interval n s2) as [rest s3].
    cbn [fst snd] in *. destruct IH as (L & T & S & F).
    rewrite E2 in T, S, F.
    split; [cbn [List.length]; lia|].
    destruct b; cbn [count_occ];
      destruct (Bool.bool_dec true true) as [_|Hn1]; try congruence;
      destruct (Bool.bool_dec false false) as [_|Hn2]; try congruence;
      destruct (Bool.bool_dec true false) as [Hn3|_]; try discriminate;
      destruct (Bool.bool_dec false true) as [Hn4|_]; try discriminate;
      repeat split; lia.
Qed.

End SystemFacts.

(** X21. The counters of the system add up after any number of turns,
    whatever the network, the disk and the queue do, also when a turn
    ends in the handler of [collect_and_upload]: every turn is counted
    once in [total_collections], and once more in [successful_uploads]
    when it returned [True], in [failed_uploads] when it returned
    [False]. *)
Theorem stats_add_up (E : env) (cfg : config)
    (json_dumps json_line : pyval -> string) (H : host) (real : bool)
    (types : list string) (interval : Z) (n : nat) (s : system) :
  List.length
    (fst (run E cfg json_dumps json_line H real types interval n s)) = n
  /\ total_collections
       (the_stats (snd (run E cfg json_dumps json_line H real types interval
                          n s)))
     = total_collections (the_stats s) + Z.of_nat n
  /\ successful_uploads
       (the_stats (snd (run E cfg json_dumps json_line H real types interval
                          n s)))
     = successful_uploads (the_stats s)
       + Z.of_nat (count_occ Bool.bool_dec
                     (fst (run E cfg json_dumps json_line H real types
                             interval n s)) true)
  /\ failed_uploads
       (the_stats (snd (run E cfg json_dumps json_line H real types interval
                          n s)))
     = failed_uploads (the_stats s)
       + Z.of_nat (count_occ Bool.bool_dec
                     (fst (run E cfg json_dumps json_line H real types
                             interval n s)) false).
Proof.
  exact (run_stats E cfg json_dumps json_line H real types interval n s).
Qed.

(** X22. A turn of the loop on a queue of well-formed entries: it returns
    [True] exactly when the collector accepted the reading set just
    read; whichever way the upload went, the same reading set is handed
    to the dashboard, when there is one, and appended to the backup file
    when that write works; and the queue is again one of well-formed
    entries. *)
Theorem turn_on_sound_queue (E : env) (cfg : config)
    (json_dumps json_line : pyval -> string) (H : host) (real : bool)
    (types : list string) (s : system) (q : list pyval) :
  cache (uploader s) = PList q ->
  Forall (fun x => well_formed x = true) q ->
  exists q' t kd kb,
    cache (uploader (snd (collect_and_upload E cfg json_dumps json_line H
                            real types s))) = PList q'
    /\ Forall (fun x => well_formed x = true) q'
    /\ trace (uploader (snd (collect_and_upload E cfg json_dumps json_line H
                               real types s)))
       = trace (uploader s) ++ t
    /\ (fst (collect_and_upload E cfg json_dumps json_line H real types s)
        = true
        <-> In (fst (read_all_sensors H real types (step s))) (acked t))
    /\ the_dashboard (snd (collect_and_upload E cfg json_dumps json_line H
                             real types s))
       = option_map
           (fun d =>
              snd (fst (update_data H
                          (fst (read_all_sensors H real types (step s)))
                          d kd)))
           (the_dashboard s)
    /\ backup_files (snd (collect_and_upload E cfg json_dumps json_line H
                            real types s))
       = backup_files s
         ++ (if backup_ok H kb
             then [(backup_name H kb,
                    json_line (fst (read_all_sensors H real types (step s))))]
             else []).
Proof.
  intros Hq Hwf.
  exact (collect_and_upload_sound E cfg json_dumps json_line H real types
           s q Hq Hwf).
Qed.

Lemma turn_on_sound_queue_witness :
  cache (uploader (Plant.fresh (PList [Sample.rs_A]))) = PList [Sample.rs_A]
  /\ Forall (fun x => well_formed x = true) [Sample.rs_A]
  /\ exists q' t kd kb,
       cache (uploader (snd (collect_and_upload
                               (Sample.env_of (Sample.script [] Timeout))
                               Sample.cfg Sample.json_dumps Sample.json_dumps
                               Rig.the_host false valid_sensors
                               (Plant.fresh (PList [Sample.rs_A])))))
       = PList q'
       /\ Forall (fun x => well_formed x = true) q'
       /\ trace (uploader (snd (collect_and_upload
                                  (Sample.env_of (Sample.script [] Timeout))
                                  Sample.cfg Sample.json_dumps
                                  Sample.json_dumps
                                  Rig.the_host false valid_sensors
                                  (Plant.fresh (PList [Sample.rs_A])))))
          = trace (uploader (Plant.fresh (PList [Sample.rs_A]))) ++ t
       /\ (fst (collect_and_upload
                  (Sample.env_of (Sample.script [] Timeout))
                  Sample.cfg Sample.json_dumps Sample.json_dumps
                  Rig.the_host false valid_sensors
                  (Plant.fresh (PList [Sample.rs_A]))) = true
           <-> In (fst (read_all_sensors Rig.the_host false valid_sensors
                          (step (Plant.fresh (PList [Sample.rs_A])))))
                 (acked t))
       /\ the_dashboard (snd (collect_and_upload
                                (Sample.env_of (Sample.script [] Timeout))
                                Sample.cfg Sample.json_dumps
                                Sample.json_dumps
                                Rig.the_host false valid_sensors
                                (Plant.fresh (PList [Sample.rs_A]))))
          = option_map
              (fun d =>
                 snd (fst (update_data Rig.the_host
                             (fst (read_all_sensors Rig.the_host false
                                     valid_sensors
                                     (step (Plant.fresh
                                              (PList [Sample.rs_A])))))
                             d kd)))
              (the_dashboard (Plant.fresh (PList [Sample.rs_A])))
       /\ backup_files (snd (collect_and_upload
                               (Sample.env_of (Sample.script [] Timeout))
                               Sample.cfg Sample.json_dumps
                               Sample.json_dumps
                               Rig.the_host false valid_sensors
                               (Plant.fresh (PList [Sample.rs_A]))))
          = backup_files (Plant.fresh (PList [Sample.rs_A]))
            ++ (if backup_ok Rig.the_host kb
                then [(backup_name Rig.the_host kb,
                       Sample.json_dumps
                         (fst (read_all_sensors Rig.the_host false
                                 valid_sensors
                                 (step (Plant.fresh
                                          (PList [Sample.rs_A]))))))]
                else []).
Proof.
  assert (Q : cache (uploader (Plant.fresh (PList [Sample.rs_A])))
              = PList [Sample.rs_A]) by reflexivity.
  assert (W : Forall (fun x => well_formed x = true) [Sample.rs_A])
    by (repeat constructor).
  split; [exact Q|]. split; [exact W|].
  exact (turn_on_sound_queue (Sample.env_of (Sample.script [] Timeout))
           Sample.cfg Sample.json_dumps Sample.json_dumps Rig.the_host false
           valid_sensors (Plant.fresh (PList [Sample.rs_A])) [Sample.rs_A]
           Q W).
Defined.

(** X23. When the queue in memory is not a list, as after loading a cache
    file that holds another JSON value, and the collector accepts
    nothing, a turn of the loop loses the reading set it has just read:
    the exception of the uploader ends the turn in the handler, which
    returns [False] and counts a failure; the reading set is neither
    queued nor written to the backup file nor handed to the dashboard,
    and the last line of the log is the ERROR line of the handler. *)
Theorem broken_queue_loses_the_reading (E : env) (cfg : config)
    (json_dumps json_line : pyval -> string) (H : host) (real : bool)
    (types : list string) (s : system) :
  enable_cache cfg = true ->
  not_a_list (cache (uploader s)) = true ->
  (forall j, verdict_of (net E j) <> Accepted) ->
  fst (collect_and_upload E cfg json_dumps json_line H real types s) = false
  /\ cache (uploader (snd (collect_and_upload E cfg json_dumps json_line H
                             real types s)))
     = cache (uploader s)
  /\ file (uploader (snd (collect_and_upload E cfg json_dumps json_line H
                            real types s)))
     = file (uploader s)
  /\ backup_files (snd (collect_and_upload E cfg json_dumps json_line H
                          real types s))
     = backup_files s
  /\ the_dashboard (snd (collect_and_upload E cfg json_dumps json_line H
                           real types s))
     = the_dashboard s
  /\ failed_uploads (the_stats (snd (collect_and_upload E cfg json_dumps
                                       json_line H real types s)))
     = failed_uploads (the_stats s) + 1
  /\ exists l,
       logs (uploader (snd (collect_and_upload E cfg json_dumps json_line H
                              real types s)))
       = l ++ [(ERROR, "collecting or uploading went wrong")].
Proof.
  intros Hen Hnl Hno.
  destruct (collect_and_upload_broken E cfg json_dumps json_line H real types
              s Hen Hnl Hno) as (R & C & F & B & D & L).
  destruct (collect_and_upload_stats E cfg json_dumps json_line H real types
              s) as (_ & _ & S).
  rewrite R in S.
  repeat (split; [assumption|]). exact L.
Qed.

Lemma broken_queue_loses_the_reading_witness :
  enable_cache Sample.cfg = true
  /\ not_a_list (cache (uploader (Plant.fresh (PDict [("broken", PInt 1)]))))
     = true
  /\ fst (collect_and_upload (Sample.env_of (Sample.script [] Timeout))
            Sample.cfg Sample.json_dumps Sample.json_dumps Rig.the_host false
            valid_sensors (Plant.fresh (PDict [("broken", PInt 1)])))
     = false
  /\ backup_files
       (snd (collect_and_upload (Sample.env_of (Sample.script [] Timeout))
               Sample.cfg Sample.json_dumps Sample.json_dumps Rig.the_host
               false valid_sensors (Plant.fresh (PDict [("broken", PInt 1)]))))
     = [].
Proof.
  assert (N : forall j,
            verdict_of (net (Sample.env_of (Sample.script [] Timeout)) j)
            <> Accepted).
  { intros j. unfold Sample.env_of, Sample.script. simpl.
    destruct j as [|j]; simpl; discriminate. }
  split; [reflexivity|]. split; [reflexivity|].
  destruct (broken_queue_loses_the_reading
              (Sample.env_of (Sample.script [] Timeout)) Sample.cfg
              Sample.json_dumps Sample.json_dumps Rig.the_host false
              valid_sensors (Plant.fresh (PDict [("broken", PInt 1)]))
              eq_refl eq_refl N) as (R & _ & _ & B & _).
  split; [exact R | exact B].
Defined.

(** X24. A run of the loop on a queue of well-formed entries, with a disk
    that takes the backups: after [n] turns there are [n] results and [n]
    more lines in the backup files, the queue is one of well-formed
    entries, and a dashboard whose history held [m] points holds [m + n]
    of them, capped at 100, in each of its five lists. *)
Theorem healthy_run (E : env) (cfg : config)
    (json_dumps json_line : pyval -> string) (H : host) (real : bool)
    (types : list string) (interval : Z) (n : nat) (s : system)
    (q : list pyval) (d : dashboard) (m : nat) :
  cache (uploader s) = PList q ->
  Forall (fun x => well_formed x = true) q ->
  (forall k, backup_ok H k = true) ->
  the_dashboard s = Some d ->
  aligned m d ->
  (m <= 100)%nat ->
  List.length (fst (run E cfg json_dumps json_line H real types interval n s))
  = n
  /\ (exists q',
        cache (uploader (snd (run E cfg json_dumps json_line H real types
                                interval n s))) = PList q'
        /\ Forall (fun x => well_formed x = true) q')
  /\ List.length
       (backup_files (snd (run E cfg json_dumps json_line H real types
                             interval n s)))
     = (List.length (backup_files s) + n)%nat
  /\ exists d',
       the_dashboard (snd (run E cfg json_dumps json_line H real types
                             interval n s)) = Some d'
       /\ aligned (Nat.min 100 (m + n)) d'.
Proof.
  intros Hq Hwf Hdisk Hd Ha Hm.
  destruct (run_sound E cfg json_dumps json_line H real types interval n s q
              Hq Hwf Hdisk) as (L & Q & B & D).
  split; [exact L|]. split; [exact Q|]. split; [exact B|].
  exact (D d m Hd Ha Hm).
Qed.

Lemma healthy_run_witness :
  exists d',
    the_dashboard
      (snd (run (Sample.env_of (Sample.script [Sample.accepted] Timeout))
              Sample.cfg Sample.json_dumps Sample.json_dumps Rig.the_host
              false valid_sensors 5 3 (Plant.fresh (PList [])))) = Some d'
    /\ aligned 3 d'.
Proof.
  assert (W : Forall (fun x => well_formed x = true) []) by constructor.
  assert (A : aligned 0 dashboard_init) by (repeat split; reflexivity).
  assert (D : forall k, backup_ok Rig.the_host k = true)
    by (intros k; reflexivity).
  destruct (healthy_run
              (Sample.env_of (Sample.script [Sample.accepted] Timeout))
              Sample.cfg Sample.json_dumps Sample.json_dumps Rig.the_host
              false valid_sensors 5 3 (Plant.fresh (PList [])) []
              dashboard_init 0 eq_refl W D eq_refl A (Nat.le_0_l 100))
    as (_ & _ & _ & Hd).
  exact Hd.
Defined.
